(** * Climate classification with Keras: a shallow embedding of the notebook

    The notebook [2019-06-02-climate-with-keras.ipynb] is a straight line of
    eight code cells.  This development embeds it in two layers:

    - the cells' data semantics (modules [Int32], [Numpy], [Loader], [Keras],
      [Network], [Training], [Clustering], [Reporter] and [Pipeline]): every
      cell is a function of the globals it reads, with Python exceptions as
      an error result;
    - the cells' syntax (modules [Py] and [Notebook]): the statements as an
      abstract syntax tree, with an interpreter that resolves names against
      the kernel's namespace and records the library calls made.

    Numbers held in [np.int32] arrays are integers with the wrap-around
    written out; floating-point weights are kept abstract; the text of a
    file is its bytes read as UTF-8. *)

From stdpp Require Import base option list strings gmap.
From Stdlib Require Import ZArith Lia Ascii.

Set Warnings "-register-all".

(** ** Python exceptions and the error result *)

Inductive exn : Type :=
  | NameError (name : string)
  | IndexError
  | KeyError (key : string)
  | ValueError
  | FileNotFoundError (path : string)
  | UnicodeDecodeError
  | BackendError.

Inductive result (A : Type) : Type :=
  | Ok (a : A)
  | Raise (e : exn).
Arguments Ok {A} a.
Arguments Raise {A} e.

Definition rbind {A B : Type} (r : result A) (k : A → result B) : result B :=
  match r with
  | Ok a => k a
  | Raise e => Raise e
  end.

#[global] Instance result_ret : MRet result := @Ok.
#[global] Instance result_bind : MBind result := λ A B k r, rbind r k.
#[global] Instance result_fmap : FMap result :=
  λ A B f r, rbind r (λ a, Ok (f a)).

Definition is_ok {A : Type} (r : result A) : bool :=
  match r with Ok _ => true | Raise _ => false end.

(** ** Signed 32-bit integers, as held in an [np.int32] array *)

Module Int32.
Open Scope Z_scope.

Definition min_signed : Z := - 2 ^ 31.
Definition max_signed : Z := 2 ^ 31 - 1.

(** Two's-complement reduction to the signed 32-bit range. *)
Definition wrap (z : Z) : Z := (z + 2 ^ 31) mod 2 ^ 32 - 2 ^ 31.

Definition add (a b : Z) : Z := wrap (a + b).
Definition sub (a b : Z) : Z := wrap (a - b).
Definition mul (a b : Z) : Z := wrap (a * b).

Definition in_range (z : Z) : Prop := min_signed ≤ z ≤ max_signed.
End Int32.

(** ** The part of numpy the notebook uses *)

Module Numpy.
Open Scope Z_scope.

(** A two-dimensional integer array: its column count and its rows. *)
Record ndarray : Type := mk_ndarray {
  ncols : nat;
  rows : list (list Z)
}.

(** An [.npz] archive maps array names to arrays; any other file is its
    bytes. *)
Inductive file : Type :=
  | NpzFile (arrays : gmap string ndarray)
  | TextFile (content : string).

(** [np.load(path)] *)
Definition load (fs : gmap string file) (path : string)
  : result (gmap string ndarray) :=
  match fs !! path with
  | Some (NpzFile arrays) => Ok arrays
  | Some (TextFile _) => Raise ValueError
  | None => Raise (FileNotFoundError path)
  end.

(** [npz[name]] *)
Definition getitem (npz : gmap string ndarray) (name : string)
  : result ndarray :=
  match npz !! name with
  | Some a => Ok a
  | None => Raise (KeyError name)
  end.

(** [a.astype(np.int32)] *)
Definition astype_int32 (a : ndarray) : ndarray :=
  mk_ndarray (ncols a) (map (map Int32.wrap) (rows a)).

(** [a[:, j]] *)
Definition column (j : nat) (a : ndarray) : result (list Z) :=
  if (j <? ncols a)%nat
  then Ok (map (λ r, nth j r 0) (rows a))
  else Raise IndexError.

(** [a[:, j:]] *)
Definition columns_from (j : nat) (a : ndarray) : ndarray :=
  mk_ndarray (ncols a - j)%nat (map (drop j) (rows a)).

(** [np.max(v)] of a one-dimensional array; the empty array has no
    maximum. *)
Fixpoint max_list (x : Z) (v : list Z) : Z :=
  match v with
  | [] => x
  | y :: v' => max_list (Z.max x y) v'
  end.

Definition max (v : list Z) : result Z :=
  match v with
  | [] => Raise ValueError
  | x :: v' => Ok (max_list x v')
  end.

(** Element-wise [v - k] and [k * v] of an int32 array with a Python
    integer, and [v + w] of two int32 arrays. *)
Definition sub_scalar (v : list Z) (k : Z) : list Z :=
  map (λ x, Int32.sub x k) v.
Definition scalar_mul (k : Z) (v : list Z) : list Z :=
  map (λ x, Int32.mul k x) v.
Definition add_arrays (v w : list Z) : list Z :=
  zip_with Int32.add v w.
End Numpy.

(** ** Cell 2: loading the observation table *)

Module Loader.
Import Numpy.
Open Scope Z_scope.

Definition DATA_PATH : string := "data/weather".

(** [os.path.join(a, b)] on a POSIX system. *)
Definition os_path_join (a b : string) : string :=
  if String.prefix "/" b then b
  else if decide (a = "") then b
  else if String.prefix "/" (String.rev a) then a +:+ b
  else a +:+ "/" +:+ b.

Definition matrix_file : string :=
  os_path_join DATA_PATH "data/gsn-2000-TMAX-TMIN-PRCP.npz".

Definition STATION_ID_COL : nat := 0.
Definition MONTH_COL : nat := 1.
Definition DAY_COL : nat := 2.
Definition VAL_COLS_START : nat := 3.
Definition TMAX_COL : nat := 3.
Definition TMIN_COL : nat := 4.
Definition PRCP_COL : nat := 5.

(** [with np.load(matrix_file) as npz_data: ...] *)
Definition weather_data (fs : gmap string file) : result ndarray :=
  npz_data ← load fs matrix_file;
  data ← getitem npz_data "data";
  Ok (astype_int32 data).

(** [31 * (weather_data[:, MONTH_COL] - 1) + (weather_data[:, DAY_COL] - 1)] *)
Definition weather_data_day_of_year_data (wd : ndarray) : result (list Z) :=
  months ← column MONTH_COL wd;
  days ← column DAY_COL wd;
  Ok (add_arrays (scalar_mul 31 (sub_scalar months 1)) (sub_scalar days 1)).

(** Cell 3 *)
Definition station_id_data (wd : ndarray) : result (list Z) :=
  column STATION_ID_COL wd.
Definition weather_prediction (wd : ndarray) : ndarray :=
  columns_from VAL_COLS_START wd.

(** The day-of-year index of one record. *)
Definition day_of_year_index (month day : Z) : Z :=
  Int32.add (Int32.mul 31 (Int32.sub month 1)) (Int32.sub day 1).

(** An observation record as the data model has it: six columns, the
    month in 1..12 and the day in 1..31. *)
Definition month_of (r : list Z) : Z := nth MONTH_COL r 0.
Definition day_of (r : list Z) : Z := nth DAY_COL r 0.

Definition valid_row (r : list Z) : bool :=
  (length r =? 6)%nat
  && (1 <=? month_of r) && (month_of r <=? 12)
  && (1 <=? day_of r) && (day_of r <=? 31).

Definition valid_table (wd : ndarray) : bool :=
  (ncols wd =? 6)%nat && forallb valid_row (rows wd).
End Loader.

(** ** The part of Keras the notebook uses: layers and their shapes *)

Module Keras.
Import Numpy.

Inductive activation : Type := relu.

(** The layer constructors the notebook calls.  [activation = None] is
    Keras's linear (identity) activation. *)
Inductive layer : Type :=
  | Input (shape : list nat) (name : string)
  | Embedding (output_dim : nat) (input_dim : Z) (name : string)
  | Reshape (target_shape : list nat) (name : string)
  | Concatenate (name : string)
  | Dense (units : nat) (act : option activation) (name : string).

Definition layer_name (l : layer) : string :=
  match l with
  | Input _ n | Embedding _ _ n | Reshape _ n | Concatenate n
  | Dense _ _ n => n
  end.

(** A symbolic tensor of the functional API: a layer called on the
    tensors it consumes. *)
Inductive tensor : Type :=
  | Call (l : layer) (inputs : list tensor).

Definition product (s : list nat) : nat := foldr Nat.mul 1%nat s.

(** The shape of a layer's output for one sample (the batch axis, printed
    as [None] by [model.summary()], is left out). *)
Definition layer_output_shape (l : layer) (ins : list (list nat))
  : result (list nat) :=
  match l, ins with
  | Input shape _, [] => Ok shape
  | Embedding output_dim _ _, [s] => Ok (s ++ [output_dim])
  | Reshape target _, [s] =>
      if (product s =? product target)%nat then Ok target
      else Raise ValueError
  | Concatenate _, s1 :: s2 :: rest =>
      if forallb (λ s, bool_decide (removelast s = removelast s1)
                       && negb (bool_decide (s = [])))
                 (s1 :: s2 :: rest)
      then Ok (removelast s1
               ++ [foldr Nat.add 0%nat (map (λ s, List.last s 0%nat)
                                            (s1 :: s2 :: rest))])
      else Raise ValueError
  | Dense units _ _, [s] =>
      match s with
      | [] => Raise ValueError
      | _ => Ok (removelast s ++ [units])
      end
  | _, _ => Raise ValueError
  end.

Fixpoint sequence_results {A : Type} (rs : list (result A))
  : result (list A) :=
  match rs with
  | [] => Ok []
  | r :: rs' => a ← r; as' ← sequence_results rs'; Ok (a :: as')
  end.

Fixpoint output_shape (t : tensor) : result (list nat) :=
  match t with
  | Call l inputs =>
      ins ← sequence_results (map output_shape inputs);
      layer_output_shape l ins
  end.

(** The shapes of the weight arrays a layer creates when it is built,
    which is when it is called on its inputs.  An array cannot have a
    negative number of rows: an embedding of negative [input_dim] raises
    [ValueError] instead of creating its table. *)
Definition weight_shapes (l : layer) (ins : list (list nat))
  : result (list (list nat)) :=
  match l, ins with
  | Embedding output_dim input_dim _, _ =>
      if (input_dim <? 0)%Z then Raise ValueError
      else Ok [[Z.to_nat input_dim; output_dim]]
  | Dense units _ _, [s] => Ok [[List.last s 0%nat; units]; [units]]
  | _, _ => Ok []
  end.

Definition size_of (s : list nat) : Z :=
  foldr Z.mul 1%Z (map Z.of_nat s).

Definition count_params (l : layer) (ins : list (list nat)) : result Z :=
  shapes ← weight_shapes l ins;
  Ok (foldr Z.add 0%Z (map size_of shapes)).

(** The layers of the graph that ends in [t], inputs first, each with the
    shapes it is called on. *)
Fixpoint layers (t : tensor) : list (layer * list (list nat)) :=
  match t with
  | Call l inputs =>
      concat (map layers inputs)
      ++ [(l, omap (λ i, match output_shape i with
                         | Ok s => Some s
                         | Raise _ => None
                         end) inputs)]
  end.

(** [Model(inputs=..., outputs=...)] followed by
    [model.compile(optimizer=..., loss=...)]. *)
Record model : Type := Model {
  inputs : list tensor;
  outputs : tensor;
  optimizer : string;
  loss : string
}.

(** The rows of [model.summary()]: layer name, output shape, parameters. *)
Definition summary (m : model)
  : list (string * result (list nat) * result Z) :=
  map (λ '(l, ins), (layer_name l, layer_output_shape l ins,
                     count_params l ins))
      (layers (outputs m)).

Definition total_params (m : model) : result Z :=
  counts ← sequence_results (map (λ '(l, ins), count_params l ins)
                                 (layers (outputs m)));
  Ok (foldr Z.add 0%Z counts).
End Keras.

(** ** Cells 4 and 5: the parameters and the network *)

Module Network.
Import Numpy Keras.
Open Scope Z_scope.

Definition BATCH_SIZE : nat := 50.
Definition EMBEDDING_SIZE : nat := 20.
Definition HIDDEN_UNITS : nat := 40.
Definition CLUSTER_NUMBER : nat := 6.

(** [np.max(weather_data[:, STATION_ID_COL]) + 1].  The maximum is an
    [np.int32] scalar; under the notebook's Python 3.7 (numpy 1.x) a
    numpy integer scalar plus a Python integer is computed at 64 bits, so
    the sum of an int32 and 1 is exact. *)
Definition NUM_STATIONS (wd : ndarray) : result Z :=
  ids ← column Loader.STATION_ID_COL wd;
  m ← Numpy.max ids;
  Ok (m + 1).

Section Graph.
Variable num_stations : Z.

Definition station_id_input : tensor :=
  Call (Input [1%nat] "station_id_input") [].
Definition month_day_input : tensor :=
  Call (Input [1%nat] "month_day_input") [].

Definition embedded_stations : tensor :=
  Call (Embedding EMBEDDING_SIZE num_stations "embedded_stations")
       [station_id_input].

Definition embedded_station_reshape : tensor :=
  Call (Reshape [EMBEDDING_SIZE] "embedded_station_reshape")
       [embedded_stations].

Definition station_and_day : tensor :=
  Call (Concatenate "station_and_day")
       [embedded_station_reshape; month_day_input].

Definition hidden : tensor :=
  Call (Dense HIDDEN_UNITS (Some relu) "hidden") [station_and_day].

Definition prediction : tensor :=
  Call (Dense 3 None "prediction") [hidden].

Definition model : Keras.model :=
  Model [station_id_input; month_day_input] prediction
        "adam" "mean_squared_error".
End Graph.
End Network.

(** ** The numeric backend

    Weights are floating-point numbers and the optimizer is Keras's; both
    stay abstract.  A backend supplies the scalar type with its arithmetic,
    the (random) initial value of every weight entry, the (random) order in
    which an epoch visits the samples, and the optimizer: from the weights,
    a batch and the predictions made on it, the optimizer gives the new
    value of every weight entry.  Weight arrays never change shape. *)

Inductive array (R : Type) : Type :=
  | Arr1 (v : list R)
  | Arr2 (m : list (list R)).
Arguments Arr1 {R} v.
Arguments Arr2 {R} m.

(** One training sample: the two inputs and the observed targets. *)
Record sample : Type := Sample {
  sample_station : Z;
  sample_day : Z;
  sample_target : list Z
}.

Class Backend (R : Type) : Type := {
  add : R → R → R;
  mul : R → R → R;
  of_int : Z → R;
  relu_fn : R → R;
  (** layer name, position in the layer's weight list, row, column *)
  initializer : string → nat → nat → nat → R;
  shuffle : nat → list nat → list nat;
  opt_state : Type;
  opt_init : opt_state;
  (** optimizer name, loss name, state, weights, batch, predictions *)
  optimizer_step :
    string → string → opt_state → list (string * list (array R)) →
    list sample → list (list R) →
    opt_state * (string → nat → nat → nat → R)
}.

Module Training.
Import Numpy Keras.
Open Scope nat_scope.

Section WithBackend.
Context {R : Type} {B : Backend R}.

(** The weights of a model: its layers in order, by name, each with
    the list [layer.get_weights()] returns. *)
Definition weights : Type := list (string * list (array R)).

Definition tabulate {A : Type} (n : nat) (f : nat → A) : list A :=
  map f (seq 0 n).

Definition build_array (name : string) (k : nat) (s : list nat) : array R :=
  match s with
  | [r; c] => Arr2 (tabulate r (λ i, tabulate c (initializer name k i)))
  | [n] => Arr1 (tabulate n (initializer name k 0))
  | _ => Arr1 []
  end.

Definition build_layer (l : layer) (ins : list (list nat))
  : result (list (array R)) :=
  shapes ← weight_shapes l ins;
  Ok (imap (build_array (layer_name l)) shapes).

(** The weights of every layer of the model, created as the layers are
    called on their inputs; the first layer that cannot create its weights
    stops the construction. *)
Definition build (m : model) : result weights :=
  sequence_results
    (map (λ '(l, ins), ws ← build_layer l ins; Ok (layer_name l, ws))
         (layers (outputs m))).

(** [model.get_layer(name).get_weights()]: the first layer of that
    name, [ValueError] when there is none. *)
Fixpoint get_layer_weights (w : weights) (name : string)
  : result (list (array R)) :=
  match w with
  | [] => Raise ValueError
  | (n, ws) :: w' =>
      if decide (n = name) then Ok ws else get_layer_weights w' name
  end.

(** [ws[k]] on a Python list *)
Definition list_getitem {A : Type} (l : list A) (k : nat) : result A :=
  match l !! k with
  | Some a => Ok a
  | None => Raise IndexError
  end.

(** *** The forward pass on one sample *)

(** The data of a tensor for one sample, flattened in row-major order;
    the integer inputs stay integers until a layer consumes them. *)
Inductive value : Type :=
  | VInt (v : list Z)
  | VFlt (v : list R).

Definition as_floats (v : value) : list R :=
  match v with
  | VInt v => map of_int v
  | VFlt v => v
  end.

(** Row [i] of the embedding table; an index outside the table is an
    error of the backend's lookup operation. *)
Definition embedding_lookup (W : list (list R)) (i : Z) : result (list R) :=
  if (0 <=? i)%Z then
    match W !! Z.to_nat i with
    | Some row => Ok row
    | None => Raise BackendError
    end
  else Raise BackendError.

Definition apply_activation (act : option activation) (x : R) : R :=
  match act with
  | Some relu => relu_fn x
  | None => x
  end.

(** [activation(x . K + b)] *)
Definition dense (act : option activation) (K : list (list R))
    (b : list R) (x : list R) : result (list R) :=
  if length x =? length K then
    Ok (map (apply_activation act)
            (fold_left (λ acc '(xi, row), zip_with add acc (map (mul xi) row))
                       (zip x K) b))
  else Raise ValueError.

Definition call_layer (l : layer) (ws : list (array R))
    (feed : list (string * list Z)) (ins : list value) : result value :=
  match l, ins with
  | Input _ name, [] =>
      match list_find (λ p, p.1 = name) feed with
      | Some (_, (_, v)) => Ok (VInt v)
      | None => Raise (KeyError name)
      end
  | Embedding _ _ _, [VInt idx] =>
      match ws with
      | [Arr2 W] =>
          rows ← sequence_results (map (embedding_lookup W) idx);
          Ok (VFlt (concat rows))
      | _ => Raise ValueError
      end
  | Reshape _ _, [v] => Ok (VFlt (as_floats v))
  | Concatenate _, v1 :: v2 :: vs =>
      Ok (VFlt (concat (map as_floats (v1 :: v2 :: vs))))
  | Dense _ act _, [v] =>
      match ws with
      | [Arr2 K; Arr1 b] => y ← dense act K b (as_floats v); Ok (VFlt y)
      | _ => Raise ValueError
      end
  | _, _ => Raise ValueError
  end.

Fixpoint eval (w : weights) (feed : list (string * list Z)) (t : tensor)
  : result value :=
  match t with
  | Call l inputs =>
      ins ← sequence_results (map (eval w feed) inputs);
      ws ← get_layer_weights w (layer_name l);
      call_layer l ws feed ins
  end.

(** *** [model.fit] *)

Definition feed_of (s : sample) : list (string * list Z) :=
  [("station_id_input", [sample_station s]);
   ("month_day_input", [sample_day s])].

Definition predict (m : model) (w : weights) (s : sample)
  : result (list R) :=
  v ← eval w (feed_of s) (outputs m); Ok (as_floats v).

Definition update_array (f : nat → nat → R) (a : array R) : array R :=
  match a with
  | Arr1 v => Arr1 (imap (λ j _, f 0 j) v)
  | Arr2 m => Arr2 (imap (λ i row, imap (λ j _, f i j) row) m)
  end.

Definition update_weights (f : string → nat → nat → nat → R) (w : weights)
  : weights :=
  map (λ '(name, ws), (name, imap (λ k a, update_array (f name k) a) ws)) w.

(** One gradient step: the forward pass on every sample of the batch,
    then the optimizer's update. *)
Definition train_on_batch (m : model) (st : opt_state) (w : weights)
    (batch : list sample) : result (opt_state * weights) :=
  preds ← sequence_results (map (predict m w) batch);
  let '(st', f) := optimizer_step (optimizer m) (loss m) st w batch preds in
  Ok (st', update_weights f w).

(** Keras's [make_batches]: consecutive slices of [batch_size]
    indices, the last one shorter when the size does not divide. *)
Fixpoint chunks_fuel {A : Type} (fuel size : nat) (l : list A)
  : list (list A) :=
  match fuel, l with
  | 0, _ | _, [] => []
  | S fuel', _ => take size l :: chunks_fuel fuel' size (drop size l)
  end.

Definition make_batches {A : Type} (size : nat) (l : list A)
  : list (list A) :=
  chunks_fuel (length l) size l.

(** The batch size [fit] uses when the caller passes none. *)
Definition default_batch_size : nat := 32.

Inductive fit_event : Type :=
  | EpochBegin (epoch epochs : nat)
  | BatchEnd (size : nat).

Record fit_result : Type := FitResult {
  fit_log : list fit_event;
  fit_outcome : result (opt_state * weights)
}.

Fixpoint run_batches (m : model) (st : opt_state) (w : weights)
    (batches : list (list sample)) : fit_result :=
  match batches with
  | [] => FitResult [] (Ok (st, w))
  | b :: bs =>
      match train_on_batch m st w b with
      | Raise e => FitResult [] (Raise e)
      | Ok (st', w') =>
          let r := run_batches m st' w' bs in
          FitResult (BatchEnd (length b) :: fit_log r) (fit_outcome r)
      end
  end.

Fixpoint run_epochs (m : model) (data : list sample) (batch_size : nat)
    (epochs todo : nat) (st : opt_state) (w : weights) : fit_result :=
  match todo with
  | 0 => FitResult [] (Ok (st, w))
  | S todo' =>
      let epoch := epochs - todo in
      let index_array := shuffle epoch (seq 0 (length data)) in
      let batches :=
        map (λ ids, omap (λ i, data !! i) ids)
            (make_batches batch_size index_array) in
      let r := run_batches m st w batches in
      match fit_outcome r with
      | Raise e =>
          FitResult (EpochBegin (S epoch) epochs :: fit_log r) (Raise e)
      | Ok (st', w') =>
          let r' := run_epochs m data batch_size epochs todo' st' w' in
          FitResult (EpochBegin (S epoch) epochs :: fit_log r ++ fit_log r')
                    (fit_outcome r')
      end
  end.

(** Before training, [fit] checks what it was given against the model:
    one array per input, all of them and the targets of one length, and
    targets as wide as the output. *)
Definition standardize (m : model) (x : list (list Z)) (y : list (list Z))
  : result (list sample) :=
  match x, output_shape (outputs m) with
  | [ids; days], Ok [width] =>
      if (length ids =? length y) && (length days =? length y)
         && forallb (λ t, length t =? width) y
      then Ok (zip_with (λ '(i, d) t, Sample i d t) (zip ids days) y)
      else Raise ValueError
  | _, _ => Raise ValueError
  end.

(** [model.fit(x, y, batch_size=None, epochs=1)] *)
Definition fit (m : model) (st : opt_state) (w : weights)
    (x : list (list Z)) (y : list (list Z))
    (batch_size : option nat) (epochs : nat) : fit_result :=
  match standardize m x y with
  | Raise e => FitResult [] (Raise e)
  | Ok data =>
      run_epochs m data (default default_batch_size batch_size)
                 epochs epochs st w
  end.

End WithBackend.
End Training.

(** ** Cell 8, first half: k-means on the trained embeddings *)

(** Modelled from the spec: the clustering routine [KMeans] belongs to the
    machine-learning toolkit and is not part of the notebook.  What follows
    is the standard iterative centroid-based algorithm the specification
    describes: seeded initial centres, then alternating assignment and
    centre-update steps until convergence or an iteration cap.  Distances
    between rows and means of rows are floating-point computations; they
    stay abstract, as does the seeded choice of the initial centres. *)
Class Geometry (R : Type) : Type := {
  distance : list R → list R → R;
  closer : R → R → bool;
  mean : list (list R) → list R;
  (** seed, position of the centre, number of rows: the row to start from *)
  seeded_choice : nat → nat → nat → nat
}.

Module Clustering.
Open Scope nat_scope.

(** [KMeans(n_clusters=..., random_state=...)]; the iteration cap is the
    library's default. *)
Record KMeans : Type := mk_KMeans {
  n_clusters : nat;
  random_state : nat;
  max_iter : nat
}.

Definition default_max_iter : nat := 300.

Section Lloyd.
Context {R : Type} {G : Geometry R}.

(** The index of the centre nearest to [x]: a scan that keeps the best
    centre seen so far. *)
Fixpoint nearest_from (x : list R) (best : nat) (best_d : R) (j : nat)
    (centres : list (list R)) : nat :=
  match centres with
  | [] => best
  | c :: centres' =>
      let d := distance x c in
      if closer d best_d then nearest_from x j d (S j) centres'
      else nearest_from x best best_d (S j) centres'
  end.

Definition nearest (centres : list (list R)) (x : list R) : nat :=
  match centres with
  | [] => 0
  | c :: centres' => nearest_from x 0 (distance x c) 1 centres'
  end.

(** Assignment step. *)
Definition assign (centres : list (list R)) (X : list (list R)) : list nat :=
  map (nearest centres) X.

Definition members (j : nat) (labels : list nat) (X : list (list R))
  : list (list R) :=
  omap (λ '(l, x), if decide (l = j) then Some x else None) (zip labels X).

(** Centre-update step: the mean of the rows assigned to each centre;
    a centre without rows stays where it is. *)
Definition update (centres : list (list R)) (labels : list nat)
    (X : list (list R)) : list (list R) :=
  imap (λ j c, match members j labels X with
               | [] => c
               | ms => mean ms
               end) centres.

(** Seeded initialisation: [k] rows of the data. *)
Definition init_centres (k seed : nat) (X : list (list R))
  : list (list R) :=
  map (λ i, nth (seeded_choice seed i (length X)) X []) (seq 0 k).

(** Alternate the two steps until the labels stop changing or the
    iteration cap is reached. *)
Fixpoint lloyd (iters : nat) (centres : list (list R)) (X : list (list R))
    (labels : list nat) : list nat :=
  match iters with
  | 0 => labels
  | S iters' =>
      let centres' := update centres labels X in
      let labels' := assign centres' X in
      if decide (labels' = labels) then labels
      else lloyd iters' centres' X labels'
  end.

(** Modelled from the spec: [KMeans(...).fit(X).labels_], one label per
    row; fewer rows than clusters is an error. *)
Definition fit_labels (km : KMeans) (X : list (list R)) : result (list nat) :=
  if (n_clusters km =? 0) || (length X <? n_clusters km)
  then Raise ValueError
  else
    let centres := init_centres (n_clusters km) (random_state km) X in
    Ok (lloyd (max_iter km) centres X (assign centres X)).
End Lloyd.
End Clustering.

(** ** Cell 8, second half: pairing stations with labels *)

Module Reporter.
Import Numpy.
Open Scope nat_scope.

Definition newline : ascii := "010"%char.
Definition carriage_return : ascii := "013"%char.

(** *** Text

    A file opened in text mode is decoded as it is read, on a system whose
    preferred encoding is UTF-8 by the strict UTF-8 codec.  A Python [str]
    is kept here as its UTF-8 encoding, and read character by character
    where the code points matter. *)

(** One character of a text: its code point, [None] when the bytes
    stand for none, and its bytes. *)
Definition character : Type := option N * string.

(** The payload of a continuation byte, [10xxxxxx]. *)
Definition continuation (c : ascii) : option N :=
  let b := N_of_ascii c in
  if ((0x80 <=? b) && (b <? 0xC0))%N then Some (b - 0x80)%N else None.

(** The code point of a sequence of two, three or four bytes: the payload
    bits of the bytes in a row.  A code point written with more bytes than
    it needs, a surrogate and a value above U+10FFFF are no characters. *)
Definition two_bytes (b0 x1 : N) : option N :=
  let p := ((b0 - 0xC0) * 64 + x1)%N in
  if (0x80 <=? p)%N then Some p else None.

Definition three_bytes (b0 x1 x2 : N) : option N :=
  let p := (((b0 - 0xE0) * 64 + x1) * 64 + x2)%N in
  if ((0x800 <=? p) && negb ((0xD800 <=? p) && (p <=? 0xDFFF)))%N
  then Some p else None.

Definition four_bytes (b0 x1 x2 x3 : N) : option N :=
  let p := ((((b0 - 0xF0) * 64 + x1) * 64 + x2) * 64 + x3)%N in
  if ((0x10000 <=? p) && (p <=? 0x10FFFF))%N then Some p else None.

(** The first character of [s] and what follows it.  A byte that begins
    no character is passed over as an undecodable character of its own. *)
Definition first_character (s : string) : option (character * string) :=
  match s with
  | EmptyString => None
  | String c0 s1 =>
      let b0 := N_of_ascii c0 in
      let undecodable := Some ((None, String c0 ""), s1) in
      if (b0 <? 0x80)%N then Some ((Some b0, String c0 ""), s1)
      else if (b0 <? 0xC0)%N then undecodable
      else if (b0 <? 0xE0)%N then
        match s1 with
        | String c1 s2 =>
            match x1 ← continuation c1; two_bytes b0 x1 with
            | Some p => Some ((Some p, String c0 (String c1 "")), s2)
            | None => undecodable
            end
        | _ => undecodable
        end
      else if (b0 <? 0xF0)%N then
        match s1 with
        | String c1 (String c2 s3) =>
            match x1 ← continuation c1; x2 ← continuation c2;
                  three_bytes b0 x1 x2 with
            | Some p =>
                Some ((Some p, String c0 (String c1 (String c2 ""))), s3)
            | None => undecodable
            end
        | _ => undecodable
        end
      else if (b0 <? 0xF8)%N then
        match s1 with
        | String c1 (String c2 (String c3 s4)) =>
            match x1 ← continuation c1; x2 ← continuation c2;
                  x3 ← continuation c3; four_bytes b0 x1 x2 x3 with
            | Some p =>
                Some ((Some p,
                       String c0 (String c1 (String c2 (String c3 "")))), s4)
            | None => undecodable
            end
        | _ => undecodable
        end
      else undecodable
  end.

(** One character of [s] after another, at most [fuel] of them. *)
Fixpoint characters_fuel (fuel : nat) (s : string) : list character :=
  match fuel with
  | 0 => []
  | S fuel' =>
      match first_character s with
      | Some (ch, rest) => ch :: characters_fuel fuel' rest
      | None => []
      end
  end.

(** The characters of a text in UTF-8; every character takes a byte at
    least, so the length of [s] is fuel enough. *)
Definition characters (s : string) : list character :=
  characters_fuel (String.length s) s.

Definition decodable (ch : character) : bool :=
  match fst ch with Some _ => true | None => false end.

(** The bytes are the UTF-8 encoding of a text. *)
Definition is_text (s : string) : bool := forallb decodable (characters s).

(** The bytes of a list of characters. *)
Definition text_of (cs : list character) : string :=
  foldr (λ ch s, snd ch +:+ s) "" cs.

(** [open(path)] and the reading of the whole file in text mode: the
    text of the file, [UnicodeDecodeError] when its bytes are not UTF-8. *)
Definition open_text (fs : gmap string file) (path : string) : result string :=
  match fs !! path with
  | Some (TextFile content) =>
      if is_text content then Ok content else Raise UnicodeDecodeError
  | Some (NpzFile _) => Raise ValueError
  | None => Raise (FileNotFoundError path)
  end.

(** Text mode reads every line ending, [\n], [\r\n] or [\r], as [\n]. *)
Fixpoint universal_newlines (s : string) : string :=
  match s with
  | EmptyString => EmptyString
  | String c s' =>
      if Ascii.eqb c carriage_return then
        match s' with
        | String c' s'' =>
            if Ascii.eqb c' newline
            then String newline (universal_newlines s'')
            else String newline (universal_newlines s')
        | EmptyString => String newline EmptyString
        end
      else String c (universal_newlines s')
  end.

Fixpoint readlines_from (line : string) (s : string) : list string :=
  match s with
  | EmptyString => if decide (line = "") then [] else [line]
  | String c s' =>
      if Ascii.eqb c newline
      then (line +:+ String c "") :: readlines_from "" s'
      else readlines_from (line +:+ String c "") s'
  end.

(** [f.readlines()]: the text cut after every newline. *)
Definition readlines (content : string) : list string :=
  readlines_from "" (universal_newlines content).

(** The white space of Python: the code points [str.isspace] accepts, which
    are those [str.strip()] removes. *)
Definition is_space (p : N) : bool :=
  (((0x09 <=? p) && (p <=? 0x0D)) || ((0x1C <=? p) && (p <=? 0x20))
   || (p =? 0x85) || (p =? 0xA0) || (p =? 0x1680)
   || ((0x2000 <=? p) && (p <=? 0x200A))
   || (p =? 0x2028) || (p =? 0x2029) || (p =? 0x202F) || (p =? 0x205F)
   || (p =? 0x3000))%N.

Definition space_character (ch : character) : bool :=
  match fst ch with Some p => is_space p | None => false end.

Fixpoint lstrip (cs : list character) : list character :=
  match cs with
  | [] => []
  | ch :: cs' => if space_character ch then lstrip cs' else cs
  end.

(** [str.strip()] *)
Definition strip (s : string) : string :=
  text_of (rev (lstrip (rev (lstrip (characters s))))).

Definition stations_file : string :=
  Loader.os_path_join Loader.DATA_PATH "data/stations".

(** [[line.strip() for line in f.readlines()]] *)
Definition list_of_stations (fs : gmap string file) : result (list string) :=
  content ← open_text fs stations_file;
  Ok (map strip (readlines content)).

(** The interpreter state the loop can touch: what was printed, and the
    loop variables, which stay bound after the loop. *)
Record loop_state : Type := LoopState {
  printed : list string;
  station : option string;
  label : option nat;
  iterations : nat
}.

(** One turn of [for station, label in ...: pass]: bind the targets, run
    the body, which does nothing. *)
Definition loop_turn (st : loop_state) (p : string * nat) : loop_state :=
  LoopState (printed st) (Some p.1) (Some p.2) (S (iterations st)).

(** [for station, label in zip(list_of_stations, kmeans.labels_): pass] *)
Definition export_classification (stations : list string) (labels : list nat)
    (st : loop_state) : loop_state :=
  fold_left loop_turn (zip stations labels) st.
End Reporter.

(** ** The cells as functions of the globals they read *)

Module Pipeline.
Import Numpy Keras Training Clustering.

Section Cells.
Context {R : Type} {B : Backend R} {G : Geometry R}.

(** [weather_prediction.reshape(-1, 3)]: the values in row-major order,
    three to a row. *)
Definition reshape_rows3 (a : ndarray) : result (list (list Z)) :=
  let flat := concat (rows a) in
  if (length flat mod 3 =? 0)%nat then Ok (make_batches 3 flat)
  else Raise ValueError.

(** Cell 5: the layers are called one on another, which creates their
    weights, and the model is put together and compiled. *)
Definition model_cell (num_stations : Z) : result (model * weights) :=
  let model := Network.model num_stations in
  w ← build model;
  Ok (model, w).

(** Cells 5 and 6: build the model for [num_stations] rows of
    embeddings and fit it.  The call passes [epochs=1] and no
    [batch_size].  When cell 5 raises, the run stops there and [fit] is
    never called: nothing is logged and the outcome is the exception of
    cell 5. *)
Definition fit_cell (num_stations : Z) (station_id_data : list Z)
    (weather_data_day_of_year_data : list Z) (targets : list (list Z))
  : fit_result :=
  match model_cell num_stations with
  | Raise e => FitResult [] (Raise e)
  | Ok (model, w) =>
      fit model opt_init w
          [station_id_data; weather_data_day_of_year_data] targets None 1
  end.

(** Cell 7: [model.get_layer('embedded_stations').get_weights()[0]] *)
Definition trained_embeddings (w : weights) : result (array R) :=
  ws ← get_layer_weights w "embedded_stations";
  list_getitem ws 0.

(** Cell 8: [KMeans(n_clusters=CLUSTER_NUMBER, random_state=0)] *)
Definition kmeans : KMeans :=
  mk_KMeans Network.CLUSTER_NUMBER 0 default_max_iter.

Definition kmeans_labels (embeddings : array R) : result (list nat) :=
  match embeddings with
  | Arr2 X => fit_labels kmeans X
  | Arr1 _ => Raise ValueError
  end.

(** Cells 2 to 6 on a loaded table. *)
Definition train (wd : ndarray) : result fit_result :=
  day_of_year ← Loader.weather_data_day_of_year_data wd;
  station_ids ← Loader.station_id_data wd;
  num_stations ← Network.NUM_STATIONS wd;
  targets ← reshape_rows3 (Loader.weather_prediction wd);
  Ok (fit_cell num_stations station_ids day_of_year targets).

(** The whole notebook, once its names resolve: the table is loaded
    and trained on, the embeddings are read out, the station list is
    read, the embeddings are clustered and the pairs enumerated. *)
Definition run (fs : gmap string file) : result Reporter.loop_state :=
  wd ← Loader.weather_data fs;
  fitted ← train wd;
  trained ← fit_outcome fitted;
  embeddings ← trained_embeddings trained.2;
  stations ← Reporter.list_of_stations fs;
  labels ← kmeans_labels embeddings;
  Ok (Reporter.export_classification stations labels
        (Reporter.LoopState [] None None 0)).
End Cells.
End Pipeline.

(** ** An exact backend

    Integer weights that start at zero and that the optimizer leaves at
    zero, samples visited in order, distances by squared differences: a
    backend on which the cells can be evaluated. *)

Module Exact.
Open Scope Z_scope.

#[export] Instance backend : Backend Z := {
  add := Z.add;
  mul := Z.mul;
  of_int := id;
  relu_fn := Z.max 0;
  initializer := λ _ _ _ _, 0;
  shuffle := λ _ l, l;
  opt_state := unit;
  opt_init := tt;
  optimizer_step := λ _ _ _ _ _ _, (tt, λ _ _ _ _, 0)
}.

Definition squared_distance (x y : list Z) : Z :=
  foldr Z.add 0 (zip_with (λ a b, (a - b) * (a - b)) x y).

Definition column_sums (rows : list (list Z)) : list Z :=
  match rows with
  | [] => []
  | r :: rs => fold_left (zip_with Z.add) rs r
  end.

#[export] Instance geometry : Geometry Z := {
  distance := squared_distance;
  closer := Z.ltb;
  mean := λ rows, map (λ s, s / Z.of_nat (length rows)) (column_sums rows);
  seeded_choice := λ seed i n, ((seed + i) mod n)%nat
}.
End Exact.

(** ** The notebook's statements

    The syntax of the code cells and an interpreter for what does not
    depend on the values: which names are bound when a name is read, and
    which calls have been made when an exception stops the run. *)

Module Py.
Inductive expr : Type :=
  | Name (id : string)
  | Str (s : string)
  | Num (n : Z)
  | NoneLit
  | Attribute (value : expr) (attr : string)
  | CallE (func : expr) (args : list expr) (keywords : list (string * expr))
  | Subscript (value : expr) (index : list expr)
  | Slice (lower : option expr)
  | BinOp (left : expr) (op : string) (right : expr)
  | ListE (elts : list expr)
  | TupleE (elts : list expr)
  | ListComp (elt : expr) (target : string) (iter : expr).

Inductive stmt : Type :=
  | SImport (module asname : string)
  | SImportFrom (module : string) (names : list string)
  | SAssign (target : string) (value : expr)
  | SWith (context : expr) (asname : string) (body : list stmt)
  | SFor (targets : list string) (iter : expr) (body : list stmt)
  | SExpr (value : expr)
  | SPass.

(** The printed form of what a call calls: [np.load], [KMeans().fit]. *)
Fixpoint dotted (e : expr) : string :=
  match e with
  | Name id => id
  | Attribute v a => dotted v +:+ "." +:+ a
  | CallE f _ _ => dotted f +:+ "()"
  | Subscript v _ => dotted v +:+ "[]"
  | _ => "?"
  end.

(** What the run depends on besides the program: which library calls
    raise, and how many items an iterable yields. *)
Record world : Type := World {
  raises : string → option exn;
  item_count : expr → nat
}.

(** The calls made so far, oldest first, and the exception that stopped
    the evaluation, if any. *)
Definition progress : Type := list string * option exn.

Definition and_then (p : progress) (k : list string → progress) : progress :=
  match p with
  | (calls, None) => k calls
  | (calls, Some e) => (calls, Some e)
  end.

Fixpoint repeat_eval (n : nat) (f : list string → progress)
    (calls : list string) : progress :=
  match n with
  | 0 => (calls, None)
  | S n' => and_then (f calls) (repeat_eval n' f)
  end.

(** Evaluation in Python's order: the callee, the arguments from left to
    right, the keyword arguments, then the call itself. *)
Fixpoint eval (w : world) (bound : gset string) (e : expr)
    (calls : list string) {struct e} : progress :=
  let fix eval_all (es : list expr) (calls : list string) : progress :=
    match es with
    | [] => (calls, None)
    | e' :: es' => and_then (eval w bound e' calls) (eval_all es')
    end in
  let fix eval_keywords (kws : list (string * expr)) (calls : list string)
      : progress :=
    match kws with
    | [] => (calls, None)
    | (_, e') :: kws' => and_then (eval w bound e' calls) (eval_keywords kws')
    end in
  match e with
  | Name id =>
      if decide (id ∈ bound) then (calls, None)
      else (calls, Some (NameError id))
  | Str _ | Num _ | NoneLit => (calls, None)
  | Attribute v _ => eval w bound v calls
  | CallE f args kws =>
      and_then (eval w bound f calls) (λ calls,
      and_then (eval_all args calls) (λ calls,
      and_then (eval_keywords kws calls) (λ calls,
        match raises w (dotted f) with
        | Some e => (calls, Some e)
        | None => (calls ++ [dotted f], None)
        end)))
  | Subscript v idx =>
      and_then (eval w bound v calls) (eval_all idx)
  | Slice None => (calls, None)
  | Slice (Some lo) => eval w bound lo calls
  | BinOp l _ r =>
      and_then (eval w bound l calls) (eval w bound r)
  | ListE es | TupleE es => eval_all es calls
  | ListComp elt target iter =>
      and_then (eval w bound iter calls)
               (repeat_eval (item_count w iter)
                            (eval w ({[target]} ∪ bound) elt))
  end.

(** The kernel between statements: the names bound so far and the calls
    made so far. *)
Record kernel : Type := Kernel {
  bound_names : gset string;
  calls_made : list string
}.

Definition bind (names : list string) (k : kernel) : kernel :=
  Kernel (list_to_set names ∪ bound_names k) (calls_made k).

Definition after_eval (k : kernel) (p : progress)
    (next : kernel → kernel * option exn) : kernel * option exn :=
  match p with
  | (calls, None) => next (Kernel (bound_names k) calls)
  | (calls, Some e) => (Kernel (bound_names k) calls, Some e)
  end.

Fixpoint repeat_exec (n : nat) (f : kernel → kernel * option exn)
    (k : kernel) : kernel * option exn :=
  match n with
  | 0 => (k, None)
  | S n' =>
      match f k with
      | (k', None) => repeat_exec n' f k'
      | stopped => stopped
      end
  end.

Fixpoint exec (w : world) (s : stmt) (k : kernel) {struct s}
    : kernel * option exn :=
  let fix exec_all (ss : list stmt) (k : kernel) : kernel * option exn :=
    match ss with
    | [] => (k, None)
    | s' :: ss' =>
        match exec w s' k with
        | (k', None) => exec_all ss' k'
        | stopped => stopped
        end
    end in
  match s with
  | SImport _ asname => (bind [asname] k, None)
  | SImportFrom _ names => (bind names k, None)
  | SAssign target value =>
      after_eval k (eval w (bound_names k) value (calls_made k))
                 (λ k', (bind [target] k', None))
  | SWith context asname body =>
      after_eval k (eval w (bound_names k) context (calls_made k))
                 (λ k', exec_all body (bind [asname] k'))
  | SFor targets iter body =>
      after_eval k (eval w (bound_names k) iter (calls_made k))
                 (repeat_exec (item_count w iter)
                              (λ k', exec_all body (bind targets k')))
  | SExpr value =>
      after_eval k (eval w (bound_names k) value (calls_made k))
                 (λ k', (k', None))
  | SPass => (k, None)
  end.

Fixpoint exec_block (w : world) (ss : list stmt) (k : kernel)
    : kernel * option exn :=
  match ss with
  | [] => (k, None)
  | s :: ss' =>
      match exec w s k with
      | (k', None) => exec_block w ss' k'
      | stopped => stopped
      end
  end.

(** Running the cells from the top: the first exception stops the run. *)
Definition run_cells (w : world) (cells : list (list stmt)) (k : kernel)
    : kernel * option exn :=
  exec_block w (concat cells) k.

(** *** What a program reads and calls *)

Fixpoint subexprs (e : expr) : list expr :=
  e ::
  match e with
  | Name _ | Str _ | Num _ | NoneLit | Slice None => []
  | Attribute v _ => subexprs v
  | CallE f args kws =>
      subexprs f ++ concat (map subexprs args)
      ++ concat (map (λ kw, subexprs kw.2) kws)
  | Subscript v idx => subexprs v ++ concat (map subexprs idx)
  | Slice (Some lo) => subexprs lo
  | BinOp l _ r => subexprs l ++ subexprs r
  | ListE es | TupleE es => concat (map subexprs es)
  | ListComp elt _ iter => subexprs iter ++ subexprs elt
  end.

Fixpoint stmt_exprs (s : stmt) : list expr :=
  match s with
  | SImport _ _ | SImportFrom _ _ | SPass => []
  | SAssign _ value | SExpr value => subexprs value
  | SWith context _ body => subexprs context ++ concat (map stmt_exprs body)
  | SFor _ iter body => subexprs iter ++ concat (map stmt_exprs body)
  end.

Definition names_read (cells : list (list stmt)) : list string :=
  omap (λ e, match e with Name id => Some id | _ => None end)
       (concat (map stmt_exprs (concat cells))).

(** The keyword arguments of every call of [callee]. *)
Definition keywords_passed (callee : string) (cells : list (list stmt))
    : list (list (string * expr)) :=
  omap (λ e, match e with
             | CallE f _ kws =>
                 if decide (dotted f = callee) then Some kws else None
             | _ => None
             end)
       (concat (map stmt_exprs (concat cells))).
End Py.

Module Notebook.
Import Py.
Open Scope Z_scope.

Definition call (f : expr) (args : list expr) : expr := CallE f args [].
Definition all_rows : expr := Slice None.

Definition cell1 : list stmt :=
  [ SImport "numpy" "np";
    SImport "matplotlib.pyplot" "plt";
    SImportFrom "keras.models" ["Model"];
    SImportFrom "keras.layers"
      ["Dense"; "Flatten"; "Embedding"; "Input"; "Reshape"; "Concatenate"];
    SImportFrom "sklearn.cluster" ["KMeans"] ].

Definition cell2 : list stmt :=
  [ SAssign "DATA_PATH" (Str "data/weather");
    SAssign "matrix_file"
      (call (Attribute (Attribute (Name "os") "path") "join")
            [Name "DATA_PATH"; Str "data/gsn-2000-TMAX-TMIN-PRCP.npz"]);
    SAssign "STATION_ID_COL" (Num 0);
    SAssign "MONTH_COL" (Num 1);
    SAssign "DAY_COL" (Num 2);
    SAssign "VAL_COLS_START" (Num 3);
    SAssign "TMAX_COL" (Num 3);
    SAssign "TMIN_COL" (Num 4);
    SAssign "PRCP_COL" (Num 5);
    SWith (call (Attribute (Name "np") "load") [Name "matrix_file"]) "npz_data"
      [ SAssign "weather_data"
          (call (Attribute (Subscript (Name "npz_data") [Str "data"]) "astype")
                [Attribute (Name "np") "int32"]) ];
    SAssign "weather_data_day_of_year_data"
      (BinOp
         (BinOp (Num 31) "*"
            (BinOp (Subscript (Name "weather_data")
                      [all_rows; Name "MONTH_COL"]) "-" (Num 1)))
         "+"
         (BinOp (Subscript (Name "weather_data")
                   [all_rows; Name "DAY_COL"]) "-" (Num 1))) ].

Definition cell3 : list stmt :=
  [ SAssign "station_id_data"
      (call (Attribute (Subscript (Name "weather_data")
                          [all_rows; Name "STATION_ID_COL"]) "reshape")
            [Num (-1); Num 1]);
    SAssign "weather_data_day_of_year_data"
      (call (Attribute (Name "weather_data_day_of_year_data") "reshape")
            [Num (-1); Num 1]);
    SAssign "weather_prediction"
      (Subscript (Name "weather_data")
         [all_rows; Slice (Some (Name "VAL_COLS_START"))]) ].

Definition cell4 : list stmt :=
  [ SAssign "BATCH_SIZE" (Num 50);
    SAssign "EMBEDDING_SIZE" (Num 20);
    SAssign "HIDDEN_UNITS" (Num 40);
    SAssign "CLUSTER_NUMBER" (Num 6);
    SAssign "NUM_STATIONS"
      (BinOp (call (Attribute (Name "np") "max")
                   [Subscript (Name "weather_data")
                      [all_rows; Name "STATION_ID_COL"]])
             "+" (Num 1)) ].

Definition cell5 : list stmt :=
  [ SAssign "station_id_input"
      (CallE (Name "Input") []
         [("shape", TupleE [Num 1]); ("name", Str "station_id_input")]);
    SAssign "month_day_input"
      (CallE (Name "Input") []
         [("shape", TupleE [Num 1]); ("name", Str "month_day_input")]);
    SAssign "embedded_stations"
      (call (CallE (Name "Embedding") []
               [("output_dim", Name "EMBEDDING_SIZE");
                ("input_dim", Name "NUM_STATIONS");
                ("name", Str "embedded_stations")])
            [Name "station_id_input"]);
    SAssign "embedded_station_reshape"
      (call (CallE (Name "Reshape") [TupleE [Name "EMBEDDING_SIZE"]]
               [("name", Str "embedded_station_reshape")])
            [Name "embedded_stations"]);
    SAssign "station_and_day"
      (call (CallE (Name "Concatenate") [] [("name", Str "station_and_day")])
            [ListE [Name "embedded_station_reshape"; Name "month_day_input"]]);
    SAssign "hidden"
      (call (CallE (Name "Dense") [Name "HIDDEN_UNITS"]
               [("activation", Str "relu"); ("name", Str "hidden")])
            [Name "station_and_day"]);
    SAssign "prediction"
      (call (CallE (Name "Dense") [Num 3]
               [("activation", NoneLit); ("name", Str "prediction")])
            [Name "hidden"]);
    SAssign "model"
      (CallE (Name "Model") []
         [("inputs", ListE [Name "station_id_input"; Name "month_day_input"]);
          ("outputs", Name "prediction")]);
    SExpr (CallE (Attribute (Name "model") "compile") []
            [("optimizer", Str "adam"); ("loss", Str "mean_squared_error")]);
    SExpr (call (Attribute (Name "model") "summary") []) ].

Definition cell6 : list stmt :=
  [ SExpr (CallE (Attribute (Name "model") "fit")
            [ ListE [Name "station_id_data";
                     Name "weather_data_day_of_year_data"];
              call (Attribute (Name "weather_prediction") "reshape")
                   [Num (-1); Num 3] ]
            [("epochs", Num 1)]) ].

Definition cell7 : list stmt :=
  [ SAssign "trained_embeddings"
      (Subscript
         (call (Attribute
                  (call (Attribute (Name "model") "get_layer")
                        [Str "embedded_stations"])
                  "get_weights") [])
         [Num 0]) ].

Definition cell8 : list stmt :=
  [ SWith (call (Name "open")
            [call (Attribute (Attribute (Name "os") "path") "join")
                  [Name "DATA_PATH"; Str "data/stations"]]) "f"
      [ SAssign "list_of_stations"
          (ListComp (call (Attribute (Name "line") "strip") []) "line"
                    (call (Attribute (Name "f") "readlines") [])) ];
    SAssign "kmeans"
      (call (Attribute
               (CallE (Name "KMeans") []
                  [("n_clusters", Name "CLUSTER_NUMBER");
                   ("random_state", Num 0)])
               "fit")
            [Name "trained_embeddings"]);
    SFor ["station"; "label"]
      (call (Name "zip")
            [Name "list_of_stations"; Attribute (Name "kmeans") "labels_"])
      [SPass] ].

Definition cell9 : list stmt := [].

Definition cells : list (list stmt) :=
  [cell1; cell2; cell3; cell4; cell5; cell6; cell7; cell8; cell9].

(** The names a fresh Python 3.7 kernel resolves without any import: the
    built-in functions and constants, and what IPython adds. *)
Definition builtins : list string :=
  [ "abs"; "all"; "any"; "ascii"; "bin"; "bool"; "breakpoint"; "bytearray";
    "bytes"; "callable"; "chr"; "classmethod"; "compile"; "complex";
    "delattr"; "dict"; "dir"; "divmod"; "enumerate"; "eval"; "exec";
    "filter"; "float"; "format"; "frozenset"; "getattr"; "globals";
    "hasattr"; "hash"; "help"; "hex"; "id"; "input"; "int"; "isinstance";
    "issubclass"; "iter"; "len"; "list"; "locals"; "map"; "max";
    "memoryview"; "min"; "next"; "object"; "oct"; "open"; "ord"; "pow";
    "print"; "property"; "range"; "repr"; "reversed"; "round"; "set";
    "setattr"; "slice"; "sorted"; "staticmethod"; "str"; "sum"; "super";
    "tuple"; "type"; "vars"; "zip"; "__import__";
    "True"; "False"; "None"; "Ellipsis"; "NotImplemented"; "__debug__";
    "__name__"; "__doc__"; "__builtins__";
    "In"; "Out"; "get_ipython"; "exit"; "quit"; "display";
    "_"; "__"; "___"; "_i"; "_ii"; "_iii"; "_ih"; "_oh"; "_dh" ].

Definition fresh_kernel : kernel := Kernel (list_to_set builtins) [].

(** A kernel in which [os] is already bound, as one is after an
    [import os] in an earlier session cell. *)
Definition kernel_with_os : kernel := bind ["os"] fresh_kernel.

(** A world in which every call succeeds and every iterable has [n]
    items. *)
Definition calm_world (n : nat) : world := World (λ _, None) (λ _, n).
End Notebook.


(** ** Shapes of weight arrays *)

Module Shapes.
Import Keras Training.

(** An array has shape [(n,)] or [(r, c)]. *)
Definition has_shape {R : Type} (s : list nat) (a : array R) : Prop :=
  match s, a with
  | [n], Arr1 v => length v = n
  | [r; c], Arr2 m => length m = r ∧ Forall (λ row, length row = c) m
  | _, _ => False
  end.

(** The weights list the model's layers in order, each with arrays of the
    shapes the layer declares. *)
Definition well_shaped {R : Type} (m : model)
    (w : list (string * list (array R))) : Prop :=
  Forall2 (λ '(l, ins) '(name, ws),
             name = layer_name l
             ∧ ∃ shapes, weight_shapes l ins = Ok shapes
                         ∧ Forall2 has_shape shapes ws)
          (layers (outputs m)) w.
End Shapes.

(** ** Inputs used as examples *)

Module Examples.
Import Numpy.
Open Scope Z_scope.

(** One record dated 31 December. *)
Definition december_31 : ndarray := mk_ndarray 6 [[0; 12; 31; 0; 0; 0]].

(** Three records of two stations. *)
Definition three_records : ndarray :=
  mk_ndarray 6 [[3; 2; 1; 10; 0; 0]; [3; 2; 28; 12; 1; 5];
                [7; 12; 31; 4; -3; 0]].

(** Four records of stations 0, 1, 2 and 5. *)
Definition four_stations : ndarray :=
  mk_ndarray 6 [[2; 1; 1; 10; 0; 0]; [0; 1; 2; 11; 1; 0];
                [5; 1; 3; 12; 2; 3]; [1; 1; 4; 9; 0; 0]].

(** A hundred records of station 0 on 1 January. *)
Definition hundred_records : ndarray :=
  mk_ndarray 6 (replicate 100 [0; 1; 1; 0; 0; 0]).

(** Thirty-three station IDs: thirty-two times station 0, then 7. *)
Definition ids_ending_in_7 : list Z := replicate 32 0 ++ [7].

(** A directory whose matrix file holds the table [data]. *)
Definition directory_with (data : ndarray) : gmap string file :=
  {[ Loader.matrix_file := NpzFile {[ "data" := data ]} ]}.

(** Seven records of stations 0 to 6, and a directory that holds them
    together with a station list of nine lines. *)
Definition seven_stations : ndarray :=
  mk_ndarray 6 [[0; 1; 1; 10; 0; 0]; [1; 1; 2; 11; 1; 0]; [2; 1; 3; 12; 2; 3];
                [3; 1; 4; 9; 0; 0]; [4; 2; 1; 8; 0; 0]; [5; 2; 2; 7; 0; 1];
                [6; 2; 3; 6; 0; 0]].

Definition directory_with_nine_names : gmap string file :=
  <[ Reporter.stations_file := TextFile "S0
S1
S2
S3
S4
S5
S6
S7
S8
" ]> (directory_with seven_stations).

(** One stored record whose station ID, 2^32 + 5, does not fit in 32
    bits. *)
Definition wide_station_id : ndarray :=
  mk_ndarray 6 [[4294967301; 1; 1; 0; 0; 0]].

(** One record of station -2. *)
Definition station_minus_2 : ndarray :=
  mk_ndarray 6 [[-2; 1; 1; 0; 0; 0]].


End Examples.

(** ** Samples within the embedding table *)

Module Tables.
(** The station of sample [s] has a row in an embedding table of [n]
    rows. *)
Definition in_table (n : Z) (s : sample) : Prop :=
  (0 ≤ sample_station s < n)%Z.
End Tables.

(** ** The size of the weights *)

Module Sizes.
(** The number of entries of a weight array, and of all the weights. *)
Definition array_size {R : Type} (a : array R) : Z :=
  match a with
  | Arr1 v => Z.of_nat (length v)
  | Arr2 m => Z.of_nat (length (concat m))
  end.

Definition weights_size {R : Type} (w : list (string * list (array R))) : Z :=
  foldr Z.add 0%Z (map (λ '(_, ws), foldr Z.add 0%Z (map array_size ws)) w).
End Sizes.

(** ** Station lists as text *)

Module Text.
(** Every character of [s] satisfies [p]. *)
Fixpoint all_chars (p : ascii → bool) (s : string) : bool :=
  match s with
  | EmptyString => true
  | String c s' => p c && all_chars p s'
  end.

(** A character that is decoded and is no white space. *)
Definition visible (ch : Reporter.character) : bool :=
  match fst ch with
  | Some p => negb (Reporter.is_space p)
  | None => false
  end.

(** [s] is a text none of whose characters is white space. *)
Definition no_space (s : string) : bool :=
  forallb visible (Reporter.characters s).

(** A station list written one name per line. *)
Definition one_per_line (names : list string) : string :=
  foldr (λ name text, name +:+ String Reporter.newline text) "" names.
End Text.

(** ** A scope check for the notebook's statements *)

Module Scoping.
Import Py.

(** Every name [e] reads is in [bound] when it is read. *)
Fixpoint reads_ok (bound : gset string) (e : expr) {struct e} : bool :=
  let fix all_ok (es : list expr) : bool :=
    match es with
    | [] => true
    | e' :: es' => reads_ok bound e' && all_ok es'
    end in
  let fix keywords_ok (kws : list (string * expr)) : bool :=
    match kws with
    | [] => true
    | (_, e') :: kws' => reads_ok bound e' && keywords_ok kws'
    end in
  match e with
  | Name id => bool_decide (id ∈ bound)
  | Str _ | Num _ | NoneLit | Slice None => true
  | Attribute v _ => reads_ok bound v
  | CallE f args kws => reads_ok bound f && all_ok args && keywords_ok kws
  | Subscript v idx => reads_ok bound v && all_ok idx
  | Slice (Some lo) => reads_ok bound lo
  | BinOp l _ r => reads_ok bound l && reads_ok bound r
  | ListE es | TupleE es => all_ok es
  | ListComp elt target iter =>
      reads_ok bound iter && reads_ok ({[target]} ∪ bound) elt
  end.

(** The names surely bound after [s], when every name [s] reads is bound
    when it is read; a loop may turn no time at all, so what its body
    binds is not counted. *)
Fixpoint scope_after (bound : gset string) (s : stmt) {struct s}
    : option (gset string) :=
  let fix block (ss : list stmt) (bound : gset string)
      : option (gset string) :=
    match ss with
    | [] => Some bound
    | s' :: ss' =>
        match scope_after bound s' with
        | Some bound' => block ss' bound'
        | None => None
        end
    end in
  match s with
  | SImport _ asname => Some ({[asname]} ∪ bound)
  | SImportFrom _ names => Some (list_to_set names ∪ bound)
  | SAssign target value =>
      if reads_ok bound value then Some ({[target]} ∪ bound) else None
  | SWith context asname body =>
      if reads_ok bound context then block body ({[asname]} ∪ bound)
      else None
  | SFor targets iter body =>
      if reads_ok bound iter then
        match block body (list_to_set targets ∪ bound) with
        | Some _ => Some bound
        | None => None
        end
      else None
  | SExpr value => if reads_ok bound value then Some bound else None
  | SPass => Some bound
  end.

Fixpoint scope_after_block (bound : gset string) (ss : list stmt)
    : option (gset string) :=
  match ss with
  | [] => Some bound
  | s :: ss' =>
      match scope_after bound s with
      | Some bound' => scope_after_block bound' ss'
      | None => None
      end
  end.

(** The run was not stopped, or by an exception a library call raised. *)
Definition not_stopped_by_names (w : world) (stopped : option exn) : Prop :=
  match stopped with
  | None => True
  | Some e => ∃ callee, raises w callee = Some e
  end.

(** Evaluation [p] was stopped, if at all, by a call. *)
Definition fine (w : world) (p : progress) : Prop :=
  not_stopped_by_names w (snd p).

(** What holds after a step from kernel [k] that is promised the names
    [out]: it was stopped, if at all, by a call; the names bound in [k]
    are still bound; and if it was not stopped, [out] is bound. *)
Definition step_fine (w : world) (k : kernel) (out : gset string)
    (r : kernel * option exn) : Prop :=
  not_stopped_by_names w (snd r)
  ∧ bound_names k ⊆ bound_names (fst r)
  ∧ (snd r = None → out ⊆ bound_names (fst r)).

(** Statement [s] keeps the promise of the scope check from every kernel
    that binds the names the check assumed. *)
Definition stmt_fine (w : world) (s : stmt) : Prop :=
  ∀ bound out k,
    scope_after bound s = Some out → bound ⊆ bound_names k →
    step_fine w k out (exec w s k).
End Scoping.


(** * Properties of the notebook *)

(** ** Arithmetic on int32 *)

Section Int32Facts.
Import Int32.
Open Scope Z_scope.

Lemma wrap_in_range z : in_range (wrap z).
Proof.
  unfold in_range, wrap, min_signed, max_signed.
  pose proof (Z.mod_pos_bound (z + 2 ^ 31) (2 ^ 32) ltac:(lia)). lia.
Qed.

Lemma wrap_small z : in_range z → wrap z = z.
Proof.
  unfold in_range, wrap, min_signed, max_signed. intros Hz.
  rewrite Z.mod_small by lia. lia.
Qed.

Lemma wrap_congr z : (wrap z) mod 2 ^ 32 = z mod 2 ^ 32.
Proof.
  unfold wrap. rewrite Zminus_mod_idemp_l. f_equal. lia.
Qed.

Lemma wrap_eq_of_congr a b : a mod 2 ^ 32 = b mod 2 ^ 32 → wrap a = wrap b.
Proof.
  intros H. unfold wrap.
  rewrite <- (Zplus_mod_idemp_l a), <- (Zplus_mod_idemp_l b), H. done.
Qed.

Lemma wrap_add_l a b : wrap (wrap a + b) = wrap (a + b).
Proof.
  apply wrap_eq_of_congr.
  rewrite <- Zplus_mod_idemp_l, wrap_congr, Zplus_mod_idemp_l. done.
Qed.

Lemma wrap_add_r a b : wrap (a + wrap b) = wrap (a + b).
Proof. rewrite (Z.add_comm a), wrap_add_l. f_equal. lia. Qed.

Lemma wrap_mul_r a b : wrap (a * wrap b) = wrap (a * b).
Proof.
  apply wrap_eq_of_congr.
  rewrite <- Zmult_mod_idemp_r, wrap_congr, Zmult_mod_idemp_r. done.
Qed.
End Int32Facts.


(** ** The day-of-year index (cell 2) *)

Section DayOfYear.
Import Numpy Loader Examples.
Open Scope Z_scope.

(** The index of a record whose month and day are in the calendar's
    ranges is computed without wrap-around. *)
Lemma day_of_year_index_exact (month day : Z) :
  1 ≤ month ≤ 12 → 1 ≤ day ≤ 31 →
  day_of_year_index month day = 31 * (month - 1) + (day - 1).
Proof.
  intros Hm Hd. unfold day_of_year_index, Int32.add, Int32.mul, Int32.sub.
  rewrite (wrap_small (month - 1)), (wrap_small (day - 1)),
    (wrap_small (31 * _)), wrap_small;
    unfold Int32.in_range, Int32.min_signed, Int32.max_signed; lia.
Qed.

(** On any int32 values the index is the formula reduced to 32 bits. *)
Lemma day_of_year_index_wrap (month day : Z) :
  day_of_year_index month day = Int32.wrap (31 * (month - 1) + (day - 1)).
Proof.
  unfold day_of_year_index, Int32.add, Int32.mul, Int32.sub.
  rewrite wrap_add_r, wrap_mul_r, wrap_add_l. done.
Qed.

Lemma column_ok (j : nat) (wd : ndarray) :
  (j < ncols wd)%nat → column j wd = Ok (map (λ r, nth j r 0) (rows wd)).
Proof.
  intros Hj. unfold column.
  destruct (Nat.ltb_spec j (ncols wd)); [done | lia].
Qed.

(** The derived column holds, row by row, the index of that row. *)
Lemma day_of_year_column (wd : ndarray) :
  (2 < ncols wd)%nat →
  weather_data_day_of_year_data wd
  = Ok (map (λ r, day_of_year_index (month_of r) (day_of r)) (rows wd)).
Proof.
  intros Hc. unfold weather_data_day_of_year_data.
  rewrite (column_ok MONTH_COL), (column_ok DAY_COL) by (unfold MONTH_COL, DAY_COL; lia).
  cbn. f_equal.
  unfold add_arrays, scalar_mul, sub_scalar.
  induction (rows wd) as [|r rs IH]; [done|].
  cbn. rewrite IH. done.
Qed.

Lemma valid_row_spec (r : list Z) :
  valid_row r = true →
  1 ≤ month_of r ≤ 12 ∧ 1 ≤ day_of r ≤ 31.
Proof.
  unfold valid_row. rewrite !andb_true_iff, !Z.leb_le. lia.
Qed.

Lemma valid_table_spec (wd : ndarray) :
  valid_table wd = true →
  ncols wd = 6%nat ∧ ∀ i r, rows wd !! i = Some r → valid_row r = true.
Proof.
  unfold valid_table. rewrite andb_true_iff, Nat.eqb_eq, forallb_forall.
  intros [Hc Hr]. split; [done|].
  intros i r Hi. apply Hr, list_elem_of_In, list_elem_of_lookup. eauto.
Qed.

(** C1, as stated, fails: the bound 360 is exceeded.  The record of
    31 December is valid and its index is 371. *)
Lemma day_of_year_exceeds_360 :
  valid_table december_31 = true
  ∧ weather_data_day_of_year_data december_31 = Ok [371]
  ∧ ¬ (371 ≤ 360).
Proof. split; [reflexivity|]. split; [reflexivity | lia]. Qed.

(** C1, amended: for every valid observation table (six columns, month in
    1..12, day in 1..31) the day-of-year column is computed, has one entry
    per record, every entry lies between 0 and 371 = 31*11 + 30, and
    between two records of the same month the entry does not decrease as
    the day increases. *)
Theorem day_of_year_range_and_monotone (wd : ndarray) :
  valid_table wd = true →
  ∃ doy,
    weather_data_day_of_year_data wd = Ok doy
    ∧ length doy = length (rows wd)
    ∧ Forall (λ x, 0 ≤ x ≤ 371) doy
    ∧ ∀ i j ri rj xi xj,
        rows wd !! i = Some ri → rows wd !! j = Some rj →
        doy !! i = Some xi → doy !! j = Some xj →
        month_of ri = month_of rj → day_of ri ≤ day_of rj →
        xi ≤ xj.
Proof.
  intros Hv. apply valid_table_spec in Hv as [Hc Hr].
  eexists. split; [apply day_of_year_column; lia|].
  split; [by rewrite length_map|]. split.
  - apply Forall_forall. intros x [r [-> Hin]]%list_elem_of_fmap.
    apply list_elem_of_lookup in Hin as [i Hi].
    apply Hr, valid_row_spec in Hi as [Hm Hd].
    rewrite day_of_year_index_exact by done. lia.
  - intros i j ri rj xi xj Hi Hj Hxi Hxj Hmonth Hday.
    rewrite list_lookup_fmap, Hi in Hxi. rewrite list_lookup_fmap, Hj in Hxj.
    cbn in Hxi, Hxj. injection Hxi as <-. injection Hxj as <-.
    apply Hr, valid_row_spec in Hi as [Hmi Hdi].
    apply Hr, valid_row_spec in Hj as [Hmj Hdj].
    rewrite !day_of_year_index_exact by done. lia.
Qed.

Lemma day_of_year_range_and_monotone_witness :
  ∃ doy,
    weather_data_day_of_year_data three_records = Ok doy
    ∧ length doy = 3%nat
    ∧ Forall (λ x, 0 ≤ x ≤ 371) doy.
Proof.
  destruct (day_of_year_range_and_monotone three_records)
    as (doy & Heq & Hlen & Hrange & _); [reflexivity|].
  exists doy. split; [exact Heq|]. split; [exact Hlen | exact Hrange].
Defined.

(** C9: for every observation record (month in 1..12, day in 1..31) of a
    six-column table, the derived day-of-year entry of that record equals
    31*(month-1) + (day-1): every month counts 31 days. *)
Theorem day_of_year_formula (wd : ndarray) (i : nat) (r : list Z) :
  ncols wd = 6%nat →
  rows wd !! i = Some r →
  1 ≤ month_of r ≤ 12 → 1 ≤ day_of r ≤ 31 →
  ∃ doy,
    weather_data_day_of_year_data wd = Ok doy
    ∧ doy !! i = Some (31 * (month_of r - 1) + (day_of r - 1)).
Proof.
  intros Hc Hi Hm Hd.
  eexists. split; [apply day_of_year_column; lia|].
  rewrite list_lookup_fmap, Hi. cbn.
  by rewrite day_of_year_index_exact.
Qed.

Lemma day_of_year_formula_witness :
  ∃ doy,
    weather_data_day_of_year_data three_records = Ok doy
    ∧ doy !! 2%nat = Some 371.
Proof.
  apply (day_of_year_formula three_records 2 [7; 12; 31; 4; -3; 0]);
    [reflexivity | reflexivity | |]; cbn; lia.
Defined.
End DayOfYear.


(** ** The station count and the embedding table (cells 4 and 5) *)

Section StationCount.
Import Numpy Loader Keras Network Training.
Open Scope Z_scope.

Lemma max_list_upper (x : Z) (v : list Z) :
  x ≤ max_list x v ∧ Forall (λ y, y ≤ max_list x v) v.
Proof.
  revert x. induction v as [|y v IH]; intros x; cbn.
  - split; [lia | constructor].
  - destruct (IH (Z.max x y)) as [Hx Hv]. split; [lia|].
    constructor; [lia | done].
Qed.

Lemma max_list_elem (x : Z) (v : list Z) : max_list x v ∈ x :: v.
Proof.
  revert x. induction v as [|y v IH]; intros x; cbn.
  - left.
  - specialize (IH (Z.max x y)).
    apply elem_of_cons in IH as [Heq | Hin].
    + rewrite Heq. destruct (Z.max_spec x y) as [[_ ->] | [_ ->]].
      * right. left.
      * left.
    + right. right. done.
Qed.

Lemma max_spec (v : list Z) :
  v ≠ [] →
  ∃ m, Numpy.max v = Ok m ∧ m ∈ v ∧ Forall (λ y, y ≤ m) v.
Proof.
  destruct v as [|x v]; [done|]. intros _.
  exists (max_list x v). split; [done|]. split; [apply max_list_elem|].
  destruct (max_list_upper x v). by constructor.
Qed.

(** The station count of a table with at least one record. *)
Lemma num_stations_spec (wd : ndarray) (ids : list Z) :
  station_id_data wd = Ok ids → ids ≠ [] →
  ∃ max_id,
    max_id ∈ ids
    ∧ Forall (λ id, id ≤ max_id) ids
    ∧ NUM_STATIONS wd = Ok (max_id + 1).
Proof.
  intros Hids Hne.
  destruct (max_spec ids Hne) as (m & Hmax & Hin & Hle).
  exists m. split; [done|]. split; [done|].
  unfold NUM_STATIONS. unfold station_id_data in Hids.
  rewrite Hids. cbn. rewrite Hmax. done.
Qed.

Context {R : Type} {B : Backend R}.

(** For the 1218 stations of the notebook's data the model has the layers,
    output shapes and parameter counts that [model.summary()] printed. *)
Example summary_of_the_notebook :
  summary (model 1218)
  = [ ("station_id_input", Ok [1%nat], Ok 0);
      ("embedded_stations", Ok [1%nat; 20%nat], Ok 24360);
      ("embedded_station_reshape", Ok [20%nat], Ok 0);
      ("month_day_input", Ok [1%nat], Ok 0);
      ("station_and_day", Ok [21%nat], Ok 0);
      ("hidden", Ok [40%nat], Ok 880);
      ("prediction", Ok [3%nat], Ok 123) ]
  ∧ total_params (model 1218) = Ok 25363.
Proof. split; vm_compute; reflexivity. Qed.

(** The embedding layer's weights, as the model builds them. *)
Lemma embedding_table_built (n : Z) :
  0 ≤ n →
  (w ← build (model n); get_layer_weights w "embedded_stations")
  = Ok [Arr2 (tabulate (Z.to_nat n)
                (λ i, tabulate EMBEDDING_SIZE
                        (initializer "embedded_stations" 0 i)))].
Proof.
  intros Hn. unfold build, build_layer.
  change (layers (outputs (model n)))
    with [ (Input [1%nat] "station_id_input", []);
           (Embedding 20 n "embedded_stations", [[1%nat]]);
           (Reshape [20%nat] "embedded_station_reshape", [[1%nat; 20%nat]]);
           (Input [1%nat] "month_day_input", []);
           (Concatenate "station_and_day", [[20%nat]; [1%nat]]);
           (Dense 40 (Some relu) "hidden", [[21%nat]]);
           (Dense 3 None "prediction", [[40%nat]]) ].
  cbn [map sequence_results weight_shapes mbind result_bind rbind].
  destruct (Z.ltb_spec n 0) as [Hneg|_]; [lia|]. reflexivity.
Qed.

Lemma tabulate_length {A : Type} (n : nat) (f : nat → A) :
  length (tabulate n f) = n.
Proof. unfold tabulate. by rewrite length_map, length_seq. Qed.

Lemma tabulate_lookup {A : Type} (n : nat) (f : nat → A) (i : nat) :
  (i < n)%nat → tabulate n f !! i = Some (f i).
Proof.
  intros Hi. unfold tabulate.
  rewrite list_lookup_fmap, lookup_seq_lt by done. done.
Qed.

(** C7: the station count is the maximum observed station ID plus one, so
    every station ID of the table is strictly below it; and the embedding
    table the model is built with has exactly max_id + 1 rows, so that
    the maximum ID itself (station IDs being non-negative row numbers)
    finds its row. *)
Theorem num_stations_is_max_plus_one (wd : ndarray) (ids : list Z) :
  station_id_data wd = Ok ids → ids ≠ [] →
  ∃ max_id,
    max_id ∈ ids
    ∧ Forall (λ id, id ≤ max_id) ids
    ∧ NUM_STATIONS wd = Ok (max_id + 1)
    ∧ Forall (λ id, id < max_id + 1) ids
    ∧ (0 ≤ max_id →
       ∃ W row,
         (w ← build (model (max_id + 1));
          get_layer_weights w "embedded_stations")
         = Ok [Arr2 W]
         ∧ Z.of_nat (length W) = max_id + 1
         ∧ embedding_lookup W max_id = Ok row
         ∧ length row = EMBEDDING_SIZE
         ∧ embedding_lookup W (max_id + 1) = Raise BackendError).
Proof.
  intros Hids Hne.
  destruct (num_stations_spec wd ids Hids Hne) as (m & Hin & Hle & Hn).
  exists m. split; [done|]. split; [done|]. split; [done|].
  split.
  { eapply Forall_impl; [exact Hle|]. cbn. lia. }
  intros Hm.
  eexists. rewrite embedding_table_built by lia.
  assert (Hlen : Z.of_nat (length (tabulate (Z.to_nat (m + 1))
             (λ i, tabulate EMBEDDING_SIZE
                     (initializer "embedded_stations" 0 i)))) = m + 1).
  { rewrite tabulate_length. lia. }
  eexists. split; [reflexivity|]. split; [exact Hlen|].
  unfold embedding_lookup.
  destruct (Z.leb_spec 0 m); [|lia].
  destruct (Z.leb_spec 0 (m + 1)); [|lia].
  rewrite tabulate_lookup by lia.
  split; [reflexivity|]. split; [apply tabulate_length|].
  rewrite lookup_ge_None_2; [done|]. rewrite tabulate_length. lia.
Qed.
End StationCount.

Lemma num_stations_is_max_plus_one_witness :
  ∃ max_id,
    max_id ∈ [2; 0; 5; 1]%Z
    ∧ Network.NUM_STATIONS Examples.four_stations = Ok (max_id + 1)%Z.
Proof.
  destruct (num_stations_is_max_plus_one (B := Exact.backend)
              Examples.four_stations [2; 0; 5; 1]%Z)
    as (m & Hin & _ & Hn & _); [reflexivity | discriminate |].
  exists m. split; [exact Hin | exact Hn].
Defined.


(** ** The classification export (cell 8) *)

Section ExportLoop.
Import Reporter.
Open Scope nat_scope.

Lemma loop_turns (pairs : list (string * nat)) (st : loop_state) :
  iterations (fold_left loop_turn pairs st) = iterations st + length pairs
  ∧ printed (fold_left loop_turn pairs st) = printed st
  ∧ station (fold_left loop_turn pairs st)
    = (if decide (pairs = []) then station st else fst <$> last pairs)
  ∧ label (fold_left loop_turn pairs st)
    = (if decide (pairs = []) then label st else snd <$> last pairs).
Proof.
  revert st. induction pairs as [|p pairs IH]; intros st; cbn.
  - rewrite Nat.add_0_r. done.
  - destruct (IH (loop_turn st p)) as (Hi & Hp & Hs & Hl).
    rewrite Hi, Hp, Hs, Hl. cbn.
    split; [lia|]. split; [done|].
    destruct pairs as [|q pairs]; cbn; done.
Qed.

(** Stripping the lines keeps their number: one station per line. *)
Lemma list_of_stations_length (fs : gmap string Numpy.file) (content : string)
    (stations : list string) :
  open_text fs stations_file = Ok content →
  list_of_stations fs = Ok stations →
  length stations = length (readlines content).
Proof.
  intros Hopen. unfold list_of_stations. rewrite Hopen. cbn.
  intros [= <-]. apply length_map.
Qed.

Example readlines_example :
  readlines "USC00011084
USC00012813" = ["USC00011084
"; "USC00012813"]
  ∧ map strip (readlines "  A1
B2  ") = ["A1"; "B2"].
Proof. split; reflexivity. Qed.

(** Three stations and two labels: two turns, the third station is
    dropped, nothing is printed. *)
Example export_example :
  export_classification ["A1"; "B2"; "C3"] [4; 0] (LoopState [] None None 0)
  = LoopState [] (Some "B2") (Some 0) 2.
Proof. reflexivity. Qed.

(** C10: the export loop turns exactly min(number of stations, number of
    labels) times, over the pairs of the two lists cut to that common
    length, so that surplus entries of either list are dropped; it is a
    total function (no error), and what it leaves behind is only the loop
    variables: nothing is printed. *)
Theorem export_enumerates_min (stations : list string) (labels : list nat)
    (st : loop_state) :
  let n := length stations `min` length labels in
  let st' := export_classification stations labels st in
  length (zip stations labels) = n
  ∧ iterations st' = iterations st + n
  ∧ zip stations labels = zip (take n stations) (take n labels)
  ∧ st' = export_classification (take n stations) (take n labels) st
  ∧ printed st' = printed st.
Proof.
  intros n st'. subst n st'. unfold export_classification.
  destruct (loop_turns (zip stations labels) st) as (Hi & Hp & _).
  rewrite Hi, Hp, length_zip_with.
  rewrite (zip_with_take_both' pair) by lia.
  done.
Qed.
End ExportLoop.


(** ** Name resolution (cells 1, 2 and 8) *)

Section Names.
Import Py Notebook.

Lemma os_not_builtin : "os" ∉ bound_names fresh_kernel.
Proof. apply (bool_decide_unpack _). vm_compute. reflexivity. Qed.

(** C3: whatever the files hold and whatever the library calls would do,
    running the cells from the top in a fresh kernel stops in cell 2 with
    a name error on [os]: [DATA_PATH] has been assigned and [matrix_file]
    has not, no call has been made, so no file has been read and neither
    training, clustering nor the export has been reached. *)
Theorem run_stops_at_os (w : world) :
  snd (run_cells w cells fresh_kernel) = Some (NameError "os")
  ∧ calls_made (fst (run_cells w cells fresh_kernel)) = []
  ∧ "DATA_PATH" ∈ bound_names (fst (run_cells w cells fresh_kernel))
  ∧ ("matrix_file" ∉ bound_names (fst (run_cells w cells fresh_kernel)))
  ∧ Forall (λ callee, callee ∉ calls_made (fst (run_cells w cells fresh_kernel)))
           ["np.load"; "open"; "model.fit"; "KMeans().fit"; "zip"].
Proof.
  assert (Hrun : run_cells w cells fresh_kernel
    = (Kernel (bound_names
         (bind ["DATA_PATH"] (bind ["KMeans"]
           (bind ["Dense"; "Flatten"; "Embedding"; "Input"; "Reshape";
                  "Concatenate"]
             (bind ["Model"] (bind ["plt"] (bind ["np"] fresh_kernel)))))))
         [],
       Some (NameError "os"))).
  { vm_compute. reflexivity. }
  rewrite Hrun. cbn [fst snd calls_made bound_names].
  split; [done|]. split; [done|].
  split; [apply (bool_decide_unpack _); vm_compute; reflexivity|].
  split; [apply (bool_decide_unpack _); vm_compute; reflexivity|].
  repeat (constructor; [apply not_elem_of_nil|]). constructor.
Qed.

(** With [os] bound beforehand and calls that succeed, the same cells run
    to the end, reading both files, training, clustering and enumerating
    the pairs, in this order. *)
Lemma run_with_os_bound :
  snd (run_cells (calm_world 2) cells kernel_with_os) = None
  ∧ List.filter (λ c, bool_decide (c ∈ ["np.load"; "model.fit"; "open";
                                        "KMeans().fit"; "zip"]))
                (calls_made (fst (run_cells (calm_world 2) cells kernel_with_os)))
    = ["np.load"; "model.fit"; "open"; "KMeans().fit"; "zip"].
Proof. split; vm_compute; reflexivity. Qed.
End Names.


(** ** The clustering stage (cell 8) *)

Section Labels.
Import Clustering Pipeline.
Open Scope nat_scope.
Context {R : Type} {G : Geometry R}.









End Labels.




(** ** Training keeps the shapes of the weights *)

Section TrainedShapes.
Import Numpy Network Training Shapes Pipeline Keras.
Open Scope nat_scope.
Context {R : Type} {B : Backend R}.

Lemma build_array_shape (name : string) (k : nat) (s : list nat) :
  (length s = 1 ∨ length s = 2) → has_shape s (build_array name k s).
Proof.
  destruct s as [|a [|b [|c s]]]; cbn; intros [?|?]; try lia.
  - apply tabulate_length.
  - split; [apply tabulate_length|].
    apply Forall_forall. intros row Hrow.
    apply list_elem_of_fmap in Hrow as (i & -> & _). apply tabulate_length.
Qed.

Lemma build_layer_shapes (l : layer) (ins : list (list nat))
    (ws : list (array R)) :
  build_layer l ins = Ok ws →
  ∃ shapes, weight_shapes l ins = Ok shapes ∧ Forall2 has_shape shapes ws.
Proof.
  unfold build_layer.
  destruct (weight_shapes l ins) as [shapes|e] eqn:Hshapes; [|done].
  cbn [mbind result_bind rbind]. intros [= <-].
  exists shapes. split; [done|].
  destruct l as [sh name|out n name|target name|name|units act name];
    [| |  | |destruct ins as [|s [|s' ins]]];
    cbn [weight_shapes] in Hshapes;
    try destruct (n <? 0)%Z; try done;
    injection Hshapes as <-; cbn -[build_array has_shape];
    repeat (constructor; [apply build_array_shape; cbn; lia|]); constructor.
Qed.

Lemma build_well_shaped (m : model) (w : weights) :
  build m = Ok w → well_shaped m w.
Proof.
  unfold well_shaped, build. revert w.
  induction (layers (outputs m)) as [|[l ins] ls IH]; intros w;
    cbn [map sequence_results].
  - intros [= <-]. constructor.
  - destruct (build_layer l ins) as [ws|e] eqn:Hws; [|done].
    cbn [mbind result_bind rbind].
    destruct (sequence_results _) as [w1|e]; [|done].
    cbn [mbind result_bind rbind]. intros [= <-].
    constructor; [|by apply IH].
    split; [done|]. by apply build_layer_shapes.
Qed.

Lemma update_array_shape (f : nat → nat → R) (s : list nat) (a : array R) :
  has_shape s a → has_shape s (update_array f a).
Proof.
  destruct a as [v | m]; destruct s as [|a [|b [|c s]]]; cbn; try done.
  - intros <-. apply length_imap.
  - intros [<- Hrows]. split; [apply length_imap|].
    apply Forall_forall. intros row Hrow.
    apply list_elem_of_lookup in Hrow as [i Hi].
    rewrite list_lookup_imap in Hi.
    destruct (m !! i) as [row'|] eqn:Hrow'; [|done].
    cbn in Hi. injection Hi as <-. rewrite length_imap.
    rewrite Forall_forall in Hrows. apply Hrows.
    apply list_elem_of_lookup. eauto.
Qed.

Lemma update_arrays_shape (f : nat → nat → nat → R) (ss : list (list nat))
    (ws : list (array R)) :
  Forall2 has_shape ss ws →
  Forall2 has_shape ss (imap (λ k a, update_array (f k) a) ws).
Proof.
  intros Hs. revert f. induction Hs as [|s a ss ws Hsa Hs IH]; intros f; cbn.
  - constructor.
  - constructor; [by apply update_array_shape|]. apply (IH (λ k, f (S k))).
Qed.

Lemma update_well_shaped (m : model) (f : string → nat → nat → nat → R)
    (w : weights) :
  well_shaped m w → well_shaped m (update_weights f w).
Proof.
  unfold well_shaped, update_weights.
  induction 1 as [|[l ins] [name ws] ls w' [Hn (shapes & Hshapes & Hs)] Hrest IH];
    cbn.
  - constructor.
  - constructor; [|exact IH]. split; [done|].
    exists shapes. split; [done|]. by apply update_arrays_shape.
Qed.

Lemma train_on_batch_well_shaped (m : model) (st st' : opt_state)
    (w w' : weights) (batch : list sample) :
  well_shaped m w → train_on_batch m st w batch = Ok (st', w') →
  well_shaped m w'.
Proof.
  intros Hw. unfold train_on_batch.
  destruct (sequence_results _) as [preds|e]; cbn; [|done].
  destruct (optimizer_step _ _ _ _ _ _) as [st'' f].
  intros [= _ <-]. by apply update_well_shaped.
Qed.

Lemma run_batches_well_shaped (m : model) (batches : list (list sample))
    (st st' : opt_state) (w w' : weights) :
  well_shaped m w →
  fit_outcome (run_batches m st w batches) = Ok (st', w') →
  well_shaped m w'.
Proof.
  revert st w. induction batches as [|b bs IH]; intros st w Hw; cbn.
  - intros [= _ <-]. done.
  - destruct (train_on_batch m st w b) as [[st1 w1]|e] eqn:Hstep; cbn; [|done].
    apply IH. eapply train_on_batch_well_shaped; eauto.
Qed.

Lemma run_epochs_well_shaped (m : model) (data : list sample)
    (batch_size epochs todo : nat) (st st' : opt_state) (w w' : weights) :
  well_shaped m w →
  fit_outcome (run_epochs m data batch_size epochs todo st w) = Ok (st', w') →
  well_shaped m w'.
Proof.
  revert st w. induction todo as [|todo IH]; intros st w Hw; cbn.
  - intros [= _ <-]. done.
  - destruct (fit_outcome (run_batches _ _ _ _)) as [[st1 w1]|e] eqn:Hb; cbn;
      [|done].
    apply IH. eapply run_batches_well_shaped; eauto.
Qed.

Lemma fit_well_shaped (m : model) (st st' : opt_state) (w w' : weights)
    (x y : list (list Z)) (batch_size : option nat) (epochs : nat) :
  well_shaped m w →
  fit_outcome (fit m st w x y batch_size epochs) = Ok (st', w') →
  well_shaped m w'.
Proof.
  intros Hw. unfold fit.
  destruct (standardize m x y) as [data|e]; cbn; [|done].
  by apply run_epochs_well_shaped.
Qed.
End TrainedShapes.


(** ** The forward pass of the notebook's model *)

Section Forward.
Import Numpy Network Training Shapes Pipeline Keras.
Open Scope nat_scope.
Context {R : Type} {B : Backend R}.

Lemma dense_fold_length (u : nat) (pairs : list (R * list R)) (acc : list R) :
  Forall (λ p, length p.2 = u) pairs → length acc = u →
  length (fold_left (λ acc '(xi, row), zip_with add acc (map (mul xi) row))
                    pairs acc) = u.
Proof.
  intros Hp. revert acc. induction Hp as [|[xi row] pairs Hrow Hp IH];
    intros acc Hacc; cbn; [done|].
  apply IH. cbn in Hrow. rewrite length_zip_with, length_map. lia.
Qed.

Lemma dense_length (act : option activation) (K : list (list R)) (b x : list R)
    (u : nat) :
  length x = length K → Forall (λ row, length row = u) K → length b = u →
  ∃ y, dense act K b x = Ok y ∧ length y = u.
Proof.
  intros Hx HK Hb. unfold dense.
  rewrite (proj2 (Nat.eqb_eq _ _) Hx).
  eexists. split; [reflexivity|].
  rewrite length_map. apply dense_fold_length; [|done].
  apply Forall_forall. intros [xi row] Hin. cbn.
  apply elem_of_zip_r in Hin.
  rewrite Forall_forall in HK. by apply HK.
Qed.

(** The layers of the notebook's model, in the order of its summary, with
    the shapes each is called on. *)
Lemma model_layers (n : Z) :
  layers (outputs (Network.model n))
  = [ (Input [1] "station_id_input", []);
      (Embedding 20 n "embedded_stations", [[1]]);
      (Reshape [20] "embedded_station_reshape", [[1; 20]]);
      (Input [1] "month_day_input", []);
      (Concatenate "station_and_day", [[20]; [1]]);
      (Dense 40 (Some relu) "hidden", [[21]]);
      (Dense 3 None "prediction", [[40]]) ].
Proof. vm_compute. reflexivity. Qed.

(** The weights of the notebook's model, layer by layer. *)
Lemma well_shaped_model (n : Z) (w : weights) :
  well_shaped (Network.model n) w →
  ∃ (W K1 : list (list R)) (b1 : list R) (K2 : list (list R)) (b2 : list R),
    w = [("station_id_input", []); ("embedded_stations", [Arr2 W]);
         ("embedded_station_reshape", []); ("month_day_input", []);
         ("station_and_day", []); ("hidden", [Arr2 K1; Arr1 b1]);
         ("prediction", [Arr2 K2; Arr1 b2])]
    ∧ (length W = Z.to_nat n ∧ Forall (λ row, length row = 20) W)
    ∧ (length K1 = 21 ∧ Forall (λ row, length row = 40) K1)
    ∧ length b1 = 40
    ∧ (length K2 = 40 ∧ Forall (λ row, length row = 3) K2)
    ∧ length b2 = 3.
Proof.
  unfold well_shaped. rewrite model_layers. cbn -[has_shape].
  intros Hw.
  repeat match goal with
  | H : Forall2 _ (_ :: _) _ |- _ =>
      apply Forall2_cons_inv_l in H as ([? ?] & ? & [-> ?] & H & ->)
  | H : Forall2 _ [] _ |- _ => apply Forall2_nil_inv_l in H as ->
  end.
  cbn -[has_shape] in *.
  destruct (n <? 0)%Z;
    repeat match goal with
    | H : ∃ shapes, _ = Ok shapes ∧ _ |- _ =>
        let Heq := fresh "Heq" in
        destruct H as (? & Heq & H); [discriminate Heq || injection Heq as <-]
    end.
  repeat match goal with
  | H : Forall2 has_shape (_ :: _) _ |- _ =>
      apply Forall2_cons_inv_l in H as (? & ? & ? & H & ->)
  | H : Forall2 has_shape [] _ |- _ => apply Forall2_nil_inv_l in H as ->
  end.
  repeat match goal with
  | H : has_shape _ ?a |- _ => destruct a; cbn in H; try done
  end.
  eexists _, _, _, _, _. split; [reflexivity|]. done.
Qed.

(** Cell 5 builds the model exactly when the station count is not
    negative; a negative count stops it with the [ValueError] of the
    embedding layer. *)
Lemma build_model_ok (n : Z) :
  (0 ≤ n)%Z →
  ∃ w, build (Network.model n) = Ok w ∧ well_shaped (Network.model n) w.
Proof.
  intros Hn.
  assert (Hbuild : ∃ w, build (Network.model n) = Ok w).
  { unfold build, build_layer. rewrite model_layers.
    cbn [map sequence_results weight_shapes mbind result_bind rbind].
    destruct (Z.ltb_spec n 0) as [Hneg|_]; [lia|]. cbn. eauto. }
  destruct Hbuild as [w Hw]. exists w. split; [done|].
  by apply build_well_shaped.
Qed.

Lemma build_model_negative (n : Z) :
  (n < 0)%Z → build (Network.model n) = Raise ValueError.
Proof.
  intros Hn. unfold build, build_layer. rewrite model_layers.
  cbn [map sequence_results weight_shapes mbind result_bind rbind].
  destruct (Z.ltb_spec n 0) as [_|Hpos]; [|lia]. reflexivity.
Qed.

Lemma fit_cell_built (n : Z) (ids days : list Z) (targets : list (list Z))
    (w : weights) :
  build (Network.model n) = Ok w →
  fit_cell n ids days targets
  = fit (Network.model n) opt_init w [ids; days] targets None 1.
Proof. intros Hw. unfold fit_cell, model_cell. by rewrite Hw. Qed.

Lemma fit_cell_not_built (n : Z) (ids days : list Z)
    (targets : list (list Z)) :
  (n < 0)%Z → fit_cell n ids days targets = FitResult [] (Raise ValueError).
Proof.
  intros Hn. unfold fit_cell, model_cell.
  by rewrite build_model_negative.
Qed.

(** A fit that succeeded was run on a model that was built, and leaves
    weights of the model's shapes. *)
Lemma fit_cell_well_shaped (n : Z) (ids days : list Z)
    (targets : list (list Z)) (st : opt_state) (w' : weights) :
  fit_outcome (fit_cell n ids days targets) = Ok (st, w') →
  (0 ≤ n)%Z ∧ well_shaped (Network.model n) w'.
Proof.
  intros Hfit.
  destruct (Z.lt_ge_cases n 0) as [Hneg|Hn].
  { by rewrite fit_cell_not_built in Hfit. }
  split; [done|].
  destruct (build_model_ok n Hn) as (w & Hw & Hshape).
  rewrite (fit_cell_built _ _ _ _ w Hw) in Hfit.
  by eapply fit_well_shaped.
Qed.

Lemma forward_pass (n : Z) (W K1 : list (list R)) (b1 : list R)
    (K2 : list (list R)) (b2 : list R) (s : sample) (row h p : list R) :
  let w := [("station_id_input", []); ("embedded_stations", [Arr2 W]);
            ("embedded_station_reshape", []); ("month_day_input", []);
            ("station_and_day", []); ("hidden", [Arr2 K1; Arr1 b1]);
            ("prediction", [Arr2 K2; Arr1 b2])] in
  let x := row ++ [of_int (sample_day s)] in
  embedding_lookup W (sample_station s) = Ok row →
  dense (Some relu) K1 b1 x = Ok h →
  dense None K2 b2 h = Ok p →
  eval w (feed_of s) (embedded_stations n) = Ok (VFlt row)
  ∧ eval w (feed_of s) (station_and_day n) = Ok (VFlt x)
  ∧ eval w (feed_of s) (hidden n) = Ok (VFlt h)
  ∧ eval w (feed_of s) (prediction n) = Ok (VFlt p).
Proof.
  intros w x Hrow Hh Hp.
  assert (Hid : eval w (feed_of s) station_id_input
                = Ok (VInt [sample_station s])) by reflexivity.
  assert (Hday : eval w (feed_of s) month_day_input
                 = Ok (VInt [sample_day s])) by reflexivity.
  assert (G1 : get_layer_weights w "embedded_stations" = Ok [Arr2 W])
    by reflexivity.
  assert (G2 : get_layer_weights w "embedded_station_reshape" = Ok [])
    by reflexivity.
  assert (G3 : get_layer_weights w "station_and_day" = Ok []) by reflexivity.
  assert (G4 : get_layer_weights w "hidden" = Ok [Arr2 K1; Arr1 b1])
    by reflexivity.
  assert (G5 : get_layer_weights w "prediction" = Ok [Arr2 K2; Arr1 b2])
    by reflexivity.
  clearbody w.
  assert (H1 : eval w (feed_of s) (embedded_stations n) = Ok (VFlt row)).
  { change (eval w (feed_of s) (embedded_stations n))
      with (ins ← sequence_results [eval w (feed_of s) station_id_input];
            ws ← get_layer_weights w "embedded_stations";
            call_layer (Embedding EMBEDDING_SIZE n "embedded_stations")
                       ws (feed_of s) ins).
    rewrite Hid, G1. cbn -[embedding_lookup]. rewrite Hrow. cbn.
    by rewrite app_nil_r. }
  assert (H2 : eval w (feed_of s) (embedded_station_reshape n)
               = Ok (VFlt row)).
  { change (eval w (feed_of s) (embedded_station_reshape n))
      with (ins ← sequence_results [eval w (feed_of s) (embedded_stations n)];
            ws ← get_layer_weights w "embedded_station_reshape";
            call_layer (Reshape [EMBEDDING_SIZE] "embedded_station_reshape")
                       ws (feed_of s) ins).
    rewrite H1, G2. done. }
  assert (H3 : eval w (feed_of s) (station_and_day n) = Ok (VFlt x)).
  { change (eval w (feed_of s) (station_and_day n))
      with (ins ← sequence_results
                    [eval w (feed_of s) (embedded_station_reshape n);
                     eval w (feed_of s) month_day_input];
            ws ← get_layer_weights w "station_and_day";
            call_layer (Concatenate "station_and_day") ws (feed_of s) ins).
    rewrite H2, Hday, G3. done. }
  assert (H4 : eval w (feed_of s) (hidden n) = Ok (VFlt h)).
  { change (eval w (feed_of s) (hidden n))
      with (ins ← sequence_results [eval w (feed_of s) (station_and_day n)];
            ws ← get_layer_weights w "hidden";
            call_layer (Dense HIDDEN_UNITS (Some relu) "hidden")
                       ws (feed_of s) ins).
    rewrite H3, G4. cbn -[dense]. fold x. rewrite Hh. done. }
  assert (H5 : eval w (feed_of s) (prediction n) = Ok (VFlt p)).
  { change (eval w (feed_of s) (prediction n))
      with (ins ← sequence_results [eval w (feed_of s) (hidden n)];
            ws ← get_layer_weights w "prediction";
            call_layer (Dense 3 None "prediction") ws (feed_of s) ins).
    rewrite H4, G5. cbn -[dense]. rewrite Hp. done. }
  done.
Qed.
End Forward.


(** ** The structure of the network and of its training (cells 5 to 7) *)

Section Structure.
Import Numpy Network Training Shapes Pipeline Keras.
Open Scope nat_scope.
Context {R : Type} {B : Backend R}.

(** C8: the network is an embedding table of shape (num_stations, 20)
    indexed by the station ID, whose row is concatenated with the scalar
    day-of-year feature into a vector of 21 entries, fed to a dense hidden
    layer of 40 units with rectified-linear activation, fed to a dense
    output layer of 3 units without activation; and the embedding table
    read out after a training that succeeded has num_stations rows of
    embedding_size = 20 entries. *)
Theorem network_structure (n : Z) (ids days : list Z)
    (targets : list (list Z)) (st : opt_state) (w' : weights) :
  fit_outcome (fit_cell n ids days targets) = Ok (st, w') →
  output_shape (embedded_stations n) = Ok [1; 20]
  ∧ weight_shapes (Embedding EMBEDDING_SIZE n "embedded_stations") [[1]]
    = Ok [[Z.to_nat n; 20]]
  ∧ output_shape (station_and_day n) = Ok [21]
  ∧ output_shape (hidden n) = Ok [40]
  ∧ output_shape (prediction n) = Ok [3]
  ∧ ∃ (W K1 : list (list R)) (b1 : list R) (K2 : list (list R)) (b2 : list R),
      trained_embeddings w' = Ok (Arr2 W)
      ∧ length W = Z.to_nat n
      ∧ Forall (λ row, length row = EMBEDDING_SIZE) W
      ∧ get_layer_weights w' "hidden" = Ok [Arr2 K1; Arr1 b1]
      ∧ get_layer_weights w' "prediction" = Ok [Arr2 K2; Arr1 b2]
      ∧ ∀ (s : sample) (row : list R),
          embedding_lookup W (sample_station s) = Ok row →
          ∃ h p,
            W !! Z.to_nat (sample_station s) = Some row
            ∧ length (row ++ [of_int (sample_day s)]) = 21
            ∧ eval w' (feed_of s) (station_and_day n)
              = Ok (VFlt (row ++ [of_int (sample_day s)]))
            ∧ dense (Some relu) K1 b1 (row ++ [of_int (sample_day s)]) = Ok h
            ∧ length h = 40
            ∧ eval w' (feed_of s) (hidden n) = Ok (VFlt h)
            ∧ dense None K2 b2 h = Ok p
            ∧ length p = 3
            ∧ predict (Network.model n) w' s = Ok p.
Proof.
  intros Hfit.
  apply fit_cell_well_shaped in Hfit as [Hn Hfit].
  split; [reflexivity|].
  split.
  { cbn [weight_shapes]. by destruct (Z.ltb_spec n 0); [lia|]. }
  do 3 (split; [reflexivity|]).
  apply well_shaped_model in Hfit
    as (W & K1 & b1 & K2 & b2 & -> & [HW HWr] & [HK1 HK1r] & Hb1
        & [HK2 HK2r] & Hb2).
  exists W, K1, b1, K2, b2.
  split; [reflexivity|]. split; [exact HW|]. split; [exact HWr|].
  split; [reflexivity|]. split; [reflexivity|].
  intros s row Hrow.
  assert (Hlookup : W !! Z.to_nat (sample_station s) = Some row).
  { unfold embedding_lookup in Hrow.
    destruct (0 <=? sample_station s)%Z; [|done].
    destruct (W !! Z.to_nat (sample_station s)); [|done]. congruence. }
  assert (Hlen : length (row ++ [of_int (sample_day s)]) = 21).
  { rewrite length_app. cbn. rewrite Forall_forall in HWr.
    rewrite (HWr row); [done|]. apply list_elem_of_lookup. eauto. }
  destruct (dense_length (Some relu) K1 b1 (row ++ [of_int (sample_day s)]) 40)
    as (h & Hh & Hhl); [lia | done | done |].
  destruct (dense_length None K2 b2 h 3) as (p & Hp & Hpl);
    [lia | done | done |].
  destruct (forward_pass n W K1 b1 K2 b2 s row h p Hrow Hh Hp)
    as (_ & Hx & Hhid & Hpred).
  exists h, p. do 8 (split; [done|]).
  unfold predict.
  change (outputs (Network.model n)) with (prediction n).
  rewrite Hpred. done.
Qed.

(** Whenever the model is built, the arrays handed to [fit] agree in
    length and the targets are three wide, the first epoch begins. *)
Lemma fit_begins (n : Z) (ids days : list Z) (targets : list (list Z)) :
  (0 ≤ n)%Z →
  length ids = length targets → length days = length targets →
  Forall (λ t, length t = 3) targets →
  ∃ log, fit_log (fit_cell n ids days targets) = EpochBegin 1 1 :: log.
Proof.
  intros Hn Hids Hdays Hwidth.
  destruct (build_model_ok n Hn) as (w0 & Hw0 & _).
  rewrite (fit_cell_built _ _ _ _ w0 Hw0). unfold fit.
  assert (Hstd : ∃ data,
    standardize (Network.model n) [ids; days] targets = Ok data).
  { unfold standardize.
    change (output_shape (outputs (Network.model n)))
      with (Ok (A:=list nat) [3]).
    rewrite (proj2 (Nat.eqb_eq _ _) Hids), (proj2 (Nat.eqb_eq _ _) Hdays).
    assert (forallb (λ t, length t =? 3) targets = true) as ->.
    { apply forallb_forall. intros t Ht%list_elem_of_In.
      rewrite Forall_forall in Hwidth. apply Nat.eqb_eq. by apply Hwidth. }
    cbn. eauto. }
  destruct Hstd as [data ->]. cbn.
  destruct (fit_outcome (run_batches _ _ _ _)) as [[st1 w1]|e]; cbn; eauto.
Qed.

(** Three-wide rows written out in row-major order and cut three at a
    time are the same rows. *)
Lemma chunks_concat {A : Type} (size fuel : nat) (rs : list (list A)) :
  0 < size → Forall (λ r, length r = size) rs →
  length (concat rs) ≤ fuel →
  chunks_fuel fuel size (concat rs) = rs.
Proof.
  intros Hsize Hrs. revert fuel.
  induction Hrs as [|r rs Hr Hrs IH]; intros fuel Hfuel.
  - cbn. by destruct fuel.
  - cbn [concat] in *. rewrite length_app in Hfuel.
    destruct fuel as [|fuel]; [lia|].
    destruct r as [|a r]; [cbn in Hr; lia|].
    change (chunks_fuel (S fuel) size ((a :: r) ++ concat rs))
      with (take size ((a :: r) ++ concat rs)
            :: chunks_fuel fuel size (drop size ((a :: r) ++ concat rs))).
    rewrite take_app_length', drop_app_length' by done.
    rewrite IH; [done|]. cbn in Hfuel. lia.
Qed.

Lemma length_concat_rows {A : Type} (size : nat) (rs : list (list A)) :
  Forall (λ r, length r = size) rs →
  length (concat rs) = size * length rs.
Proof.
  induction 1 as [|r rs Hr Hrs IH]; cbn; [lia|].
  rewrite length_app, IH, Hr. lia.
Qed.

Lemma reshape_rows3_of_six_columns (wd : ndarray) :
  Forall (λ r, length r = 6) (rows wd) →
  reshape_rows3 (Loader.weather_prediction wd)
  = Ok (map (drop 3) (rows wd)).
Proof.
  intros Hrows. unfold reshape_rows3, Loader.weather_prediction, columns_from.
  cbn [rows Loader.VAL_COLS_START].
  assert (Hthree : Forall (λ r : list Z, length r = 3) (map (drop 3) (rows wd))).
  { apply Forall_fmap. eapply Forall_impl; [exact Hrows|].
    intros r Hr. change (length (drop 3 r) = 3).
    cbv beta in Hr. rewrite length_drop, Hr. done. }
  rewrite (length_concat_rows 3) by done.
  rewrite Nat.mul_comm, Nat.Div0.mod_mul. cbn [Nat.eqb].
  unfold make_batches. rewrite (chunks_concat 3); [done | lia | done | lia].
Qed.

(** What the loader hands on has been cast to int32. *)
Lemma weather_data_is_int32 (fs : gmap string file) (wd : ndarray) :
  Loader.weather_data fs = Ok wd →
  ∃ data, wd = astype_int32 data.
Proof.
  unfold Loader.weather_data.
  destruct (load fs Loader.matrix_file) as [npz|e]; cbn; [|done].
  destruct (getitem npz "data") as [data|e]; cbn; [|done].
  intros [= <-]. eauto.
Qed.

(** C4, amended: the program has no validation of the station IDs.  From
    every matrix file that loads into a table of six columns with at least
    one record, the station IDs are cast to int32 (an ID stored outside
    that range is wrapped, not rejected) and the station count is the
    maximum of the cast IDs plus one, so that no ID of the table reaches
    it.  When that count is positive, training begins.  When it is
    negative (every ID is below -1), cell 5 stops with the [ValueError] of
    the embedding layer, which cannot have a negative number of rows, and
    [fit] is never called: this is the one exception the IDs can cause
    before training, and it does not compare any ID with the count. *)
Theorem training_begins_without_validation (fs : gmap string file)
    (wd : ndarray) :
  Loader.weather_data fs = Ok wd →
  ncols wd = 6 → rows wd ≠ [] → Forall (λ r, length r = 6) (rows wd) →
  ∃ ids n fitted,
    Loader.station_id_data wd = Ok ids
    ∧ NUM_STATIONS wd = Ok n
    ∧ Forall (λ id, Int32.in_range id ∧ (id < n)%Z) ids
    ∧ train wd = Ok fitted
    ∧ ((0 < n)%Z → ∃ log, fit_log fitted = EpochBegin 1 1 :: log)
    ∧ ((n < 0)%Z →
       fit_log fitted = [] ∧ fit_outcome fitted = Raise ValueError).
Proof.
  intros Hload Hcols Hne Hrows.
  assert (Hids : Loader.station_id_data wd
                 = Ok (map (λ r, nth 0 r 0%Z) (rows wd))).
  { apply column_ok. lia. }
  set (ids := map (λ r, nth 0 r 0%Z) (rows wd)) in *.
  assert (Hids_ne : ids ≠ []).
  { subst ids. destruct (rows wd); [done | discriminate]. }
  destruct (num_stations_spec wd ids Hids Hids_ne) as (m & _ & Hle & Hn).
  eexists ids, (m + 1)%Z, _.
  split; [done|]. split; [done|]. split; [|split].
  - apply weather_data_is_int32 in Hload as [data ->].
    apply Forall_forall. intros id Hid. split.
    + subst ids. cbn in Hid.
      apply list_elem_of_fmap in Hid as (r & -> & Hr).
      apply list_elem_of_fmap in Hr as (r' & -> & _).
      destruct r' as [|x r']; cbn; [|apply wrap_in_range].
      unfold Int32.in_range, Int32.min_signed, Int32.max_signed. lia.
    + rewrite Forall_forall in Hle. specialize (Hle id Hid). cbn in Hle. lia.
  - unfold train.
    rewrite day_of_year_column by lia. cbn.
    rewrite Hids. cbn. rewrite Hn. cbn.
    rewrite reshape_rows3_of_six_columns by done. cbn. reflexivity.
  - split.
    + intros Hpos. apply fit_begins; [lia | | |].
      * subst ids. by rewrite !length_map.
      * by rewrite !length_map.
      * apply Forall_fmap. eapply Forall_impl; [exact Hrows|].
        intros r Hr. change (length (drop 3 r) = 3).
        cbv beta in Hr. rewrite length_drop, Hr. done.
    + intros Hneg. by rewrite fit_cell_not_built.
Qed.
End Structure.

Lemma network_structure_witness :
  Training.fit_outcome (Pipeline.fit_cell (B := Exact.backend) 3 [0; 1; 2]%Z
                 [0; 31; 62]%Z [[1; 2; 3]; [4; 5; 6]; [7; 8; 9]]%Z)
  = (w ← Training.build (B := Exact.backend) (Network.model 3); Ok (tt, w))
  ∧ Keras.output_shape (Network.station_and_day 3) = Ok [21].
Proof.
  split; [vm_compute; reflexivity|].
  assert (Hfit : ∃ w',
    Training.fit_outcome (Pipeline.fit_cell (B := Exact.backend) 3 [0; 1; 2]%Z
                   [0; 31; 62]%Z [[1; 2; 3]; [4; 5; 6]; [7; 8; 9]]%Z)
    = Ok (tt, w')).
  { eexists. vm_compute. reflexivity. }
  destruct Hfit as [w' Hfit].
  destruct (network_structure (B := Exact.backend) 3 [0; 1; 2]%Z [0; 31; 62]%Z
              [[1; 2; 3]; [4; 5; 6]; [7; 8; 9]]%Z tt w' Hfit)
    as (_ & _ & Hconcat & _).
  exact Hconcat.
Defined.

Lemma training_begins_without_validation_witness :
  ∃ ids fitted log,
    Loader.station_id_data Examples.four_stations = Ok ids
    ∧ Network.NUM_STATIONS Examples.four_stations = Ok 6%Z
    ∧ Forall (λ id, Int32.in_range id ∧ (id < 6)%Z) ids
    ∧ Pipeline.train (B := Exact.backend) Examples.four_stations = Ok fitted
    ∧ Training.fit_log fitted = Training.EpochBegin 1 1 :: log.
Proof.
  destruct (training_begins_without_validation (B := Exact.backend)
              (Examples.directory_with Examples.four_stations)
              Examples.four_stations)
    as (ids & n & fitted & Hids & Hn & Hbelow & Htrain & Hpos & _);
    [vm_compute; reflexivity | reflexivity | discriminate
    | repeat constructor |].
  assert (Hsix : n = 6%Z).
  { vm_compute in Hn. by injection Hn as <-. }
  subst n. destruct Hpos as [log Hlog]; [lia|].
  exists ids, fitted, log. done.
Defined.

(** C4, as stated, fails.  The stored station ID 2^32 + 5 exceeds the
    station count inferred from the table, which is 6: the cast to int32
    turns the ID into 5, and the program trains on the record, one batch
    of one sample, and ends the fit without any error. *)
Lemma training_starts_on_id_above_count :
  Examples.directory_with Examples.wide_station_id !! Loader.matrix_file
  = Some (Numpy.NpzFile {[ "data" := Examples.wide_station_id ]})
  ∧ Numpy.column Loader.STATION_ID_COL Examples.wide_station_id
    = Ok [4294967301%Z]
  ∧ (wd ← Loader.weather_data
             (Examples.directory_with Examples.wide_station_id);
     Network.NUM_STATIONS wd) = Ok 6%Z
  ∧ (6 < 4294967301)%Z
  ∧ (wd ← Loader.weather_data
             (Examples.directory_with Examples.wide_station_id);
     fitted ← Pipeline.train (B := Exact.backend) wd;
     Ok (Training.fit_log fitted, is_ok (Training.fit_outcome fitted)))
    = Ok ([Training.EpochBegin 1 1; Training.BatchEnd 1], true).
Proof.
  split; [vm_compute; reflexivity|]. split; [reflexivity|].
  split; [vm_compute; reflexivity|]. split; [lia|].
  vm_compute. reflexivity.
Qed.

(** With a station count of 3 and a station column that ends in
    station 7, the cells that build and fit the model begin the epoch and
    complete a batch of 32 samples before the lookup of row 7 fails inside
    the second batch: an ID outside the embedding table is an error of the
    lookup during training, not of a check before it. *)
Lemma fit_trains_on_out_of_range_id :
  (7 ∈ Examples.ids_ending_in_7)%Z ∧ (3 < 7)%Z
  ∧ Training.fit_log
      (Pipeline.fit_cell (B := Exact.backend) 3 Examples.ids_ending_in_7
         (replicate 33 0%Z) (replicate 33 [0; 0; 0]%Z))
    = [Training.EpochBegin 1 1; Training.BatchEnd 32]
  ∧ Training.fit_outcome
      (Pipeline.fit_cell (B := Exact.backend) 3 Examples.ids_ending_in_7
         (replicate 33 0%Z) (replicate 33 [0; 0; 0]%Z))
    = Raise BackendError.
Proof.
  split; [apply elem_of_app; right; left|]. split; [lia|].
  split; vm_compute; reflexivity.
Qed.


(** With the one record of station -2 the station count is -1.  Cell 5
    stops at the embedding layer, which cannot create a table of -1 rows:
    [fit] is never called and no epoch begins. *)
Lemma negative_station_count_stops_in_cell_5 :
  Network.NUM_STATIONS Examples.station_minus_2 = Ok (-1)%Z
  ∧ Pipeline.model_cell (B := Exact.backend) (-1) = Raise ValueError
  ∧ Pipeline.train (B := Exact.backend) Examples.station_minus_2
    = Ok (Training.FitResult [] (Raise ValueError))
  ∧ Pipeline.run (B := Exact.backend) (G := Exact.geometry)
      (Examples.directory_with Examples.station_minus_2)
    = Raise ValueError.
Proof. repeat split; vm_compute; reflexivity. Qed.


(** ** Mini-batches (cells 4 and 6) *)

Section Batches.
Import Numpy Network Training Pipeline.
Open Scope nat_scope.

Lemma chunks_fuel_spec {A : Type} (fuel size : nat) (l : list A) :
  0 < size → length l ≤ fuel →
  concat (chunks_fuel fuel size l) = l
  ∧ Forall (λ b, 0 < length b ≤ size) (chunks_fuel fuel size l).
Proof.
  intros Hsize. revert l.
  induction fuel as [|fuel IH]; intros l Hfuel.
  - destruct l; [|cbn in Hfuel; lia]. cbn. split; [done | constructor].
  - destruct l as [|a l].
    { cbn. split; [done | constructor]. }
    cbn [chunks_fuel].
    destruct (IH (drop size (a :: l))) as [Hc Hf].
    { rewrite length_drop. cbn in *. lia. }
    split.
    + cbn [concat]. rewrite Hc. apply take_drop.
    + constructor; [|exact Hf].
      rewrite length_take. cbn [length]. lia.
Qed.

(** The batches of an epoch cut the index array into consecutive pieces
    of at most [size] entries that together are the whole array. *)
Lemma make_batches_spec {A : Type} (size : nat) (l : list A) :
  0 < size →
  concat (make_batches size l) = l
  ∧ Forall (λ b, 0 < length b ≤ size) (make_batches size l).
Proof. intros Hsize. by apply chunks_fuel_spec. Qed.

(** C2 fails on the batch size.  [BATCH_SIZE] is assigned 50 and never
    read; [model.fit] is called with [epochs=1] and no [batch_size], so
    that the library's default of 32 applies: on a table of a hundred
    records the single epoch takes four gradient steps, on batches of 32,
    32, 32 and 4 records, where batches of 50 would give two steps.  The
    other parts of the claim hold: the model is compiled with the adam
    optimizer and the mean squared error, and the epoch covers the table
    once. *)
Theorem fit_ignores_BATCH_SIZE :
  BATCH_SIZE = 50
  ∧ ("BATCH_SIZE" ∉ Py.names_read Notebook.cells)
  ∧ Py.keywords_passed "model.fit" Notebook.cells = [[("epochs", Py.Num 1)]]
  ∧ Py.keywords_passed "model.compile" Notebook.cells
    = [[("optimizer", Py.Str "adam"); ("loss", Py.Str "mean_squared_error")]]
  ∧ fit_log <$> train (B := Exact.backend) Examples.hundred_records
    = Ok [EpochBegin 1 1; BatchEnd 32; BatchEnd 32; BatchEnd 32; BatchEnd 4]
  ∧ fit_log <$> train (B := Exact.backend) Examples.hundred_records
    ≠ Ok [EpochBegin 1 1; BatchEnd 50; BatchEnd 50].
Proof.
  assert (Hlog : fit_log <$> train (B := Exact.backend) Examples.hundred_records
    = Ok [EpochBegin 1 1; BatchEnd 32; BatchEnd 32; BatchEnd 32; BatchEnd 4]).
  { vm_compute. reflexivity. }
  split; [reflexivity|].
  split; [apply (bool_decide_unpack _); vm_compute; reflexivity|].
  split; [vm_compute; reflexivity|]. split; [vm_compute; reflexivity|].
  split; [exact Hlog|]. rewrite Hlog. discriminate.
Qed.
End Batches.


(** ** The notebook from the first cell to the last *)

Section WholeRun.
Import Numpy Pipeline Reporter Examples.

(** Seven stations and nine names: the embeddings of the seven stations
    are clustered and the loop turns seven times, ending on the seventh
    name; the last two names are never reached and nothing is printed. *)
Example run_on_seven_stations :
  run (B := Exact.backend) (G := Exact.geometry) directory_with_nine_names
  = Ok (LoopState [] (Some "S6") (Some 0%nat) 7).
Proof. vm_compute. reflexivity. Qed.

(** Without the station list the run ends when cell 8 opens the file,
    after the training; without the matrix file it ends in cell 2. *)
Example run_without_files :
  run (B := Exact.backend) (G := Exact.geometry) (directory_with seven_stations)
  = Raise (FileNotFoundError "data/weather/data/stations")
  ∧ run (B := Exact.backend) (G := Exact.geometry) ∅
    = Raise (FileNotFoundError
               "data/weather/data/gsn-2000-TMAX-TMIN-PRCP.npz").
Proof. split; vm_compute; reflexivity. Qed.
End WholeRun.


(** ** The loaded table and the day-of-year column (cells 2 and 3) *)

(** ** More on the loader (cell 2) *)

Section LoaderFacts.
Import Numpy Loader.
Open Scope Z_scope.

Lemma wrap_idempotent (z : Z) : Int32.wrap (Int32.wrap z) = Int32.wrap z.
Proof. apply wrap_small, wrap_in_range. Qed.

Lemma map_wrap_in_range (r : list Z) :
  Forall Int32.in_range r → map Int32.wrap r = r.
Proof.
  induction 1 as [|x r Hx Hr IH]; cbn; [done|].
  by rewrite IH, wrap_small.
Qed.

(** X1: when cell 2 loads a table, the matrix file exists, is an archive
    and holds an array under the key data; the loaded table has the shape
    of that array, and each entry is the stored entry brought into the
    int32 range: it lies in the range, is congruent to the stored entry
    modulo 2^32, and equals it when the stored entry fits.  A stored table
    whose entries all fit is loaded unchanged, and casting the loaded table
    once more changes nothing. *)
Theorem weather_data_is_the_cast_table (fs : gmap string file)
    (wd : ndarray) :
  weather_data fs = Ok wd →
  ∃ archive data,
    fs !! matrix_file = Some (NpzFile archive)
    ∧ archive !! "data" = Some data
    ∧ ncols wd = ncols data
    ∧ length (rows wd) = length (rows data)
    ∧ (∀ i r, rows data !! i = Some r →
         ∃ r', rows wd !! i = Some r'
               ∧ length r' = length r
               ∧ ∀ j x, r !! j = Some x →
                   ∃ y, r' !! j = Some y ∧ Int32.in_range y
                        ∧ y mod 2 ^ 32 = x mod 2 ^ 32
                        ∧ (Int32.in_range x → y = x))
    ∧ (Forall (Forall Int32.in_range) (rows data) → wd = data)
    ∧ astype_int32 wd = wd.
Proof.
  unfold weather_data, load, getitem.
  destruct (fs !! matrix_file) as [[archive|content]|] eqn:Hfile; cbn; try done.
  destruct (archive !! "data") as [data|] eqn:Hdata; cbn; [|done].
  intros [= <-]. exists archive, data.
  split; [done|]. split; [done|]. split; [done|].
  split; [cbn; by rewrite length_map|]. split.
  - intros i r Hr. exists (map Int32.wrap r).
    split; [cbn; by rewrite list_lookup_fmap, Hr|].
    split; [by rewrite length_map|].
    intros j x Hx. exists (Int32.wrap x).
    split; [by rewrite list_lookup_fmap, Hx|].
    split; [apply wrap_in_range|]. split; [apply wrap_congr|].
    apply wrap_small.
  - split.
    + intros Hfit. destruct data as [c rs]. unfold astype_int32.
      cbn [ncols rows] in *. f_equal. clear Hdata.
      induction Hfit as [|r rs Hr Hrs IH]; [done|].
      cbn [map]. by rewrite IH, map_wrap_in_range.
    + unfold astype_int32. cbn. f_equal.
      rewrite <- list_fmap_compose. apply list_fmap_ext. intros _ r _. cbn.
      rewrite <- list_fmap_compose. apply list_fmap_ext. intros _ x _. cbn.
      apply wrap_idempotent.
Qed.

Lemma weather_data_is_the_cast_table_witness :
  ∃ archive data,
    Examples.directory_with Examples.wide_station_id !! matrix_file
    = Some (NpzFile archive)
    ∧ archive !! "data" = Some data
    ∧ ncols (mk_ndarray 6 [[5; 1; 1; 0; 0; 0]]) = ncols data.
Proof.
  destruct (weather_data_is_the_cast_table
              (Examples.directory_with Examples.wide_station_id)
              (mk_ndarray 6 [[5; 1; 1; 0; 0; 0]]))
    as (archive & data & Hfile & Hdata & Hcols & _);
    [vm_compute; reflexivity|].
  exists archive, data. split; [exact Hfile|]. split; [exact Hdata | exact Hcols].
Defined.

Lemma column_out_of_range (j : nat) (wd : ndarray) :
  (ncols wd ≤ j)%nat → column j wd = Raise IndexError.
Proof.
  intros Hj. unfold column.
  destruct (Nat.ltb_spec j (ncols wd)); [lia | done].
Qed.

(** X2: on a table of fewer than three columns the day-of-year line of
    cell 2 raises IndexError; on every other table, whatever its months and
    days, it yields one int32 entry per record, the wrapped value of
    31*(month-1) + (day-1). *)
Theorem day_of_year_column_of_any_table (wd : ndarray) :
  (if (ncols wd <? 3)%nat
   then weather_data_day_of_year_data wd = Raise IndexError
   else ∃ doy,
     weather_data_day_of_year_data wd = Ok doy
     ∧ length doy = length (rows wd)
     ∧ Forall Int32.in_range doy
     ∧ ∀ i r, rows wd !! i = Some r →
         doy !! i
         = Some (Int32.wrap (31 * (month_of r - 1) + (day_of r - 1)))).
Proof.
  destruct (Nat.ltb_spec (ncols wd) 3) as [Hlt | Hge].
  - unfold weather_data_day_of_year_data.
    destruct (decide (ncols wd ≤ 1)%nat).
    + by rewrite (column_out_of_range MONTH_COL).
    + rewrite (column_ok MONTH_COL) by (unfold MONTH_COL; lia).
      rewrite (column_out_of_range DAY_COL) by (unfold DAY_COL; lia). done.
  - eexists. split; [apply day_of_year_column; lia|].
    split; [by rewrite length_map|]. split.
    + apply Forall_fmap, Forall_forall. intros r _. cbn.
      rewrite day_of_year_index_wrap. apply wrap_in_range.
    + intros i r Hr. rewrite list_lookup_fmap, Hr. cbn.
      by rewrite day_of_year_index_wrap.
Qed.

(** X3: on a valid table (six columns, month in 1..12, day in 1..31) the
    day-of-year entry of a record determines its date: the month is
    entry / 31 + 1 and the day is entry mod 31 + 1. *)
Theorem day_of_year_decodes (wd : ndarray) (doy : list Z) (i : nat)
    (r : list Z) (x : Z) :
  valid_table wd = true →
  weather_data_day_of_year_data wd = Ok doy →
  rows wd !! i = Some r → doy !! i = Some x →
  x / 31 + 1 = month_of r ∧ x mod 31 + 1 = day_of r.
Proof.
  intros Hv Hdoy Hr Hx.
  apply valid_table_spec in Hv as [Hc Hrows].
  rewrite day_of_year_column in Hdoy by lia. injection Hdoy as <-.
  rewrite list_lookup_fmap, Hr in Hx. cbn in Hx. injection Hx as <-.
  apply Hrows, valid_row_spec in Hr as [Hm Hd].
  rewrite day_of_year_index_exact by done.
  replace (31 * (month_of r - 1) + (day_of r - 1))
    with ((day_of r - 1) + (month_of r - 1) * 31) by lia.
  rewrite Z.div_add, Z.mod_add by lia.
  rewrite Z.div_small, Z.mod_small by lia. lia.
Qed.

Lemma day_of_year_decodes_witness :
  (371 / 31 + 1 = 12 ∧ 371 mod 31 + 1 = 31).
Proof.
  apply (day_of_year_decodes Examples.three_records [31; 58; 371] 2
           [7; 12; 31; 4; -3; 0] 371); reflexivity.
Defined.

(** X4: on a valid table the day-of-year entries order the records as
    their dates do, across months as well: one entry is smaller than
    another exactly when its month is earlier, or the month is the same and
    the day is earlier; two entries are equal exactly when month and day
    agree. *)
Theorem day_of_year_orders_dates (wd : ndarray) (doy : list Z) (i j : nat)
    (ri rj : list Z) (xi xj : Z) :
  valid_table wd = true →
  weather_data_day_of_year_data wd = Ok doy →
  rows wd !! i = Some ri → rows wd !! j = Some rj →
  doy !! i = Some xi → doy !! j = Some xj →
  (xi < xj ↔ month_of ri < month_of rj
             ∨ (month_of ri = month_of rj ∧ day_of ri < day_of rj))
  ∧ (xi = xj ↔ month_of ri = month_of rj ∧ day_of ri = day_of rj).
Proof.
  intros Hv Hdoy Hi Hj Hxi Hxj.
  apply valid_table_spec in Hv as [Hc Hrows].
  rewrite day_of_year_column in Hdoy by lia. injection Hdoy as <-.
  rewrite list_lookup_fmap, Hi in Hxi. rewrite list_lookup_fmap, Hj in Hxj.
  cbn in Hxi, Hxj. injection Hxi as <-. injection Hxj as <-.
  apply Hrows, valid_row_spec in Hi as [Hmi Hdi].
  apply Hrows, valid_row_spec in Hj as [Hmj Hdj].
  rewrite !day_of_year_index_exact by done. lia.
Qed.

Lemma day_of_year_orders_dates_witness :
  (58 < 371 ↔ 2 < 12 ∨ (2 = 12 ∧ 28 < 31)) ∧ (58 = 371 ↔ 2 = 12 ∧ 28 = 31).
Proof.
  apply (day_of_year_orders_dates Examples.three_records [31; 58; 371] 1 2
           [3; 2; 28; 12; 1; 5] [7; 12; 31; 4; -3; 0] 58 371); reflexivity.
Defined.
End LoaderFacts.


(** ** The training samples (cells 3 and 6) *)

(** ** From the table to the training samples (cells 2 to 6) *)

Section Samples.
Import Numpy Loader Network Training Shapes Pipeline Keras.
Open Scope nat_scope.
Context {R : Type} {B : Backend R}.

Lemma model_output_width (n : Z) :
  output_shape (outputs (Network.model n)) = Ok [3].
Proof. reflexivity. Qed.

Lemma standardize_ok (n : Z) (ids days : list Z) (targets : list (list Z)) :
  length ids = length targets → length days = length targets →
  Forall (λ t, length t = 3) targets →
  standardize (Network.model n) [ids; days] targets
  = Ok (zip_with (λ '(i, d) t, Sample i d t) (zip ids days) targets).
Proof.
  intros Hids Hdays Hwidth. unfold standardize.
  rewrite model_output_width.
  rewrite (proj2 (Nat.eqb_eq _ _) Hids), (proj2 (Nat.eqb_eq _ _) Hdays).
  assert (forallb (λ t, length t =? 3) targets = true) as ->; [|done].
  apply forallb_forall. intros t Ht%list_elem_of_In.
  rewrite Forall_forall in Hwidth. apply Nat.eqb_eq. by apply Hwidth.
Qed.

Lemma standardize_length_mismatch (n : Z) (ids days : list Z)
    (targets : list (list Z)) :
  length ids ≠ length targets →
  standardize (Network.model n) [ids; days] targets = Raise ValueError.
Proof.
  intros Hids. unfold standardize. rewrite model_output_width.
  by rewrite (proj2 (Nat.eqb_neq _ _) Hids).
Qed.

Lemma drop3_of_six (r : list Z) :
  length r = 6 →
  drop 3 r = [nth TMAX_COL r 0%Z; nth TMIN_COL r 0%Z; nth PRCP_COL r 0%Z].
Proof.
  intros Hr. do 6 (destruct r as [|? r]; [done|]).
  destruct r; [done | cbn in Hr; lia].
Qed.

(** X5: for a table of six columns whose rows hold six entries, the
    inputs and the targets of [model.fit] are built and paired into one
    training sample per record, in the order of the records: the sample's
    station is column 0 of the record, its day is the record's day-of-year
    entry, and its target is columns 3, 4 and 5 (TMAX, TMIN, PRCP). *)
Theorem training_samples_follow_records (wd : ndarray) (n : Z) :
  ncols wd = 6 → Forall (λ r, length r = 6) (rows wd) →
  ∃ ids doy targets samples,
    station_id_data wd = Ok ids
    ∧ weather_data_day_of_year_data wd = Ok doy
    ∧ reshape_rows3 (weather_prediction wd) = Ok targets
    ∧ standardize (Network.model n) [ids; doy] targets = Ok samples
    ∧ length samples = length (rows wd)
    ∧ ∀ i r, rows wd !! i = Some r →
        samples !! i
        = Some (Sample (nth STATION_ID_COL r 0%Z)
                       (Int32.wrap (31 * (month_of r - 1) + (day_of r - 1)))
                       [nth TMAX_COL r 0%Z; nth TMIN_COL r 0%Z;
                        nth PRCP_COL r 0%Z]).
Proof.
  intros Hc Hrows.
  eexists _, _, _, _.
  split; [apply column_ok; unfold STATION_ID_COL; lia|].
  split; [apply day_of_year_column; lia|].
  split; [by apply reshape_rows3_of_six_columns|].
  split.
  { apply standardize_ok; [by rewrite !length_map | by rewrite !length_map|].
    apply Forall_fmap. eapply Forall_impl; [exact Hrows|].
    intros r Hr. change (length (drop 3 r) = 3).
    cbv beta in Hr. rewrite length_drop, Hr. done. }
  split.
  { rewrite !length_zip_with, !length_map. lia. }
  intros i r Hr.
  rewrite lookup_zip_with, (lookup_zip_with pair).
  rewrite !list_lookup_fmap, Hr. cbn.
  rewrite day_of_year_index_wrap.
  rewrite drop3_of_six; [done|].
  rewrite Forall_forall in Hrows. apply Hrows, list_elem_of_lookup. eauto.
Qed.
End Samples.

Lemma training_samples_follow_records_witness :
  ∃ samples,
    Training.standardize (Network.model 8)
      [[3; 3; 7]; [31; 58; 371]]%Z [[10; 0; 0]; [12; 1; 5]; [4; -3; 0]]%Z
    = Ok samples
    ∧ length samples = 3.
Proof.
  destruct (training_samples_follow_records Examples.three_records 8)
    as (ids & doy & targets & samples & Hids & Hdoy & Htargets & Hsamples
        & Hlen & _);
    [reflexivity | repeat constructor |].
  exists samples. split; [|exact Hlen].
  injection Hids as <-. injection Hdoy as <-. injection Htargets as <-.
  exact Hsamples.
Defined.


(** ** When training begins (cells 4 to 6) *)

Section TrainingRuns.
Import Numpy Loader Network Training Shapes Pipeline Keras.
Open Scope nat_scope.
Context {R : Type} {B : Backend R}.

Lemma chunks_fuel_length_exact {A : Type} (size k fuel : nat) (l : list A) :
  0 < size → length l = size * k → length l ≤ fuel →
  length (chunks_fuel fuel size l) = k.
Proof.
  intros Hsize. revert fuel l.
  induction k as [|k IH]; intros fuel l Hl Hfuel.
  - destruct l; [|cbn in Hl; lia]. by destruct fuel.
  - destruct l as [|a l]; [cbn in Hl; lia|].
    destruct fuel as [|fuel]; [cbn in Hfuel; lia|].
    cbn [chunks_fuel length]. f_equal.
    apply IH; rewrite length_drop; cbn [length] in *; lia.
Qed.

Lemma max_of_empty_column (wd : ndarray) :
  rows wd = [] → (0 < ncols wd) → NUM_STATIONS wd = Raise ValueError.
Proof.
  intros Hrows Hc. unfold NUM_STATIONS.
  rewrite column_ok by (unfold STATION_ID_COL; lia). by rewrite Hrows.
Qed.

(** X6: for a rectangular table (every row as long as the table is
    wide) whose station count is not zero (what an embedding of zero rows
    does depends on the version of Keras), cells 2 to 6 reach the first
    epoch of [model.fit] exactly when the table has six columns and a
    record whose station ID is not negative.  Without a record [np.max]
    raises, and when every station ID is negative the embedding layer
    raises in cell 5. *)
Theorem training_begins_iff_six_columns (wd : ndarray) :
  Forall (λ r, length r = ncols wd) (rows wd) →
  NUM_STATIONS wd ≠ Ok 0%Z →
  (∃ fitted log, train wd = Ok fitted
                 ∧ fit_log fitted = EpochBegin 1 1 :: log)
  ↔ ncols wd = 6
    ∧ Exists (λ r, (0 ≤ nth STATION_ID_COL r 0)%Z) (rows wd).
Proof.
  intros Hrect Hzero. split.
  - intros (fitted & log & Htrain & Hlog).
    unfold train in Htrain.
    destruct (decide (ncols wd < 3)) as [Hlt | Hge].
    { destruct (decide (ncols wd ≤ 1)).
      - unfold weather_data_day_of_year_data in Htrain.
        by rewrite (column_out_of_range MONTH_COL) in Htrain.
      - unfold weather_data_day_of_year_data in Htrain.
        rewrite (column_ok MONTH_COL) in Htrain by (unfold MONTH_COL; lia).
        by rewrite (column_out_of_range DAY_COL) in Htrain
          by (unfold DAY_COL; lia). }
    rewrite day_of_year_column in Htrain by lia.
    assert (Hids : station_id_data wd
                   = Ok (map (λ r, nth 0 r 0%Z) (rows wd))).
    { apply column_ok. lia. }
    rewrite Hids in Htrain.
    cbn [mbind result_bind rbind] in Htrain.
    destruct (decide (rows wd = [])) as [Hempty | Hne].
    { by rewrite max_of_empty_column in Htrain by (done || lia). }
    assert (Hids_ne : map (λ r : list Z, nth 0 r 0%Z) (rows wd) ≠ []).
    { destruct (rows wd); [done | discriminate]. }
    destruct (num_stations_spec wd _ Hids Hids_ne) as (m & Hin & _ & Hn).
    rewrite Hn in Htrain, Hzero.
    cbn [mbind result_bind rbind] in Htrain.
    assert (Hflat : length (concat (map (drop VAL_COLS_START) (rows wd)))
                    = (ncols wd - 3) * length (rows wd)).
    { rewrite (length_concat_rows (ncols wd - 3)); [by rewrite length_map|].
      apply Forall_fmap. eapply Forall_impl; [exact Hrect|].
      intros r Hr. change (length (drop VAL_COLS_START r) = ncols wd - 3).
      cbv beta in Hr. rewrite length_drop, Hr. done. }
    unfold reshape_rows3, weather_prediction, columns_from in Htrain.
    cbn [rows] in Htrain. rewrite Hflat in Htrain.
    destruct (Nat.eqb_spec (((ncols wd - 3) * length (rows wd)) mod 3) 0)
      as [Hmod | Hmod]; [|done].
    cbn [mbind result_bind rbind] in Htrain. injection Htrain as <-.
    destruct (Z.lt_ge_cases (m + 1) 0) as [Hneg | Hpos].
    { by rewrite fit_cell_not_built in Hlog. }
    assert (Hm : (0 ≤ m)%Z).
    { destruct (decide (m + 1 = 0)%Z) as [Heq|]; [|lia].
      by rewrite Heq in Hzero. }
    split.
    + apply Nat.Div0.div_exact in Hmod.
      destruct (decide (ncols wd = 6)) as [|Hsix]; [done|]. exfalso.
      assert (Hlen : 0 < length (rows wd)).
      { destruct (rows wd); [done | cbn; lia]. }
      destruct (build_model_ok (m + 1) Hpos) as (w0 & Hw0 & _).
      rewrite (fit_cell_built _ _ _ _ w0 Hw0) in Hlog. unfold fit in Hlog.
      rewrite standardize_length_mismatch in Hlog; [done|].
      rewrite length_map. unfold make_batches.
      rewrite (chunks_fuel_length_exact 3
                 (((ncols wd - 3) * length (rows wd)) / 3)).
      4: done. 3: by rewrite Hflat. 2: lia.
      intros Heq. rewrite <- Heq in Hmod. nia.
    + apply list_elem_of_fmap in Hin as (r & -> & Hr).
      apply Exists_exists. exists r. split; [done|]. exact Hm.
  - intros [Hc Hsome].
    assert (Hids : station_id_data wd
                   = Ok (map (λ r, nth 0 r 0%Z) (rows wd))).
    { apply column_ok. lia. }
    assert (Hids_ne : map (λ r : list Z, nth 0 r 0%Z) (rows wd) ≠ []).
    { destruct Hsome; discriminate. }
    destruct (num_stations_spec wd _ Hids Hids_ne) as (m & _ & Hle & Hn).
    assert (Hm : (0 ≤ m)%Z).
    { apply Exists_exists in Hsome as (r & Hr & Hpos).
      rewrite Forall_forall in Hle.
      specialize (Hle (nth 0 r 0%Z)). cbn in Hle.
      unfold STATION_ID_COL in Hpos.
      enough (nth 0 r 0 ≤ m)%Z by lia.
      apply Hle, list_elem_of_fmap. eauto. }
    rewrite Hc in Hrect.
    destruct (fit_begins (m + 1)%Z (map (λ r, nth 0 r 0%Z) (rows wd))
                (map (λ r, day_of_year_index (month_of r) (day_of r)) (rows wd))
                (map (drop 3) (rows wd)))
      as [log Hlog].
    { lia. }
    { by rewrite !length_map. }
    { by rewrite !length_map. }
    { apply Forall_fmap. eapply Forall_impl; [exact Hrect|].
      intros r Hr. change (length (drop 3 r) = 3).
      cbv beta in Hr. rewrite length_drop, Hr. done. }
    eexists _, log. unfold train.
    rewrite day_of_year_column by lia. cbn.
    rewrite Hids. cbn. rewrite Hn. cbn.
    rewrite reshape_rows3_of_six_columns by done. cbn.
    split; [reflexivity | exact Hlog].
Qed.
End TrainingRuns.

Lemma training_begins_iff_six_columns_witness :
  ∃ fitted log,
    Pipeline.train (B := Exact.backend) Examples.four_stations = Ok fitted
    ∧ Training.fit_log fitted = Training.EpochBegin 1 1 :: log.
Proof.
  apply (training_begins_iff_six_columns (B := Exact.backend)
           Examples.four_stations);
    [repeat constructor | vm_compute; discriminate|].
  split; [reflexivity|]. apply Exists_cons_hd. cbn. lia.
Defined.


(** ** Training runs to its end (cells 6 and 7) *)

Section Completion.
Import Numpy Loader Network Training Shapes Tables Pipeline Keras.
Open Scope nat_scope.
Context {R : Type} {B : Backend R}.

Lemma sequence_results_ok {A C : Type} (f : A → result C) (l : list A) :
  Forall (λ a, ∃ c, f a = Ok c) l →
  ∃ cs, sequence_results (map f l) = Ok cs ∧ length cs = length l.
Proof.
  induction 1 as [|a l [c Hc] Hl (cs & Hcs & Hlen)]; cbn.
  - by exists [].
  - rewrite Hc, Hcs. cbn. exists (c :: cs). cbn. by rewrite Hlen.
Qed.

(** A sample whose station has a row in the table is predicted on. *)
Lemma predict_ok (n : Z) (w : weights) (s : sample) :
  well_shaped (Network.model n) w →
  (0 ≤ sample_station s < n)%Z →
  ∃ p, predict (Network.model n) w s = Ok p ∧ length p = 3.
Proof.
  intros Hw Hs.
  apply well_shaped_model in Hw
    as (W & K1 & b1 & K2 & b2 & -> & [HW HWr] & [HK1 HK1r] & Hb1
        & [HK2 HK2r] & Hb2).
  destruct (lookup_lt_is_Some_2 W (Z.to_nat (sample_station s)))
    as [row Hrow]; [lia|].
  assert (Hlookup : embedding_lookup W (sample_station s) = Ok row).
  { unfold embedding_lookup.
    destruct (Z.leb_spec 0 (sample_station s)); [|lia]. by rewrite Hrow. }
  assert (Hlen : length (row ++ [of_int (sample_day s)]) = 21).
  { rewrite length_app. cbn. rewrite Forall_forall in HWr.
    rewrite (HWr row); [done|]. apply list_elem_of_lookup. eauto. }
  destruct (dense_length (Some relu) K1 b1 (row ++ [of_int (sample_day s)]) 40)
    as (h & Hh & Hhl); [lia | done | done |].
  destruct (dense_length None K2 b2 h 3) as (p & Hp & Hpl);
    [lia | done | done |].
  destruct (forward_pass n W K1 b1 K2 b2 s row h p Hlookup Hh Hp)
    as (_ & _ & _ & Hpred).
  exists p. split; [|done]. unfold predict.
  change (outputs (Network.model n)) with (prediction n).
  by rewrite Hpred.
Qed.

Lemma train_on_batch_ok (n : Z) (st : opt_state) (w : weights)
    (batch : list sample) :
  well_shaped (Network.model n) w → Forall (in_table n) batch →
  ∃ st' w', train_on_batch (Network.model n) st w batch = Ok (st', w')
            ∧ well_shaped (Network.model n) w'.
Proof.
  intros Hw Hbatch. unfold train_on_batch.
  destruct (sequence_results_ok (predict (Network.model n) w) batch)
    as (preds & -> & _).
  { eapply Forall_impl; [exact Hbatch|]. intros s Hs.
    destruct (predict_ok n w s Hw Hs) as (p & Hp & _). eauto. }
  cbn. destruct (optimizer_step _ _ _ _ _ _) as [st' f].
  eexists _, _. split; [reflexivity|]. by apply update_well_shaped.
Qed.

Lemma run_batches_ok (n : Z) (batches : list (list sample))
    (st : opt_state) (w : weights) :
  well_shaped (Network.model n) w → Forall (Forall (in_table n)) batches →
  ∃ st' w',
    fit_outcome (run_batches (Network.model n) st w batches) = Ok (st', w')
    ∧ fit_log (run_batches (Network.model n) st w batches)
      = map (λ b, BatchEnd (length b)) batches
    ∧ well_shaped (Network.model n) w'.
Proof.
  intros Hw Hb. revert st w Hw.
  induction Hb as [|b bs Hb Hbs IH]; intros st w Hw; cbn.
  - eauto.
  - destruct (train_on_batch_ok n st w b Hw Hb) as (st1 & w1 & -> & Hw1).
    destruct (IH st1 w1 Hw1) as (st' & w' & Hout & Hlog & Hw').
    cbn. rewrite Hout, Hlog. eauto.
Qed.

Lemma epoch_batches_in_table (n : Z) (data : list sample)
    (ids : list (list nat)) :
  Forall (in_table n) data →
  Forall (Forall (in_table n)) (map (λ b, omap (λ i, data !! i) b) ids).
Proof.
  intros Hdata. apply Forall_fmap, Forall_forall. intros b _. cbn.
  apply Forall_forall. intros s Hs.
  apply list_elem_of_omap in Hs as (i & _ & Hi).
  rewrite Forall_forall in Hdata. apply Hdata, list_elem_of_lookup. eauto.
Qed.

Lemma run_epochs_ok (n : Z) (data : list sample) (size epochs todo : nat)
    (st : opt_state) (w : weights) :
  well_shaped (Network.model n) w → Forall (in_table n) data →
  ∃ st' w',
    fit_outcome (run_epochs (Network.model n) data size epochs todo st w)
    = Ok (st', w')
    ∧ well_shaped (Network.model n) w'.
Proof.
  intros Hw Hdata. revert st w Hw.
  induction todo as [|todo IH]; intros st w Hw; cbn.
  - eauto.
  - destruct (run_batches_ok n
                (map (λ b, omap (λ i, data !! i) b)
                     (make_batches size
                        (shuffle (epochs - S todo) (seq 0 (length data)))))
                st w Hw) as (st1 & w1 & Hout & _ & Hw1).
    { by apply epoch_batches_in_table. }
    rewrite Hout. cbn. apply IH. exact Hw1.
Qed.

Lemma samples_in_table (n : Z) (ids days : list Z) (targets : list (list Z)) :
  Forall (λ id, 0 ≤ id < n)%Z ids →
  Forall (in_table n)
         (zip_with (λ '(i, d) t, Sample i d t) (zip ids days) targets).
Proof.
  intros Hids. apply Forall_forall. intros s Hs.
  apply elem_of_zip_with in Hs as ([i d] & t & -> & Hid & _).
  apply elem_of_zip_l in Hid.
  unfold in_table. cbn.
  rewrite Forall_forall in Hids. by apply Hids.
Qed.
End Completion.

Section Completion2.
Import Numpy Loader Network Training Shapes Tables Pipeline Keras.
Open Scope nat_scope.
Context {R : Type} {B : Backend R}.

Lemma fit_cell_completes (n : Z) (ids days : list Z)
    (targets : list (list Z)) :
  (0 ≤ n)%Z →
  length ids = length targets → length days = length targets →
  Forall (λ t, length t = 3) targets →
  Forall (λ id, 0 ≤ id < n)%Z ids →
  ∃ st w',
    fit_outcome (fit_cell n ids days targets) = Ok (st, w')
    ∧ well_shaped (Network.model n) w'.
Proof.
  intros Hn Hids Hdays Hwidth Hrange.
  destruct (build_model_ok n Hn) as (w0 & Hw0 & Hshape).
  rewrite (fit_cell_built _ _ _ _ w0 Hw0). unfold fit.
  rewrite standardize_ok by done.
  apply run_epochs_ok; [exact Hshape|].
  by apply samples_in_table.
Qed.

Lemma trained_embeddings_shape (n : Z) (w : weights) :
  well_shaped (Network.model n) w →
  ∃ W : list (list R),
    trained_embeddings w = Ok (Arr2 W)
       ∧ length W = Z.to_nat n
       ∧ Forall (λ row, length row = EMBEDDING_SIZE) W.
Proof.
  intros Hw.
  apply well_shaped_model in Hw
    as (W & K1 & b1 & K2 & b2 & -> & [HW HWr] & _).
  exists W. split; [reflexivity|]. done.
Qed.

(** The cells 2 to 6 on a table of six columns whose station IDs are
    not negative. *)
Lemma train_spec (wd : ndarray) :
  ncols wd = 6 → rows wd ≠ [] →
  Forall (λ r, length r = 6 ∧ (0 ≤ nth STATION_ID_COL r 0)%Z) (rows wd) →
  ∃ max_id fitted st w',
    max_id ∈ map (λ r, nth STATION_ID_COL r 0%Z) (rows wd)
    ∧ Forall (λ r, (nth STATION_ID_COL r 0 ≤ max_id)%Z) (rows wd)
    ∧ NUM_STATIONS wd = Ok (max_id + 1)%Z
    ∧ train wd = Ok fitted
    ∧ fit_outcome fitted = Ok (st, w')
    ∧ well_shaped (Network.model (max_id + 1)) w'.
Proof.
  intros Hc Hne Hrows.
  assert (Hsix : Forall (λ r : list Z, length r = 6) (rows wd)).
  { eapply Forall_impl; [exact Hrows|]. by intros r [Hr _]. }
  assert (Hids : station_id_data wd
                 = Ok (map (λ r, nth STATION_ID_COL r 0%Z) (rows wd))).
  { apply column_ok. unfold STATION_ID_COL. lia. }
  assert (Hids_ne : map (λ r : list Z, nth STATION_ID_COL r 0%Z) (rows wd) ≠ []).
  { destruct (rows wd); [done | discriminate]. }
  destruct (num_stations_spec wd _ Hids Hids_ne) as (m & Hin & Hle & Hn).
  assert (Hm : (0 ≤ m)%Z).
  { pose proof Hin as Hin'.
    apply list_elem_of_fmap in Hin' as (r & -> & Hr).
    rewrite Forall_forall in Hrows. by destruct (Hrows r Hr). }
  destruct (fit_cell_completes (m + 1)%Z
              (map (λ r, nth STATION_ID_COL r 0%Z) (rows wd))
              (map (λ r, day_of_year_index (month_of r) (day_of r)) (rows wd))
              (map (drop 3) (rows wd)))
    as (st & w' & Hout & Hw').
  { lia. }
  { by rewrite !length_map. }
  { by rewrite !length_map. }
  { apply Forall_fmap. eapply Forall_impl; [exact Hsix|].
    intros r Hr. change (length (drop 3 r) = 3).
    cbv beta in Hr. rewrite length_drop, Hr. done. }
  { apply Forall_fmap, Forall_forall. intros r Hr. cbn.
    rewrite Forall_forall in Hrows. destruct (Hrows r Hr) as [_ Hpos].
    rewrite Forall_forall in Hle.
    specialize (Hle (nth STATION_ID_COL r 0%Z)). cbn in Hle.
    split; [done|]. apply Z.lt_succ_r, Hle, list_elem_of_fmap. eauto. }
  eexists m, _, st, w'.
  split; [done|]. split.
  { apply Forall_forall. intros r Hr. rewrite Forall_forall in Hle.
    apply (Hle (nth STATION_ID_COL r 0%Z)), list_elem_of_fmap. eauto. }
  split; [done|]. split; [|split; [exact Hout | exact Hw']].
  unfold train.
  rewrite day_of_year_column by lia. cbn.
  rewrite Hids. cbn. rewrite Hn. cbn.
  rewrite reshape_rows3_of_six_columns by done. done.
Qed.

(** X7: on a table of six columns with at least one record, whose rows
    hold six entries and whose station IDs are not negative, the epoch of
    training runs to its end; the trained embedding table that cell 7 reads
    has NUM_STATIONS rows of EMBEDDING_SIZE = 20 entries, and the station
    of every record has a row in it. *)
Theorem training_completes (wd : ndarray) :
  ncols wd = 6 → rows wd ≠ [] →
  Forall (λ r, length r = 6 ∧ (0 ≤ nth STATION_ID_COL r 0)%Z) (rows wd) →
  ∃ n fitted st w' (W : list (list R)),
    NUM_STATIONS wd = Ok n
    ∧ train wd = Ok fitted
    ∧ fit_outcome fitted = Ok (st, w')
    ∧ trained_embeddings w' = Ok (Arr2 W)
    ∧ Z.of_nat (length W) = n
    ∧ Forall (λ row, length row = EMBEDDING_SIZE) W
    ∧ Forall (λ r, is_ok (embedding_lookup W (nth STATION_ID_COL r 0%Z)) = true)
             (rows wd).
Proof.
  intros Hc Hne Hrows.
  destruct (train_spec wd Hc Hne Hrows)
    as (m & fitted & st & w' & Hin & Hle & Hn & Htrain & Hout & Hw').
  destruct (trained_embeddings_shape _ _ Hw') as (W & HW & Hlen & Hwidth).
  assert (Hm : (0 ≤ m)%Z).
  { apply list_elem_of_fmap in Hin as (r & -> & Hr).
    rewrite Forall_forall in Hrows. by destruct (Hrows r Hr). }
  exists (m + 1)%Z, fitted, st, w', W.
  do 4 (split; [done|]). split; [lia|]. split; [done|].
  apply Forall_forall. intros r Hr.
  rewrite Forall_forall in Hrows, Hle.
  destruct (Hrows r Hr) as [_ Hpos]. specialize (Hle r Hr). cbn in Hle.
  unfold embedding_lookup.
  destruct (Z.leb_spec 0 (nth STATION_ID_COL r 0%Z)); [|lia].
  destruct (lookup_lt_is_Some_2 W (Z.to_nat (nth STATION_ID_COL r 0%Z)))
    as [row ->]; [lia | done].
Qed.
End Completion2.

Lemma training_completes_witness :
  ∃ fitted st w' (W : list (list Z)),
    Pipeline.train (B := Exact.backend) Examples.seven_stations = Ok fitted
    ∧ Training.fit_outcome fitted = Ok (st, w')
    ∧ Pipeline.trained_embeddings w' = Ok (Arr2 W)
    ∧ length W = 7.
Proof.
  destruct (training_completes (B := Exact.backend) Examples.seven_stations)
    as (n & fitted & st & w' & W & Hn & Htrain & Hout & Hemb & Hlen & _);
    [reflexivity | discriminate
    | apply (bool_decide_unpack _); vm_compute; reflexivity |].
  exists fitted, st, w', W. do 3 (split; [done|]).
  vm_compute in Hn. injection Hn as <-. lia.
Defined.


(** ** The steps of the epoch (cell 6) *)

Section Steps.
Import Numpy Loader Network Training Shapes Tables Pipeline Keras.
Open Scope nat_scope.
Context {R : Type} {B : Backend R}.

Lemma chunks_fuel_nil {A : Type} (fuel size : nat) :
  chunks_fuel fuel size (@nil A) = [].
Proof. by destruct fuel. Qed.

Lemma chunks_lengths {A : Type} (size fuel : nat) (l : list A) :
  0 < size → length l ≤ fuel →
  map length (chunks_fuel fuel size l)
  = replicate (length l / size) size
    ++ (if length l mod size =? 0 then [] else [length l mod size]).
Proof.
  intros Hsize. revert l.
  induction fuel as [|fuel IH]; intros l Hfuel.
  - destruct l; [|cbn in Hfuel; lia]. cbn.
    rewrite Nat.Div0.div_0_l, Nat.Div0.mod_0_l. done.
  - destruct l as [|a l].
    { cbn. rewrite Nat.Div0.div_0_l, Nat.Div0.mod_0_l. done. }
    cbn [chunks_fuel map].
    destruct (decide (length (a :: l) < size)) as [Hshort | Hlong].
    + rewrite take_ge, drop_ge, chunks_fuel_nil by lia.
      rewrite Nat.div_small, Nat.mod_small by done. cbn [replicate app map].
      destruct (Nat.eqb_spec (length (a :: l)) 0) as [H0|_]; [cbn in H0; lia|].
      done.
    + rewrite IH by (rewrite length_drop; cbn [length] in *; lia).
      rewrite length_take, length_drop.
      remember (length (a :: l)) as N eqn:HN.
      assert (Hdiv : N / size = S ((N - size) / size)).
      { replace N with ((N - size) + 1 * size) at 1 by lia.
        rewrite Nat.div_add by lia. lia. }
      assert (Hmod : N mod size = (N - size) mod size).
      { replace N with ((N - size) + 1 * size) at 1 by lia.
        by rewrite Nat.Div0.mod_add. }
      rewrite Hdiv, Hmod. cbn [replicate app].
      f_equal. lia.
Qed.

Lemma omap_lookup_length {A : Type} (data : list A) (b : list nat) :
  Forall (λ i, i < length data) b →
  length (omap (λ i, data !! i) b) = length b.
Proof.
  induction 1 as [|i b Hi Hb IH]; cbn; [done|].
  destruct (lookup_lt_is_Some_2 data i Hi) as [x ->]. cbn. by rewrite IH.
Qed.

Lemma chunk_elements {A : Type} (size : nat) (l b : list A) (x : A) :
  0 < size → b ∈ make_batches size l → x ∈ b → x ∈ l.
Proof.
  intros Hsize Hb Hx.
  destruct (make_batches_spec size l Hsize) as [Hconcat _].
  rewrite <- Hconcat. apply list_elem_of_In, in_concat.
  exists b. split; by apply list_elem_of_In.
Qed.

(** X8: with N training samples whose station IDs have a row in the
    embedding table, and a shuffle that permutes the sample indices,
    [model.fit] logs the start of epoch 1 of 1 and then one step per
    mini-batch: N / 32 batches of 32 samples, followed by one batch of
    N mod 32 samples when 32 does not divide N.  (A negative station
    count, which leaves room for no sample at all, stops cell 5: nothing
    is logged.) *)
Theorem one_epoch_takes_ceil_n_over_32_steps (n : Z) (ids days : list Z)
    (targets : list (list Z)) :
  shuffle 0 (seq 0 (length ids)) ≡ₚ seq 0 (length ids) →
  length days = length ids → length targets = length ids →
  Forall (λ t, length t = 3) targets →
  Forall (λ id, 0 ≤ id < n)%Z ids →
  fit_log (fit_cell n ids days targets)
  = if (n <? 0)%Z then []
    else EpochBegin 1 1
         :: replicate (length ids / 32) (BatchEnd 32)
         ++ (if length ids mod 32 =? 0 then []
             else [BatchEnd (length ids mod 32)]).
Proof.
  intros Hperm Hdays Htargets Hwidth Hrange.
  destruct (Z.ltb_spec n 0) as [Hneg | Hn].
  { by rewrite fit_cell_not_built. }
  destruct (build_model_ok n Hn) as (w0 & Hw0 & Hshape).
  rewrite (fit_cell_built _ _ _ _ w0 Hw0). unfold fit.
  rewrite standardize_ok by (done || lia).
  set (data := zip_with (λ '(i, d) t, Sample i d t) (zip ids days) targets).
  assert (Hdata : length data = length ids).
  { subst data. rewrite !length_zip_with. lia. }
  cbn [default run_epochs Nat.sub]. unfold default_batch_size.
  rewrite Hdata.
  set (index_array := shuffle 0 (seq 0 (length ids))) in *.
  destruct (run_batches_ok n
              (map (λ b, omap (λ i, data !! i) b)
                   (make_batches 32 index_array))
              opt_init w0)
    as (st1 & w1 & Hout & Hlog & _).
  { exact Hshape. }
  { apply epoch_batches_in_table. by apply samples_in_table. }
  rewrite Hout. cbn [fit_log]. rewrite Hlog, app_nil_r. f_equal.
  transitivity (map BatchEnd (map length (make_batches 32 index_array))).
  { rewrite <- !list_fmap_compose. apply list_fmap_ext. intros k b Hb. cbn.
    f_equal. apply omap_lookup_length, Forall_forall. intros i Hi.
    rewrite Hdata.
    assert (Hin : i ∈ index_array).
    { eapply chunk_elements; [|apply list_elem_of_lookup; eauto|exact Hi]. lia. }
    subst index_array. rewrite Hperm in Hin.
    apply elem_of_seq in Hin. lia. }
  unfold make_batches.
  rewrite chunks_lengths by lia.
  assert (Hlen : length index_array = length ids).
  { subst index_array. by rewrite Hperm, length_seq. }
  rewrite Hlen, fmap_app, fmap_replicate.
  by destruct (length ids mod 32 =? 0).
Qed.
End Steps.

Lemma one_epoch_takes_ceil_n_over_32_steps_witness :
  Training.fit_log
    (Pipeline.fit_cell (B := Exact.backend) 1 (replicate 100 0%Z)
       (replicate 100 0%Z) (replicate 100 [0; 0; 0]%Z))
  = Training.EpochBegin 1 1
    :: replicate (length (replicate 100 0%Z) / 32) (Training.BatchEnd 32)
    ++ (if length (replicate 100 0%Z) mod 32 =? 0 then []
        else [Training.BatchEnd (length (replicate 100 0%Z) mod 32)]).
Proof.
  apply (one_epoch_takes_ceil_n_over_32_steps (B := Exact.backend) 1);
    [reflexivity | reflexivity | reflexivity | |].
  - apply Forall_replicate. reflexivity.
  - apply Forall_replicate. lia.
Defined.


(** ** The number of parameters (cells 5 and 6) *)

Section Parameters.
Import Numpy Network Training Shapes Pipeline Keras Sizes.
Open Scope Z_scope.
Context {R : Type} {B : Backend R}.

Lemma total_params_of_model (n : Z) :
  0 ≤ n → total_params (Network.model n) = Ok (20 * n + 1003).
Proof.
  intros Hn. unfold total_params, count_params. rewrite model_layers.
  cbn [map sequence_results weight_shapes mbind result_bind rbind].
  destruct (Z.ltb_spec n 0) as [Hneg|_]; [lia|].
  cbn. rewrite Z2Nat.id by done. f_equal. lia.
Qed.

(** X9: the weights that [model.fit] returns hold as many numbers as
    [model.summary()] counts parameters, 20 * NUM_STATIONS + 1003, as many
    as the weights held before training (25,363 for the 1218 stations of
    the notebook's output). *)
Theorem trained_weights_hold_total_params (n : Z) (ids days : list Z)
    (targets : list (list Z)) (st : opt_state) (w' : weights) :
  0 ≤ n →
  fit_outcome (fit_cell n ids days targets) = Ok (st, w') →
  total_params (Network.model n) = Ok (weights_size (R := R) w')
  ∧ total_params (Network.model n) = Ok (20 * n + 1003)
  ∧ weights_size (R := R) <$> build (Network.model n)
    = Ok (weights_size (R := R) w').
Proof.
  intros Hn Hfit.
  assert (Hsize : ∀ w : weights,
    well_shaped (Network.model n) w → weights_size (R := R) w = 20 * n + 1003).
  { intros w Hw.
    apply well_shaped_model in Hw
      as (W & K1 & b1 & K2 & b2 & -> & [HW HWr] & [HK1 HK1r] & Hb1
          & [HK2 HK2r] & Hb2).
    unfold weights_size. cbn [map foldr array_size].
    rewrite (length_concat_rows 20 W), (length_concat_rows 40 K1),
      (length_concat_rows 3 K2) by done.
    rewrite HW, HK1, HK2, Hb1, Hb2. lia. }
  apply fit_cell_well_shaped in Hfit as [_ Hfit].
  destruct (build_model_ok n Hn) as (w0 & Hw0 & Hshape).
  rewrite total_params_of_model by done.
  rewrite Hw0, (Hsize w' Hfit). cbn. by rewrite (Hsize w0 Hshape).
Qed.
End Parameters.

Lemma trained_weights_hold_total_params_witness :
  Keras.total_params (Network.model 3) = Ok (20 * 3 + 1003)%Z
  ∧ Sizes.weights_size
      <$> Training.build (B := Exact.backend) (Network.model 3)
    = Ok 1063%Z.
Proof.
  assert (Hfit : ∃ w',
    Training.fit_outcome (Pipeline.fit_cell (B := Exact.backend) 3 [0; 1; 2]%Z
                   [0; 31; 62]%Z [[1; 2; 3]; [4; 5; 6]; [7; 8; 9]]%Z)
    = Ok (tt, w')).
  { eexists. vm_compute. reflexivity. }
  destruct Hfit as [w' Hfit].
  destruct (trained_weights_hold_total_params (B := Exact.backend) 3
              [0; 1; 2]%Z [0; 31; 62]%Z [[1; 2; 3]; [4; 5; 6]; [7; 8; 9]]%Z tt
              w')
    as (Hsize & Htotal & _); [lia | exact Hfit |].
  split; [exact Htotal | vm_compute; reflexivity].
Defined.


(** ** The notebook on a well-formed table (cells 2 to 8) *)

Section WholeNotebook.
Import Numpy Loader Network Training Shapes Tables Pipeline Keras.
Open Scope nat_scope.
Context {R : Type} {B : Backend R} {G : Geometry R}.

End WholeNotebook.



(** ** The station list (cell 8) *)

Section StationList.
Import Numpy Reporter Text.
Open Scope nat_scope.

Lemma append_nil_r (s : string) : s +:+ "" = s.
Proof.
  induction s as [|c s IH]; [done|].
  change (String c (s +:+ "") = String c s). by rewrite IH.
Qed.

Lemma append_assoc (a b c : string) : (a +:+ b) +:+ c = a +:+ (b +:+ c).
Proof.
  induction a as [|x a IH]; [done|].
  change (String x ((a +:+ b) +:+ c) = String x (a +:+ (b +:+ c))).
  by rewrite IH.
Qed.

Lemma readlines_from_joined (line s : string) :
  foldr String.append "" (readlines_from line s) = line +:+ s.
Proof.
  revert line. induction s as [|c s IH]; intros line; cbn.
  - destruct (decide (line = "")) as [-> | _]; cbn; [done|].
    by rewrite append_nil_r.
  - destruct (Ascii.eqb c newline); cbn.
    + rewrite IH. cbn. by rewrite append_assoc.
    + rewrite IH. by rewrite append_assoc.
Qed.

Lemma readlines_from_nonempty (line s : string) :
  Forall (λ l, l ≠ "") (readlines_from line s).
Proof.
  revert line. induction s as [|c s IH]; intros line; cbn.
  - destruct (decide (line = "")); repeat constructor; done.
  - destruct (Ascii.eqb c newline); [|apply IH].
    constructor; [|apply IH]. by destruct line.
Qed.

Lemma universal_newlines_no_cr (s : string) :
  all_chars (λ c, negb (Ascii.eqb c carriage_return)) s = true →
  universal_newlines s = s.
Proof.
  induction s as [|c s IH]; cbn; [done|].
  intros [Hc Hs]%andb_true_iff.
  destruct (Ascii.eqb c carriage_return); [done|]. by rewrite IH.
Qed.

Lemma universal_newlines_has_no_cr (s : string) :
  all_chars (λ c, negb (Ascii.eqb c carriage_return)) (universal_newlines s)
  = true.
Proof.
  assert (H : ∀ n s, String.length s < n →
    all_chars (λ c, negb (Ascii.eqb c carriage_return)) (universal_newlines s)
    = true).
  { clear s. induction n as [|n IH]; intros s Hn; [lia|].
    destruct s as [|c s]; [done|]. cbn [universal_newlines].
    destruct (Ascii.eqb c carriage_return) eqn:Hc.
    - destruct s as [|c' s]; [done|].
      destruct (Ascii.eqb c' newline); cbn [all_chars];
        (rewrite IH by (cbn in *; lia)); done.
    - cbn [all_chars]. rewrite Hc. cbn. apply IH. cbn in Hn. lia. }
  apply (H (S (String.length s))). lia.
Qed.

(** X11: [f.readlines()] loses nothing: the lines, put together again,
    are the content of the file after newline translation (a carriage
    return, alone or before a line feed, is read as a line feed), no line
    is empty, and translating twice is translating once. *)
Theorem readlines_keeps_the_text (content : string) :
  foldr String.append "" (readlines content) = universal_newlines content
  ∧ Forall (λ line, line ≠ "") (readlines content)
  ∧ universal_newlines (universal_newlines content)
    = universal_newlines content.
Proof.
  unfold readlines. split; [apply readlines_from_joined|].
  split; [apply readlines_from_nonempty|].
  apply universal_newlines_no_cr, universal_newlines_has_no_cr.
Qed.
End StationList.

Section Characters.
Import Numpy Reporter Text.
Open Scope nat_scope.

Lemma string_length_ind (P : string → Prop) :
  (∀ s, (∀ t, String.length t < String.length s → P t) → P s) → ∀ s, P s.
Proof.
  intros Hstep s.
  assert (H : ∀ n t, String.length t < n → P t).
  { induction n as [|n IH]; intros t Ht; [lia|].
    apply Hstep. intros u Hu. apply IH. lia. }
  apply (H (S (String.length s))). lia.
Qed.

(** The first character and the rest make up the string. *)
Lemma first_character_split (s : string) (ch : character) (rest : string) :
  first_character s = Some (ch, rest) →
  s = snd ch +:+ rest ∧ String.length rest < String.length s.
Proof.
  destruct s as [|c0 s]; [done|]. cbn [first_character].
  repeat case_match; intros [= <- <-]; cbn [snd String.length];
    (split; [reflexivity | lia]).
Qed.

Lemma first_character_none (s : string) :
  first_character s = None → s = "".
Proof.
  destruct s as [|c0 s]; [done|]. cbn [first_character].
  repeat case_match; done.
Qed.

Lemma characters_fuel_enough (f f' : nat) (s : string) :
  String.length s ≤ f → String.length s ≤ f' →
  characters_fuel f s = characters_fuel f' s.
Proof.
  revert f' s. induction f as [|f IH]; intros f' s Hf Hf'.
  - destruct s; [|cbn in Hf; lia]. by destruct f'.
  - destruct f' as [|f'].
    { destruct s; [done | cbn in Hf'; lia]. }
    cbn [characters_fuel].
    destruct (first_character s) as [[ch rest]|] eqn:Hfirst; [|done].
    apply first_character_split in Hfirst as [_ Hlen].
    f_equal. apply IH; lia.
Qed.

Lemma characters_eq (s : string) :
  characters s
  = match first_character s with
    | Some (ch, rest) => ch :: characters rest
    | None => []
    end.
Proof.
  unfold characters. destruct s as [|c0 s]; [done|].
  cbn [String.length characters_fuel].
  destruct (first_character (String c0 s)) as [[ch rest]|] eqn:Hfirst; [|done].
  apply first_character_split in Hfirst as [_ Hlen]. cbn in Hlen.
  f_equal. apply characters_fuel_enough; lia.
Qed.

(** The characters of a string hold all of its bytes, in order. *)
Lemma text_of_characters (s : string) : text_of (characters s) = s.
Proof.
  induction s as [s IH] using string_length_ind.
  rewrite characters_eq.
  destruct (first_character s) as [[ch rest]|] eqn:Hfirst.
  - apply first_character_split in Hfirst as [Hs Hlen].
    cbn [text_of foldr]. fold (text_of (characters rest)).
    by rewrite IH.
  - by apply first_character_none in Hfirst as ->.
Qed.

Lemma first_character_append (a b : string) (ch : character) (rest : string) :
  first_character a = Some (ch, rest) → decodable ch = true →
  first_character (a +:+ b) = Some (ch, rest +:+ b).
Proof.
  destruct a as [|c0 a]; [done|].
  change (String c0 a +:+ b) with (String c0 (a +:+ b)).
  cbn [first_character].
  destruct (N_of_ascii c0 <? 128)%N; [by intros [= <- <-]|].
  destruct (N_of_ascii c0 <? 192)%N; [by intros [= <- <-]|].
  destruct (N_of_ascii c0 <? 224)%N.
  { destruct a as [|c1 a]; [by intros [= <- <-]|].
    change (String c1 a +:+ b) with (String c1 (a +:+ b)). cbv beta iota.
    destruct (_ ≫= _); by intros [= <- <-]. }
  destruct (N_of_ascii c0 <? 240)%N.
  { destruct a as [|c1 [|c2 a]]; [by intros [= <- <-]..|].
    change (String c1 (String c2 a) +:+ b)
      with (String c1 (String c2 (a +:+ b))). cbv beta iota.
    destruct (_ ≫= _); by intros [= <- <-]. }
  destruct (N_of_ascii c0 <? 248)%N; [|by intros [= <- <-]].
  destruct a as [|c1 [|c2 [|c3 a]]]; [by intros [= <- <-]..|].
  change (String c1 (String c2 (String c3 a)) +:+ b)
    with (String c1 (String c2 (String c3 (a +:+ b)))). cbv beta iota.
  destruct (_ ≫= _); by intros [= <- <-].
Qed.

Lemma is_text_eq (s : string) :
  is_text s
  = match first_character s with
    | Some (ch, rest) => decodable ch && is_text rest
    | None => true
    end.
Proof.
  unfold is_text. rewrite characters_eq.
  by destruct (first_character s) as [[ch rest]|].
Qed.

(** A text followed by a string is read character by character as the
    text and then the string. *)
Lemma characters_append (a b : string) :
  is_text a = true → characters (a +:+ b) = characters a ++ characters b.
Proof.
  induction a as [a IH] using string_length_ind. intros Ha.
  rewrite is_text_eq in Ha. rewrite (characters_eq a).
  destruct (first_character a) as [[ch rest]|] eqn:Hfirst.
  - apply andb_true_iff in Ha as [Hch Hrest].
    rewrite characters_eq, (first_character_append _ _ _ _ Hfirst Hch).
    cbn [app]. f_equal. apply IH; [|done].
    by apply first_character_split in Hfirst as [_ Hlen].
  - by apply first_character_none in Hfirst as ->.
Qed.

Lemma is_text_append (a b : string) :
  is_text a = true → is_text b = true → is_text (a +:+ b) = true.
Proof.
  intros Ha Hb. unfold is_text. rewrite characters_append by done.
  rewrite forallb_app. by apply andb_true_iff.
Qed.

Lemma visible_decodable (ch : character) :
  visible ch = true → decodable ch = true.
Proof. unfold visible, decodable. by destruct (fst ch). Qed.

Lemma visible_not_space (ch : character) :
  visible ch = true → space_character ch = false.
Proof.
  unfold visible, space_character. destruct (fst ch); [|done].
  by destruct (is_space _).
Qed.

Lemma no_space_is_text (s : string) : no_space s = true → is_text s = true.
Proof.
  unfold no_space, is_text. rewrite !forallb_forall.
  intros H ch Hch. by apply visible_decodable, H.
Qed.

Lemma continuation_not (c c' : ascii) (x : N) :
  (N_of_ascii c' < 128)%N → continuation c = Some x → Ascii.eqb c c' = false.
Proof.
  intros Hc'. unfold continuation.
  destruct (Ascii.eqb_spec c c') as [-> | _]; [|done].
  destruct (N.leb_spec 128 (N_of_ascii c')); [lia|]. done.
Qed.

Lemma bind_continuation {A : Type} (c : ascii) (k : N → option A) (a : A) :
  continuation c ≫= k = Some a → ∃ x, continuation c = Some x ∧ k x = Some a.
Proof. destruct (continuation c) as [x|]; [eauto | done]. Qed.

(** No byte of a character that is no white space is a line ending. *)
Lemma visible_bytes (s : string) (ch : character) (rest : string) (c : ascii) :
  first_character s = Some (ch, rest) → visible ch = true →
  is_space (N_of_ascii c) = true → (N_of_ascii c < 128)%N →
  all_chars (λ c', negb (Ascii.eqb c' c)) (snd ch) = true.
Proof.
  intros Hfirst Hch Hspace Hc.
  assert (Hlead : ∀ c0, (N_of_ascii c0 <? 128)%N = false →
                        negb (Ascii.eqb c0 c) = true).
  { intros c0 Hc0. destruct (Ascii.eqb_spec c0 c) as [-> | _]; [|done].
    apply N.ltb_ge in Hc0. lia. }
  assert (Hcont : ∀ c1 x, continuation c1 = Some x →
                          negb (Ascii.eqb c1 c) = true).
  { intros c1 x Hx. by rewrite (continuation_not c1 c x). }
  destruct s as [|c0 s]; [done|]. cbn [first_character] in Hfirst.
  destruct (N_of_ascii c0 <? 128)%N eqn:H0.
  { injection Hfirst as <- <-. cbn in Hch |- *.
    destruct (Ascii.eqb_spec c0 c) as [-> | _]; [|done].
    by rewrite Hspace in Hch. }
  destruct (N_of_ascii c0 <? 192)%N; [by injection Hfirst as <- <-|].
  destruct (N_of_ascii c0 <? 224)%N.
  { destruct s as [|c1 s]; [by injection Hfirst as <- <-|].
    destruct (_ ≫= _) as [p|] eqn:Hp; [|by injection Hfirst as <- <-].
    injection Hfirst as <- <-.
    apply bind_continuation in Hp as (x1 & Hx1 & _).
    cbn [snd all_chars]. by rewrite (Hlead c0), (Hcont c1 x1). }
  destruct (N_of_ascii c0 <? 240)%N.
  { destruct s as [|c1 [|c2 s]]; [by injection Hfirst as <- <-..|].
    destruct (_ ≫= _) as [p|] eqn:Hp; [|by injection Hfirst as <- <-].
    injection Hfirst as <- <-.
    apply bind_continuation in Hp as (x1 & Hx1 & Hp).
    apply bind_continuation in Hp as (x2 & Hx2 & _).
    cbn [snd all_chars].
    by rewrite (Hlead c0), (Hcont c1 x1), (Hcont c2 x2). }
  destruct (N_of_ascii c0 <? 248)%N; [|by injection Hfirst as <- <-].
  destruct s as [|c1 [|c2 [|c3 s]]]; [by injection Hfirst as <- <-..|].
  destruct (_ ≫= _) as [p|] eqn:Hp; [|by injection Hfirst as <- <-].
  injection Hfirst as <- <-.
  apply bind_continuation in Hp as (x1 & Hx1 & Hp).
  apply bind_continuation in Hp as (x2 & Hx2 & Hp).
  apply bind_continuation in Hp as (x3 & Hx3 & _).
  cbn [snd all_chars].
  by rewrite (Hlead c0), (Hcont c1 x1), (Hcont c2 x2), (Hcont c3 x3).
Qed.

Lemma all_chars_append (p : ascii → bool) (a b : string) :
  all_chars p (a +:+ b) = all_chars p a && all_chars p b.
Proof.
  induction a as [|c a IH]; [done|].
  change (String c a +:+ b) with (String c (a +:+ b)).
  cbn [all_chars]. rewrite IH. by destruct (p c).
Qed.

Lemma no_space_eq (s : string) :
  no_space s
  = match first_character s with
    | Some (ch, rest) => visible ch && no_space rest
    | None => true
    end.
Proof.
  unfold no_space. rewrite characters_eq.
  by destruct (first_character s) as [[ch rest]|].
Qed.

(** A text without white space holds no byte that is a white-space
    character of one byte. *)
Lemma no_space_bytes (s : string) (c : ascii) :
  is_space (N_of_ascii c) = true → (N_of_ascii c < 128)%N →
  no_space s = true →
  all_chars (λ c', negb (Ascii.eqb c' c)) s = true.
Proof.
  intros Hspace Hc.
  induction s as [s IH] using string_length_ind. intros Hs.
  rewrite no_space_eq in Hs.
  destruct (first_character s) as [[ch rest]|] eqn:Hfirst.
  - apply andb_true_iff in Hs as [Hch Hrest].
    pose proof (visible_bytes s ch rest c Hfirst Hch Hspace Hc) as Hbytes.
    apply first_character_split in Hfirst as [-> Hlen].
    rewrite all_chars_append, Hbytes. cbn. by apply IH.
  - by apply first_character_none in Hfirst as ->.
Qed.

Lemma lstrip_visible (cs : list character) :
  forallb visible cs = true → lstrip cs = cs.
Proof.
  destruct cs as [|ch cs]; [done|]. cbn.
  intros [Hch _]%andb_true_iff. by rewrite visible_not_space.
Qed.

(** A name without white space, followed by the end of its line, strips
    to the name. *)
Lemma strip_line (name : string) :
  no_space name = true → strip (name +:+ String newline "") = name.
Proof.
  intros Hname. unfold strip.
  rewrite characters_append by by apply no_space_is_text.
  change (characters (String newline ""))
    with [(Some 10%N, String newline "")].
  unfold no_space in Hname.
  destruct (characters name) as [|ch cs] eqn:Hcs.
  - cbn. by rewrite <- (text_of_characters name), Hcs.
  - assert (Hl : lstrip ((ch :: cs) ++ [(Some 10%N, String newline "")])
                 = (ch :: cs) ++ [(Some 10%N, String newline "")]).
    { cbn [app lstrip]. cbn [forallb] in Hname.
      apply andb_true_iff in Hname as [Hch _].
      by rewrite visible_not_space. }
    rewrite Hl, rev_app_distr. cbn [rev app].
    change (lstrip ((Some 10%N, String newline "") :: (rev cs ++ [ch])))
      with (lstrip (rev (ch :: cs))).
    rewrite lstrip_visible.
    + by rewrite rev_involutive, <- Hcs, text_of_characters.
    + rewrite forallb_forall in Hname. apply forallb_forall.
      intros x Hx. apply Hname. by apply in_rev.
Qed.
End Characters.

Section StationFile.
Import Numpy Reporter Text.
Open Scope nat_scope.

Lemma readlines_from_name (line name rest : string) :
  all_chars (λ c, negb (Ascii.eqb c newline)) name = true →
  readlines_from line (name +:+ String newline rest)
  = (line +:+ name +:+ String newline "") :: readlines_from "" rest.
Proof.
  revert line. induction name as [|c name IH]; intros line Hname.
  - change ("" +:+ String newline rest) with (String newline rest).
    cbn [readlines_from]. by rewrite Ascii.eqb_refl.
  - cbn [all_chars] in Hname.
    apply andb_true_iff in Hname as [Hc Hname].
    change (String c name +:+ String newline rest)
      with (String c (name +:+ String newline rest)).
    cbn [readlines_from].
    destruct (Ascii.eqb c newline); [done|].
    rewrite IH by done. f_equal.
    rewrite append_assoc. done.
Qed.

Lemma readlines_one_per_line (names : list string) :
  Forall (λ name, no_space name = true) names →
  readlines_from "" (one_per_line names)
  = map (λ name, name +:+ String newline "") names.
Proof.
  induction 1 as [|name names Hname Hnames IH]; [done|].
  cbn [one_per_line foldr map].
  rewrite readlines_from_name by by apply no_space_bytes.
  by rewrite <- IH.
Qed.

Lemma one_per_line_no_cr (names : list string) :
  Forall (λ name, no_space name = true) names →
  all_chars (λ c, negb (Ascii.eqb c carriage_return)) (one_per_line names)
  = true.
Proof.
  induction 1 as [|name names Hname Hnames IH]; [done|].
  cbn [one_per_line foldr]. rewrite all_chars_append.
  rewrite (no_space_bytes name carriage_return) by done.
  cbn [all_chars andb]. exact IH.
Qed.

Lemma one_per_line_is_text (names : list string) :
  Forall (λ name, no_space name = true) names →
  is_text (one_per_line names) = true.
Proof.
  induction 1 as [|name names Hname Hnames IH]; [done|].
  cbn [one_per_line foldr].
  apply is_text_append; [by apply no_space_is_text|].
  by apply (is_text_append (String newline "")).
Qed.

Lemma strip_lines (names : list string) :
  Forall (λ name, no_space name = true) names →
  map strip (map (λ name, name +:+ String newline "") names) = names.
Proof.
  induction 1 as [|name names Hname Hnames IH]; [done|].
  cbn [map]. by rewrite strip_line, IH.
Qed.

(** X12: a station file that holds one name per line, each line ended
    by a line feed and each name a text in UTF-8 none of whose characters
    is white space (of Unicode, as [str.strip()] takes it), is read by
    cell 8 as exactly the list of the names. *)
Theorem list_of_stations_reads_names (fs : gmap string file)
    (names : list string) :
  fs !! stations_file = Some (TextFile (one_per_line names)) →
  Forall (λ name, no_space name = true) names →
  list_of_stations fs = Ok names.
Proof.
  intros Hfile Hnames.
  unfold list_of_stations, open_text.
  rewrite Hfile, one_per_line_is_text by done. cbn. f_equal.
  unfold readlines.
  rewrite universal_newlines_no_cr by by apply one_per_line_no_cr.
  rewrite readlines_one_per_line by done.
  by apply strip_lines.
Qed.

(** What [str.strip()] and the decoding do beyond ASCII: the no-break
    space U+00A0, the bytes C2 A0, is white space and is stripped; the
    byte A0 alone is no text, and a station file that holds it cannot be
    read. *)
Example strip_removes_no_break_space :
  strip ("A1" +:+ String "194" (String "160" (String newline ""))) = "A1".
Proof. vm_compute. reflexivity. Qed.

Example undecodable_station_file :
  list_of_stations
    (<[ stations_file := TextFile ("A1" +:+ String "160" "") ]> ∅)
  = Raise UnicodeDecodeError.
Proof. vm_compute. reflexivity. Qed.
End StationFile.

Lemma list_of_stations_reads_names_witness :
  Reporter.list_of_stations
    (<[ Reporter.stations_file :=
          Numpy.TextFile (Text.one_per_line ["USC00011084"; "CA002100630"]) ]> ∅)
  = Ok ["USC00011084"; "CA002100630"].
Proof.
  apply list_of_stations_reads_names.
  - apply lookup_insert_eq.
  - repeat constructor.
Defined.


(** ** The loop variables after the export (cell 8) *)

Section LoopVariables.
Import Reporter.
Open Scope nat_scope.

(** X13: after the export loop the variables station and label hold the
    last pair that was enumerated, the one at position
    min(number of stations, number of labels) - 1; when one of the lists is
    empty they keep what they held before. *)
Theorem export_leaves_last_pair (stations : list string) (labels : list nat)
    (st : loop_state) :
  let n := length stations `min` length labels in
  let st' := export_classification stations labels st in
  if decide (n = 0)
  then station st' = station st ∧ label st' = label st
  else station st' = stations !! (n - 1) ∧ label st' = labels !! (n - 1).
Proof.
  intros n st'. subst st'. unfold export_classification.
  destruct (loop_turns (zip stations labels) st) as (_ & _ & Hs & Hl).
  rewrite Hs, Hl.
  assert (Hlen : length (zip stations labels) = n)
    by apply length_zip_with.
  destruct (decide (n = 0)) as [H0 | Hpos].
  - destruct (zip stations labels); [done | cbn in Hlen; lia].
  - destruct (decide (zip stations labels = [])) as [Hnil | _].
    { rewrite Hnil in Hlen. cbn in Hlen. lia. }
    rewrite last_lookup, Hlen. replace (pred n) with (n - 1) by lia.
    rewrite (lookup_zip_with pair).
    destruct (lookup_lt_is_Some_2 stations (n - 1)) as [s Hst]; [lia|].
    destruct (lookup_lt_is_Some_2 labels (n - 1)) as [l Hlb]; [lia|].
    rewrite Hst, Hlb. done.
Qed.
End LoopVariables.


(** ** Names are bound before they are read (all cells) *)

Section WellScoped.
Import Py Notebook Scoping.

Lemma expr_induction (P : expr → Prop) :
  (∀ id, P (Name id)) → (∀ s, P (Str s)) → (∀ n, P (Num n)) → P NoneLit →
  (∀ v a, P v → P (Attribute v a)) →
  (∀ f args kws, P f → Forall P args → Forall (λ kw, P (snd kw)) kws →
     P (CallE f args kws)) →
  (∀ v idx, P v → Forall P idx → P (Subscript v idx)) →
  P (Slice None) → (∀ lo, P lo → P (Slice (Some lo))) →
  (∀ l op r, P l → P r → P (BinOp l op r)) →
  (∀ es, Forall P es → P (ListE es)) →
  (∀ es, Forall P es → P (TupleE es)) →
  (∀ elt target iter, P elt → P iter → P (ListComp elt target iter)) →
  ∀ e, P e.
Proof.
  intros HName HStr HNum HNone HAttr HCall HSub HSlice0 HSlice HBin HList
    HTuple HComp.
  fix IH 1. intros [id|s|n| |v a|f args kws|v idx|[lo|]|l op r|es|es|elt t iter].
  - apply HName.
  - apply HStr.
  - apply HNum.
  - apply HNone.
  - apply HAttr, IH.
  - apply HCall; [apply IH | |].
    + induction args as [|a args IHargs]; constructor; [apply IH | exact IHargs].
    + induction kws as [|[k a] kws IHkws]; constructor; [apply IH | exact IHkws].
  - apply HSub; [apply IH|].
    induction idx as [|a idx IHidx]; constructor; [apply IH | exact IHidx].
  - apply HSlice, IH.
  - apply HSlice0.
  - apply HBin; apply IH.
  - apply HList.
    induction es as [|a es IHes]; constructor; [apply IH | exact IHes].
  - apply HTuple.
    induction es as [|a es IHes]; constructor; [apply IH | exact IHes].
  - apply HComp; apply IH.
Qed.

Lemma stmt_induction (P : stmt → Prop) :
  (∀ m a, P (SImport m a)) → (∀ m names, P (SImportFrom m names)) →
  (∀ t e, P (SAssign t e)) →
  (∀ c a body, Forall P body → P (SWith c a body)) →
  (∀ ts iter body, Forall P body → P (SFor ts iter body)) →
  (∀ e, P (SExpr e)) → P SPass →
  ∀ s, P s.
Proof.
  intros HImport HFrom HAssign HWith HFor HExpr HPass.
  fix IH 1. intros [m a|m names|t e|c a body|ts iter body|e|].
  - apply HImport.
  - apply HFrom.
  - apply HAssign.
  - apply HWith.
    induction body as [|s body IHbody]; constructor; [apply IH | exact IHbody].
  - apply HFor.
    induction body as [|s body IHbody]; constructor; [apply IH | exact IHbody].
  - apply HExpr.
  - apply HPass.
Qed.

Context (w : world).

Lemma and_then_fine (p : progress) (k : list string → progress) :
  fine w p → (∀ calls, fine w (k calls)) → fine w (and_then p k).
Proof. destruct p as [calls [e|]]; cbn; [done|]. intros _ Hk. apply Hk. Qed.

Lemma repeat_eval_fine (n : nat) (f : list string → progress)
    (calls : list string) :
  (∀ calls, fine w (f calls)) → fine w (repeat_eval n f calls).
Proof.
  intros Hf. revert calls. induction n as [|n IH]; intros calls; cbn; [done|].
  apply and_then_fine; [apply Hf | apply IH].
Qed.

(** Evaluation of an expression whose names are bound is stopped, if at
    all, by a call. *)
Lemma eval_fine (e : expr) :
  ∀ bound bound' calls,
    reads_ok bound e = true → bound ⊆ bound' →
    fine w (eval w bound' e calls).
Proof.
  induction e as [id|s|n| |v a IHv|f args kws IHf IHargs IHkws|v idx IHv IHidx
                 | |lo IHlo|l op r IHl IHr|es IHes|es IHes
                 |elt target iter IHelt IHiter] using expr_induction;
    intros bound bound' calls Hok Hsub; cbn in Hok |- *; try done.
  - apply bool_decide_eq_true in Hok.
    destruct (decide (id ∈ bound')) as [|Hnot]; [done|]. exfalso.
    apply Hnot, Hsub, Hok.
  - by eapply IHv.
  - apply andb_true_iff in Hok as [[Hf Hargs]%andb_true_iff Hkws].
    apply and_then_fine; [by eapply IHf|]. intros calls1.
    apply and_then_fine.
    { clear Hkws. revert calls1.
      induction IHargs as [|a args Ha _ IH]; intros calls1; cbn in *; [done|].
      apply andb_true_iff in Hargs as [Ha' Hargs].
      apply and_then_fine; [by eapply Ha|]. intros calls2. by apply IH. }
    intros calls2. apply and_then_fine.
    { clear Hargs. revert calls2.
      induction IHkws as [|[k a] kws Ha _ IH]; intros calls2; cbn in *; [done|].
      apply andb_true_iff in Hkws as [Ha' Hkws].
      apply and_then_fine; [by eapply Ha|]. intros calls3. by apply IH. }
    intros calls3. unfold fine.
    destruct (raises w (dotted f)) as [e|] eqn:He; cbn; [eauto | done].
  - apply andb_true_iff in Hok as [Hv Hidx].
    apply and_then_fine; [by eapply IHv|]. intros calls1.
    revert calls1.
    induction IHidx as [|a idx Ha _ IH]; intros calls1; cbn in *; [done|].
    apply andb_true_iff in Hidx as [Ha' Hidx].
    apply and_then_fine; [by eapply Ha|]. intros calls2. by apply IH.
  - by eapply IHlo.
  - apply andb_true_iff in Hok as [Hl Hr].
    apply and_then_fine; [by eapply IHl|]. intros calls1. by eapply IHr.
  - revert calls.
    induction IHes as [|a es Ha _ IH]; intros calls; cbn in *; [done|].
    apply andb_true_iff in Hok as [Ha' Hes].
    apply and_then_fine; [by eapply Ha|]. intros calls2. by apply IH.
  - revert calls.
    induction IHes as [|a es Ha _ IH]; intros calls; cbn in *; [done|].
    apply andb_true_iff in Hok as [Ha' Hes].
    apply and_then_fine; [by eapply Ha|]. intros calls2. by apply IH.
  - apply andb_true_iff in Hok as [Hiter Helt].
    apply and_then_fine; [by eapply IHiter|]. intros calls1.
    apply repeat_eval_fine. intros calls2.
    eapply IHelt; [exact Helt|].
    intros x [Hx|Hx]%elem_of_union; apply elem_of_union; [by left|].
    right. by apply Hsub.
Qed.

Lemma union_subseteq (extra bound names : gset string) :
  bound ⊆ names → extra ∪ bound ⊆ extra ∪ names.
Proof.
  intros Hsub x [Hx|Hx]%elem_of_union; apply elem_of_union;
    [by left | right; by apply Hsub].
Qed.

Lemma subseteq_union_r (extra names : gset string) : names ⊆ extra ∪ names.
Proof. intros x Hx. apply elem_of_union. by right. Qed.

Lemma singleton_list_to_set (name : string) :
  list_to_set [name] =@{gset string} {[name]}.
Proof. cbn. apply (right_id_L ∅ (∪)). Qed.

Lemma after_eval_fine (out : gset string) (k : kernel) (p : progress)
    (next : kernel → kernel * option exn) :
  fine w p →
  (∀ calls, step_fine w (Kernel (bound_names k) calls) out
                      (next (Kernel (bound_names k) calls))) →
  step_fine w k out (after_eval k p next).
Proof.
  intros Hp Hnext. destruct p as [calls [e|]]; cbn; [|apply Hnext].
  split; [exact Hp|]. split; done.
Qed.

Lemma repeat_exec_fine (bound : gset string) (n : nat)
    (f : kernel → kernel * option exn) (k : kernel) :
  (∀ k', bound ⊆ bound_names k' →
         not_stopped_by_names w (snd (f k'))
         ∧ bound_names k' ⊆ bound_names (fst (f k'))) →
  bound ⊆ bound_names k →
  step_fine w k bound (repeat_exec n f k).
Proof.
  intros Hf. revert k. induction n as [|n IH]; intros k Hsub; cbn.
  - split; [done|]. split; done.
  - destruct (Hf k Hsub) as [Hfine Hgrow].
    destruct (f k) as [k' [e|]]; cbn in *.
    + split; [exact Hfine|]. split; [exact Hgrow | done].
    + destruct (IH k') as (Hfine' & Hgrow' & Hout').
      { intros x Hx. by apply Hgrow, Hsub. }
      split; [exact Hfine'|]. split; [|exact Hout'].
      intros x Hx. by apply Hgrow', Hgrow.
Qed.

Lemma repeat_exec_ext (n : nat) (f g : kernel → kernel * option exn)
    (k : kernel) :
  (∀ k', f k' = g k') → repeat_exec n f k = repeat_exec n g k.
Proof.
  intros Hfg. revert k. induction n as [|n IH]; intros k; cbn; [done|].
  rewrite Hfg. destruct (g k) as [k' [e|]]; [done | apply IH].
Qed.

(** The equations of [exec] on the statements with a body. *)
Lemma exec_body (body : list stmt) (k : kernel) :
  (fix exec_all (ss : list stmt) (k : kernel) : kernel * option exn :=
     match ss with
     | [] => (k, None)
     | s' :: ss' =>
         match exec w s' k with
         | (k', None) => exec_all ss' k'
         | stopped => stopped
         end
     end) body k
  = exec_block w body k.
Proof.
  revert k. induction body as [|s body IH]; intros k; cbn; [done|].
  destruct (exec w s k) as [k' [e|]]; [done | apply IH].
Qed.

Lemma exec_with (c : expr) (a : string) (body : list stmt) (k : kernel) :
  exec w (SWith c a body) k
  = after_eval k (eval w (bound_names k) c (calls_made k))
               (λ k', exec_block w body (bind [a] k')).
Proof.
  cbn [exec]. destruct (eval w (bound_names k) c (calls_made k)) as [calls [e|]];
    cbn [after_eval]; [done | apply exec_body].
Qed.

Lemma exec_for (ts : list string) (iter : expr) (body : list stmt)
    (k : kernel) :
  exec w (SFor ts iter body) k
  = after_eval k (eval w (bound_names k) iter (calls_made k))
               (repeat_exec (item_count w iter)
                            (λ k', exec_block w body (bind ts k'))).
Proof.
  cbn [exec].
  destruct (eval w (bound_names k) iter (calls_made k)) as [calls [e|]];
    cbn [after_eval]; [done|].
  apply repeat_exec_ext. intros k'. apply exec_body.
Qed.

Lemma scope_body (body : list stmt) (bound : gset string) :
  (fix block (ss : list stmt) (bound : gset string) : option (gset string) :=
     match ss with
     | [] => Some bound
     | s' :: ss' =>
         match scope_after bound s' with
         | Some bound' => block ss' bound'
         | None => None
         end
     end) body bound
  = scope_after_block bound body.
Proof.
  revert bound. induction body as [|s body IH]; intros bound; cbn; [done|].
  destruct (scope_after bound s); [apply IH | done].
Qed.

Lemma exec_block_fine (body : list stmt) :
  Forall (stmt_fine w) body →
  ∀ bound out k,
    scope_after_block bound body = Some out → bound ⊆ bound_names k →
    step_fine w k out (exec_block w body k).
Proof.
  induction 1 as [|s body Hs _ IH]; intros bound out k Hscope Hsub;
    cbn in Hscope |- *.
  - injection Hscope as <-. split; [done|]. split; done.
  - destruct (scope_after bound s) as [bound2|] eqn:Hs2; [|done].
    destruct (Hs bound bound2 k Hs2 Hsub) as (Hfine & Hgrow & Hout).
    destruct (exec w s k) as [k2 [e|]]; cbn in *.
    + split; [exact Hfine|]. split; [exact Hgrow | done].
    + destruct (IH bound2 out k2 Hscope (Hout eq_refl))
        as (Hfine' & Hgrow' & Hout').
      split; [exact Hfine'|]. split; [|exact Hout'].
      intros x Hx. by apply Hgrow', Hgrow.
Qed.

(** Executing a statement that passes the scope check is stopped, if at
    all, by a call; the names bound before stay bound, and the names the
    check promises are bound afterwards. *)
Lemma exec_fine (s : stmt) : stmt_fine w s.
Proof.
  induction s as [m a|m names|t e|c a body IHbody|ts iter body IHbody|e|]
    using stmt_induction; intros bound out k Hscope Hsub.
  - cbn [scope_after] in Hscope. injection Hscope as <-.
    cbn [exec]. unfold step_fine, bind. cbn [fst snd bound_names].
    split; [done|]. split; [apply subseteq_union_r|]. intros _.
    rewrite singleton_list_to_set. by apply union_subseteq.
  - cbn [scope_after] in Hscope. injection Hscope as <-.
    cbn [exec]. unfold step_fine, bind. cbn [fst snd bound_names].
    split; [done|]. split; [apply subseteq_union_r|]. intros _.
    by apply union_subseteq.
  - cbn [scope_after] in Hscope. cbn [exec].
    destruct (reads_ok bound e) eqn:He; [|done]. injection Hscope as <-.
    apply after_eval_fine; [by eapply eval_fine|].
    intros calls. unfold step_fine, bind. cbn [fst snd bound_names].
    split; [done|].
    split; [apply subseteq_union_r|]. intros _.
    rewrite singleton_list_to_set. by apply union_subseteq.
  - rewrite exec_with. cbn [scope_after] in Hscope.
    rewrite scope_body in Hscope.
    destruct (reads_ok bound c) eqn:Hc; [|done].
    apply after_eval_fine; [by eapply eval_fine|].
    intros calls.
    destruct (exec_block_fine body IHbody ({[a]} ∪ bound) out
                (bind [a] (Kernel (bound_names k) calls)) Hscope)
      as (Hfine & Hgrow & Hout).
    { unfold bind. cbn [bound_names].
      rewrite singleton_list_to_set. by apply union_subseteq. }
    split; [exact Hfine|]. split; [|exact Hout].
    intros x Hx. apply Hgrow. unfold bind. cbn [bound_names].
    by apply subseteq_union_r.
  - rewrite exec_for. cbn [scope_after] in Hscope.
    rewrite scope_body in Hscope.
    destruct (reads_ok bound iter) eqn:Hiter; [|done].
    destruct (scope_after_block (list_to_set ts ∪ bound) body)
      as [out_body|] eqn:Hbody; [|done].
    injection Hscope as <-.
    apply after_eval_fine; [by eapply eval_fine|].
    intros calls.
    apply repeat_exec_fine; [|done].
    intros k' Hk'.
    destruct (exec_block_fine body IHbody (list_to_set ts ∪ bound) out_body
                (bind ts k') Hbody) as (Hfine & Hgrow & _).
    { unfold bind. cbn [bound_names]. by apply union_subseteq. }
    split; [exact Hfine|].
    intros x Hx. apply Hgrow. unfold bind. cbn [bound_names].
    by apply subseteq_union_r.
  - cbn [scope_after] in Hscope. cbn [exec].
    destruct (reads_ok bound e) eqn:He; [|done]. injection Hscope as <-.
    apply after_eval_fine; [by eapply eval_fine|].
    intros calls. unfold step_fine. cbn [fst snd bound_names].
    split; [done|]. split; done.
  - cbn [scope_after] in Hscope. injection Hscope as <-.
    cbn [exec]. unfold step_fine. cbn [fst snd]. split; [done|]. split; done.
Qed.
End WellScoped.

Section WellScopedNotebook.
Import Py Notebook Scoping.

(** X14: os is the only name the notebook reads without binding it.
    From every kernel that binds os besides the builtins, whatever the
    library calls do and however many items the iterables yield, the run of
    the cells is either not stopped or stopped by an exception that a
    library call raised, never by a name the notebook left unbound. *)
Theorem only_os_is_missing (w : world) (k : kernel) :
  bound_names kernel_with_os ⊆ bound_names k →
  not_stopped_by_names w (snd (run_cells w cells k)).
Proof.
  intros Hk.
  assert (Hscope : is_Some (scope_after_block (bound_names kernel_with_os)
                                              (concat cells))).
  { apply (bool_decide_unpack _). vm_compute. reflexivity. }
  destruct Hscope as [out Hscope].
  apply (exec_block_fine w (concat cells)
           (proj2 (Forall_forall _ _) (λ s _, exec_fine w s))
           _ out k Hscope Hk).
Qed.
End WellScopedNotebook.

Lemma only_os_is_missing_witness :
  Scoping.not_stopped_by_names (Notebook.calm_world 2)
    (snd (Py.run_cells (Notebook.calm_world 2) Notebook.cells
            Notebook.kernel_with_os)).
Proof.
  apply (only_os_is_missing (Notebook.calm_world 2) Notebook.kernel_with_os).
  reflexivity.
Defined.

Section MissingImport.
Import Py Notebook Scoping.

Lemma exec_block_cons (w : world) (s : stmt) (ss : list stmt) (k : kernel) :
  exec_block w (s :: ss) k
  = match exec w s k with
    | (k', None) => exec_block w ss k'
    | stopped => stopped
    end.
Proof. reflexivity. Qed.

(** X15: from every kernel in which os is unbound, whatever else is
    bound and whatever the library calls would do, the run stops with
    NameError os at the second line of cell 2; no library call has been
    made by then, and every name bound at the start is still bound. *)
Theorem run_stops_wherever_os_is_unbound (w : world) (k : kernel) :
  "os" ∉ bound_names k →
  snd (run_cells w cells k) = Some (NameError "os")
  ∧ calls_made (fst (run_cells w cells k)) = calls_made k
  ∧ bound_names k ⊆ bound_names (fst (run_cells w cells k)).
Proof.
  intros Hos. unfold run_cells.
  change (concat cells)
    with (cell1 ++ [SAssign "DATA_PATH" (Str "data/weather")]
          ++ SAssign "matrix_file"
               (call (Attribute (Attribute (Name "os") "path") "join")
                     [Name "DATA_PATH"; Str "data/gsn-2000-TMAX-TMIN-PRCP.npz"])
             :: tail (tail (concat (tail cells)))).
  unfold cell1. cbn [app].
  do 5 (rewrite exec_block_cons; cbn [exec]).
  rewrite exec_block_cons. cbn [exec eval after_eval].
  set (k6 := bind ["DATA_PATH"] _).
  assert (Hk6 : ("os" ∉ bound_names k6) ∧ calls_made k6 = calls_made k
                ∧ bound_names k ⊆ bound_names k6).
  { subst k6. unfold bind. cbn [bound_names calls_made].
    split; [|split; [done|]].
    - rewrite !elem_of_union, !elem_of_list_to_set.
      intros [Hin|[Hin|[Hin|[Hin|[Hin|[Hin|Hin]]]]]]; [..|done];
        revert Hin; apply (bool_decide_unpack _); vm_compute; reflexivity.
    - intros x Hx. rewrite !elem_of_union. do 6 right. done. }
  destruct Hk6 as (Hos6 & Hcalls6 & Hsub6).
  rewrite exec_block_cons. unfold call. cbn [exec eval].
  destruct (decide ("os" ∈ bound_names k6)) as [Hin | _]; [done|].
  cbn [and_then after_eval fst snd calls_made bound_names].
  split; [done|]. split; [done|]. exact Hsub6.
Qed.
End MissingImport.

Lemma run_stops_wherever_os_is_unbound_witness :
  snd (Py.run_cells (Notebook.calm_world 2) Notebook.cells
         Notebook.fresh_kernel)
  = Some (NameError "os").
Proof.
  apply (run_stops_wherever_os_is_unbound (Notebook.calm_world 2)
           Notebook.fresh_kernel).
  apply (bool_decide_unpack _). vm_compute. reflexivity.
Defined.


(** ** The order of the library calls (cells 2, 6 and 8) *)

Section EffectOrder.
Import Py Notebook.

(** X16: the station file is opened only after the training.  When
    [open] raises an exception and every other call succeeds, the run ends
    with that exception after [np.load] and [model.fit] were called;
    [KMeans().fit] and [zip] are never called, however many items the
    iterables yield. *)
Theorem station_list_is_opened_after_training (e : exn)
    (count : expr → nat) :
  let w := World (λ callee, if decide (callee = "open") then Some e else None)
                 count in
  snd (run_cells w cells kernel_with_os) = Some e
  ∧ List.filter (λ c, bool_decide (c ∈ ["np.load"; "model.fit"; "open";
                                        "KMeans().fit"; "zip"]))
                (calls_made (fst (run_cells w cells kernel_with_os)))
    = ["np.load"; "model.fit"].
Proof. split; vm_compute; reflexivity. Qed.
End EffectOrder.
